(** * medium-mcp: normalisation, access layer and tool surface

    A shallow embedding of [src/medium_mcp] (formatting.py, utils.py,
    models.py, config.py, client.py, server.py) and the properties of the
    specification proved over it.

    Python text is a [string] whose characters are the code points below 256;
    Python integers are [Z]; dynamically typed upstream values are [pyval];
    the [details] dictionary of [MediumError] is a [gmap string string]. *)

From Stdlib Require Import ZArith String Ascii List DecimalString Bool Lia.
From stdpp Require Import base option gmap strings list.

Open Scope string_scope.
Open Scope Z_scope.

(* ===================================================================== *)
(** * Python text *)
(* ===================================================================== *)

Module PyStr.

(** [str.lower] on one code point below 256: A..Z and the Latin-1 capitals
    U+00C0..U+00DE (U+00D7, the multiplication sign, excepted) move up by
    32; every other code point is its own lowercase. *)
Definition lower_char (c : ascii) : ascii :=
  let n := N_of_ascii c in
  if ((65 <=? n) && (n <=? 90))%N
     || ((192 <=? n) && (n <=? 222) && negb (n =? 215))%N
  then ascii_of_N (n + 32)
  else c.

(** [s.lower()] *)
Fixpoint lower (s : string) : string :=
  match s with
  | EmptyString => EmptyString
  | String c s' => String (lower_char c) (lower s')
  end.

(** [c.upper()], when no code point of the result is above 255: the sharp s
    becomes SS, and the micro sign and the y with diaeresis, whose uppercase
    lies above 255, have none here. *)
Definition upper_char (c : ascii) : option string :=
  let n := N_of_ascii c in
  if (((97 <=? n) && (n <=? 122))
      || ((224 <=? n) && (n <=? 254) && negb (n =? 247)))%N
  then Some (String (ascii_of_N (n - 32)) EmptyString)
  else if (n =? 223)%N then Some "SS"
  else if ((n =? 181) || (n =? 255))%N then None
  else Some (String c EmptyString).

(** [s.upper()], when it is a text of code points below 256. *)
Fixpoint upper (s : string) : option string :=
  match s with
  | EmptyString => Some EmptyString
  | String c s' =>
      match upper_char c, upper s' with
      | Some u, Some r => Some (u ++ r)
      | _, _ => None
      end
  end.

(** [s.replace(old, new)] for one-character [old] and [new]. *)
Fixpoint replace_char (old new : ascii) (s : string) : string :=
  match s with
  | EmptyString => EmptyString
  | String c s' =>
      String (if Ascii.eqb c old then new else c) (replace_char old new s')
  end.

(** [needle in hay] *)
Fixpoint contains (needle hay : string) : bool :=
  String.prefix needle hay
  || match hay with
     | EmptyString => false
     | String _ hay' => contains needle hay'
     end.

(** The code points below 256 that [str.strip] and [str.isspace] take for
    white space: TAB, LF, VT, FF, CR, FS, GS, RS, US, SPACE, NEL, NBSP. *)
Definition is_space (c : ascii) : bool :=
  let n := N_of_ascii c in
  (((9 <=? n) && (n <=? 13)) || ((28 <=? n) && (n <=? 32))
   || (n =? 133) || (n =? 160))%N.

Fixpoint lstrip (s : string) : string :=
  match s with
  | EmptyString => EmptyString
  | String c s' => if is_space c then lstrip s' else s
  end.

(** Right strip: a character is dropped when it is white space and all
    that follows it has been dropped. *)
Fixpoint rstrip (s : string) : string :=
  match s with
  | EmptyString => EmptyString
  | String c s' =>
      match rstrip s' with
      | EmptyString => if is_space c then EmptyString else String c EmptyString
      | r => String c r
      end
  end.

(** [s.strip()] *)
Definition strip (s : string) : string := rstrip (lstrip s).

(** [sep.join(parts)] *)
Fixpoint join (sep : string) (parts : list string) : string :=
  match parts with
  | [] => ""
  | [p] => p
  | p :: ps => p +:+ sep +:+ join sep ps
  end.

(** [str(z)] for an integer. *)
Definition of_Z (z : Z) : string := NilZero.string_of_int (Z.to_int z).

(** ["%0<w>d" % z] for a non-negative [z]. *)
Definition zero_pad (w : nat) (z : Z) : string :=
  let s := of_Z z in
  string_of_list_ascii (repeat "0"%char (w - String.length s)) +:+ s.

Definition hex_digit (n : N) : ascii :=
  if (n <? 10)%N then ascii_of_N (48 + n) else ascii_of_N (87 + n).

Definition squote : ascii := "'"%char.
Definition dquote : ascii := "034"%char.
Definition backslash : ascii := "\"%char.

Definition has_char (c : ascii) (s : string) : bool :=
  existsb (Ascii.eqb c) (list_ascii_of_string s).

(** One character of [repr(s)], for the enclosing quote [q]. *)
Definition repr_char (q c : ascii) : string :=
  let n := N_of_ascii c in
  let one := String c EmptyString in
  let hex := String backslash
               (String "x" (String (hex_digit (n / 16))
                  (String (hex_digit (n mod 16)) EmptyString)))%N in
  if Ascii.eqb c q || Ascii.eqb c backslash then String backslash one
  else if (n =? 9)%N then String backslash "t"
  else if (n =? 10)%N then String backslash "n"
  else if (n =? 13)%N then String backslash "r"
  else if ((n <? 32) || (n =? 127))%N then hex
  else if (n <? 127)%N then one
  else if ((n <=? 160) || (n =? 173))%N then hex
  else one.

(** [repr(s)] of a text: single quotes, unless the text has a single
    quote and no double quote. *)
Definition repr (s : string) : string :=
  let q := if has_char squote s && negb (has_char dquote s)
           then dquote else squote in
  String q (String.concat "" (map (repr_char q) (list_ascii_of_string s)))
  +:+ String q EmptyString.

End PyStr.

(* ===================================================================== *)
(** * Python values *)
(* ===================================================================== *)

(** The values an upstream field can hold. A [float] is carried by its
    [repr] text (its arithmetic plays no part here); a [datetime] is naive;
    an object exposes its class name, the texts of [repr(o)] and [str(o)],
    what calling it without arguments returns (when it is callable), and its
    attributes.  The built-in methods and fields of [str], [int], [float],
    [bool], [list] and [datetime] are not attributes in this model, nor are
    the double-underscore names: a statement on attribute lookup that
    depends on it is made for the objects of the upstream library and
    [None] ([Py.plain]) and for the other names. *)
#[warnings="-register-all"]
Inductive pyval : Type :=
| PNone
| PBool (b : bool)
| PInt (z : Z)
| PFloat (r : string)
| PStr (s : string)
| PList (l : list pyval)
| PDatetime (year month day hour minute second microsecond : Z)
| PObj (cls repr_text str_text : string) (call : option pyval)
       (attrs : list (string * pyval)).

(** A plain data object of class [cls]. *)
Definition data_obj (cls : string) (attrs : list (string * pyval)) : pyval :=
  let txt := "<" +:+ cls +:+ " object>" in
  PObj cls txt txt None attrs.

Module Py.

(** [type(v).__name__] *)
Definition type_name (v : pyval) : string :=
  match v with
  | PNone => "NoneType"
  | PBool _ => "bool"
  | PInt _ => "int"
  | PFloat _ => "float"
  | PStr _ => "str"
  | PList _ => "list"
  | PDatetime _ _ _ _ _ _ _ => "datetime.datetime"
  | PObj cls _ _ _ _ => cls
  end.

(** [bool(v)] *)
Definition truthy (v : pyval) : bool :=
  match v with
  | PNone => false
  | PBool b => b
  | PInt z => negb (z =? 0)
  | PFloat r => negb (String.eqb r "0.0" || String.eqb r "-0.0")
  | PStr s => negb (String.eqb s "")
  | PList l => match l with [] => false | _ => true end
  | PDatetime _ _ _ _ _ _ _ => true
  | PObj _ _ _ _ _ => true
  end.

(** [a or b] *)
Definition or_else (a b : pyval) : pyval := if truthy a then a else b.

Fixpoint assoc (name : string) (attrs : list (string * pyval)) : option pyval :=
  match attrs with
  | [] => None
  | (k, v) :: rest => if String.eqb k name then Some v else assoc name rest
  end.

(** [dt.isoformat(sep)] of a naive datetime: date and time at seconds
    precision, the microseconds added when they are not zero. *)
Definition isoformat_text (sep : string) (y mo d h mi s us : Z) : string :=
  PyStr.zero_pad 4 y +:+ "-" +:+ PyStr.zero_pad 2 mo +:+ "-"
  +:+ PyStr.zero_pad 2 d +:+ sep +:+ PyStr.zero_pad 2 h +:+ ":"
  +:+ PyStr.zero_pad 2 mi +:+ ":" +:+ PyStr.zero_pad 2 s
  +:+ (if us =? 0 then "" else "." +:+ PyStr.zero_pad 6 us).

(** Attribute lookup on an object of the upstream library, on None and on a
    datetime: [Some v] when [v.name] exists.  Of the names this program looks
    up, [isoformat] is the only one a datetime has; it is a method object,
    callable, returning the timestamp text. *)
Definition lookup_attr (v : pyval) (name : string) : option pyval :=
  match v with
  | PObj _ _ _ _ attrs => assoc name attrs
  | PDatetime y mo d h mi s us =>
      if String.eqb name "isoformat"
      then let m := "<built-in method isoformat of datetime.datetime object>" in
           Some (PObj "builtin_function_or_method" m m
                      (Some (PStr (isoformat_text "T" y mo d h mi s us))) [])
      else None
  | _ => None
  end.

(** The names that begin with two underscores ([__class__], [__dict__] and
    the like), which every Python object answers to, are not attributes in
    this model. *)
Definition dunder (name : string) : bool := String.prefix "__" name.

(** An instance of a class of the upstream library, or None: a value with no
    built-in attribute of its own, whose attributes are the ones it lists.
    [lookup_attr] is Python's attribute lookup on these values.  On a [str],
    an [int], a [float], a [bool], a [list] or a [datetime] it leaves out the
    built-in methods and fields, [isoformat] of a datetime apart: there it
    is Python's lookup for the names [username] and [isoformat], the two
    this program asks of a field value, and a statement about other names is
    made for plain values only. *)
Definition plain (v : pyval) : bool :=
  match v with
  | PObj _ _ _ _ _ | PNone => true
  | _ => false
  end.

(** [hasattr(v, name)] *)
Definition hasattr (v : pyval) (name : string) : bool :=
  match lookup_attr v name with Some _ => true | None => false end.

(** [getattr(v, name, default)] *)
Definition getattr3 (v : pyval) (name : string) (default : pyval) : pyval :=
  match lookup_attr v name with Some x => x | None => default end.

(** [repr] of a datetime drops a zero microsecond, and then a zero
    second. *)
Definition datetime_repr (y mo d h mi s us : Z) : string :=
  let fields :=
    if us =? 0
    then (if s =? 0 then [y; mo; d; h; mi] else [y; mo; d; h; mi; s])
    else [y; mo; d; h; mi; s; us] in
  "datetime.datetime(" +:+ PyStr.join ", " (map PyStr.of_Z fields) +:+ ")".

(** [repr(v)] *)
Fixpoint repr (v : pyval) : string :=
  match v with
  | PNone => "None"
  | PBool b => if b then "True" else "False"
  | PInt z => PyStr.of_Z z
  | PFloat r => r
  | PStr s => PyStr.repr s
  | PList l => "[" +:+ PyStr.join ", " (map repr l) +:+ "]"
  | PDatetime y mo d h mi s us => datetime_repr y mo d h mi s us
  | PObj _ r _ _ _ => r
  end.

(** [str(v)] *)
Definition str (v : pyval) : string :=
  match v with
  | PStr s => s
  | PDatetime y mo d h mi s us => isoformat_text " " y mo d h mi s us
  | PObj _ _ s _ _ => s
  | _ => repr v
  end.

(** [v == ""] *)
Definition eq_empty_str (v : pyval) : bool :=
  match v with PStr s => String.eqb s "" | _ => false end.

Definition is_none (v : pyval) : bool :=
  match v with PNone => true | _ => false end.

End Py.

(* ===================================================================== *)
(** * Exceptions and results *)
(* ===================================================================== *)

(** models.py, [class MediumError(Exception)]: [details or {}] is the
    mapping itself. *)
Record MediumError := mkMediumError {
  message : string;
  status_code : option Z;
  details : gmap string string
}.

(** An exception in flight: an instance of a built-in or library subclass
    of [Exception], known by its class name and by [str(e)], or a
    [MediumError]. *)
Inductive exn : Type :=
| PyException (type msg : string)
| MediumErr (e : MediumError).

(** [str(e)]; [MediumError.__init__] hands [message] to [Exception]. *)
Definition exn_str (e : exn) : string :=
  match e with
  | PyException _ msg => msg
  | MediumErr m => message m
  end.

Inductive outcome (A : Type) : Type :=
| Returns (a : A)
| Raises (e : exn).
Arguments Returns {A} a.
Arguments Raises {A} e.

Definition AttributeError (v : pyval) (name : string) : exn :=
  PyException "AttributeError"
    ("'" +:+ Py.type_name v +:+ "' object has no attribute '" +:+ name +:+ "'").

Definition TypeError (msg : string) : exn := PyException "TypeError" msg.
Definition ValueError (msg : string) : exn := PyException "ValueError" msg.

(** [v.name] *)
Definition py_attr (v : pyval) (name : string) : outcome pyval :=
  match Py.lookup_attr v name with
  | Some x => Returns x
  | None => Raises (AttributeError v name)
  end.

(** [f()] *)
Definition py_call0 (f : pyval) : outcome pyval :=
  match f with
  | PObj _ _ _ (Some r) _ => Returns r
  | _ => Raises (TypeError ("'" +:+ Py.type_name f +:+ "' object is not callable"))
  end.

(** [l[:k]] on a list: the first [k] elements, and for a negative [k] all
    but the last [-k]. *)
Definition slice_to {A : Type} (l : list A) (k : Z) : list A :=
  if k <? 0 then firstn (Z.to_nat (Z.of_nat (length l) + k)) l
  else firstn (Z.to_nat k) l.

(** [v[:k]]; sequences other than [list] are not modelled. *)
Definition py_slice_to (v : pyval) (k : Z) : outcome (list pyval) :=
  match v with
  | PList l => Returns (slice_to l k)
  | _ => Raises (TypeError ("'" +:+ Py.type_name v +:+ "' object is not subscriptable"))
  end.

(* ===================================================================== *)
(** * formatting.py and utils.py *)
(* ===================================================================== *)

(** [normalize_tag]; the argument is a text or [None]. *)
Definition normalize_tag (tag : option string) : option string :=
  match tag with
  | None => None
  | Some s =>
      if String.eqb s "" then Some s
      else Some (PyStr.replace_char " " "-" (PyStr.lower s))
  end.

(** [convert_to_string]. *)
Definition convert_to_string (value : pyval) : outcome pyval :=
  if Py.is_none value || Py.eq_empty_str value then Returns (PStr "")
  else if Py.hasattr value "username"
          && Py.truthy (Py.getattr3 value "username" PNone)
  then Returns (PStr (Py.str (Py.getattr3 value "username" PNone)))
  else if Py.hasattr value "isoformat"
  then py_call0 (Py.getattr3 value "isoformat" PNone)
  else Returns (if Py.truthy value then PStr (Py.str value) else PStr "").

(** [safe_getattr]. *)
Definition safe_getattr (obj : pyval) (attr : string) (default : pyval) : pyval :=
  let value := Py.getattr3 obj attr default in
  if Py.is_none value then default else value.

(* ===================================================================== *)
(** * Effects: results, and the upstream calls made so far *)
(* ===================================================================== *)

#[global] Instance outcome_ret : MRet outcome := λ A a, Returns a.
#[global] Instance outcome_bind : MBind outcome := λ A B f m,
  match m with
  | Returns a => f a
  | Raises e => Raises e
  end.

(** One call into the upstream client ([medium_api]), with its arguments. *)
Inductive event : Type :=
| CallUser (username : string)
| CallUserFetchArticles (user : pyval)
| CallArticle (article_id : string)
| CallTopfeeds (tag : option string) (mode : string)
| CallSearchArticles (query : string)
| CallFetchArticles (articles : list pyval).

(** A computation returns or raises, and extends the log of upstream
    calls. *)
Definition M (A : Type) : Type := list event → outcome A * list event.

#[global] Instance M_ret : MRet M := λ A a log, (Returns a, log).
#[global] Instance M_bind : MBind M := λ A B f m log,
  match m log with
  | (Returns a, log') => f a log'
  | (Raises e, log') => (Raises e, log')
  end.

Definition raise {A : Type} (e : exn) : M A := λ log, (Raises e, log).

Definition lift {A : Type} (o : outcome A) : M A := λ log, (o, log).

(** An upstream call: it is logged, then returns or raises. *)
Definition upstream {A : Type} (ev : event) (o : outcome A) : M A :=
  λ log, (o, (log ++ [ev])%list).

(** [try: body  except Exception as e: handler e] *)
Definition try_except {A : Type} (body : M A) (handler : exn → M A) : M A :=
  λ log,
    match body log with
    | (Raises e, log') => handler e log'
    | r => r
    end.

(** Run from an empty log. *)
Definition run {A : Type} (m : M A) : outcome A * list event := m [].

(** The upstream client. Each entry is what the call returns or raises for
    its arguments.  [user_fetch_articles] gives the user object as
    [user.fetch_articles()] leaves it; [fetch_articles] fills the article
    objects of its argument in place, so the list keeps its elements and
    [hydrated] gives each object as a returning call leaves it. *)
Module Upstream.
Record Medium := {
  user : string → outcome pyval;
  user_fetch_articles : pyval → outcome pyval;
  article : string → outcome pyval;
  topfeeds : option string → string → outcome pyval;
  search_articles : string → outcome pyval;
  fetch_articles : list pyval → outcome unit;
  hydrated : pyval → pyval
}.
End Upstream.

(* ===================================================================== *)
(** * models.py *)
(* ===================================================================== *)

(** pydantic is not part of this repository.  A [str] field takes a text
    unchanged and nothing else among [pyval]; the coercions of the scalar
    fields ([int], [bool], [float]) and the text of a [ValidationError] are
    taken as parameters, known only to keep a value of the exact type and to
    refuse [None]. *)
Class Pydantic := {
  lax_int : pyval → option Z;
  lax_bool : pyval → option bool;
  lax_float : pyval → option string;
  validation_error_text : string → list (string * pyval) → string;
  lax_int_exact : ∀ z, lax_int (PInt z) = Some z;
  lax_bool_exact : ∀ b, lax_bool (PBool b) = Some b;
  lax_float_exact : ∀ r, lax_float (PFloat r) = Some r;
  lax_int_none : lax_int PNone = None;
  lax_bool_none : lax_bool PNone = None;
  lax_float_none : lax_float PNone = None
}.

(** The validators that take a value of the exact type only. *)
#[global, refine] Instance exact_types : Pydantic := {|
  lax_int v := match v with PInt z => Some z | _ => None end;
  lax_bool v := match v with PBool b => Some b | _ => None end;
  lax_float v := match v with PFloat r => Some r | _ => None end;
  validation_error_text model kw := "validation error for " +:+ model
|}.
Proof. all: reflexivity. Defined.

Definition as_str (v : pyval) : option string :=
  match v with PStr s => Some s | _ => None end.

Definition as_opt_str (v : pyval) : option (option string) :=
  match v with
  | PNone => Some None
  | PStr s => Some (Some s)
  | _ => None
  end.

Definition as_str_list (v : pyval) : option (list string) :=
  match v with PList l => mapM as_str l | _ => None end.

(** The keyword argument [name] of a constructor call, None standing for a
    keyword that is not passed as well. *)
Definition kwarg (kw : list (string * pyval)) (name : string) : pyval :=
  default PNone (Py.assoc name kw).

Definition validated `{Pydantic} {A : Type} (model : string)
    (kw : list (string * pyval)) (r : option A) : outcome A :=
  match r with
  | Some a => Returns a
  | None => Raises (PyException "ValidationError" (validation_error_text model kw))
  end.

(** A field declared with [Field(...)]: the keyword has to be passed, and
    its value has to validate. *)
Definition required {A : Type} (validate : pyval → option A)
    (kw : list (string * pyval)) (name : string) : option A :=
  match Py.assoc name kw with
  | Some v => validate v
  | None => None
  end.

(** A field declared with a default: a keyword that is passed has to
    validate, None included; one that is left out takes the default, which
    is not validated. *)
Definition defaulted {A : Type} (validate : pyval → option A) (fallback : A)
    (kw : list (string * pyval)) (name : string) : option A :=
  match Py.assoc name kw with
  | Some v => validate v
  | None => Some fallback
  end.

(** JSON values, as [model_dump] and [json.dumps] see them. *)
#[warnings="-register-all"]
Inductive json : Type :=
| JNull
| JBool (b : bool)
| JInt (z : Z)
| JFloat (r : string)
| JStr (s : string)
| JArr (items : list json)
| JObj (fields : list (string * json)).

Definition JOptStr (o : option string) : json :=
  match o with Some s => JStr s | None => JNull end.

Module MediumUser.
Record t := mk {
  user_id : string;
  username : string;
  fullname : string;
  bio : option string;
  followers_count : Z;
  following_count : Z;
  twitter_username : option string;
  image_url : option string;
  medium_member_at : option string;
  is_writer_program_enrolled : bool;
  has_list : bool;
  is_suspended : bool
}.

(** [MediumUser(...)] on the keyword arguments [kw]. *)
Definition new `{Pydantic} (kw : list (string * pyval)) : outcome t :=
  validated "MediumUser" kw (
    a ← required as_str kw "user_id";
    b ← required as_str kw "username";
    c ← required as_str kw "fullname";
    d ← defaulted as_opt_str None kw "bio";
    e ← required lax_int kw "followers_count";
    f ← required lax_int kw "following_count";
    g ← defaulted as_opt_str None kw "twitter_username";
    h ← defaulted as_opt_str None kw "image_url";
    i ← defaulted as_opt_str None kw "medium_member_at";
    j ← defaulted lax_bool false kw "is_writer_program_enrolled";
    k ← defaulted lax_bool false kw "has_list";
    l ← defaulted lax_bool false kw "is_suspended";
    Some (mk a b c d e f g h i j k l)).

Definition model_dump (u : t) : json :=
  JObj [("user_id", JStr (user_id u)); ("username", JStr (username u));
        ("fullname", JStr (fullname u)); ("bio", JOptStr (bio u));
        ("followers_count", JInt (followers_count u));
        ("following_count", JInt (following_count u));
        ("twitter_username", JOptStr (twitter_username u));
        ("image_url", JOptStr (image_url u));
        ("medium_member_at", JOptStr (medium_member_at u));
        ("is_writer_program_enrolled", JBool (is_writer_program_enrolled u));
        ("has_list", JBool (has_list u));
        ("is_suspended", JBool (is_suspended u))].
End MediumUser.

Module MediumArticle.
Record t := mk {
  article_id : string;
  title : string;
  subtitle : option string;
  author : string;
  published_at : string;
  last_modified_at : string;
  tags : list string;
  topics : list string;
  claps : Z;
  voters : Z;
  word_count : Z;
  reading_time : string;
  responses_count : Z;
  url : string;
  unique_slug : string;
  is_locked : bool;
  is_shortform : bool;
  language : string
}.

(** [MediumArticle(...)] on the keyword arguments [kw].  The default of
    [reading_time] is the integer 0 of the declaration, which is not
    validated and so stays 0 rather than 0.0. *)
Definition new `{Pydantic} (kw : list (string * pyval)) : outcome t :=
  validated "MediumArticle" kw (
    a ← required as_str kw "article_id";
    b ← required as_str kw "title";
    c ← defaulted as_opt_str None kw "subtitle";
    d ← required as_str kw "author";
    e ← required as_str kw "published_at";
    f ← required as_str kw "last_modified_at";
    g ← defaulted as_str_list [] kw "tags";
    h ← defaulted as_str_list [] kw "topics";
    i ← defaulted lax_int 0 kw "claps";
    j ← defaulted lax_int 0 kw "voters";
    k ← defaulted lax_int 0 kw "word_count";
    l ← defaulted lax_float "0" kw "reading_time";
    m ← defaulted lax_int 0 kw "responses_count";
    n ← required as_str kw "url";
    o ← required as_str kw "unique_slug";
    p ← defaulted lax_bool false kw "is_locked";
    q ← defaulted lax_bool false kw "is_shortform";
    r ← defaulted as_str "en" kw "language";
    Some (mk a b c d e f g h i j k l m n o p q r)).

Definition model_dump (x : t) : json :=
  JObj [("article_id", JStr (article_id x)); ("title", JStr (title x));
        ("subtitle", JOptStr (subtitle x)); ("author", JStr (author x));
        ("published_at", JStr (published_at x));
        ("last_modified_at", JStr (last_modified_at x));
        ("tags", JArr (map JStr (tags x)));
        ("topics", JArr (map JStr (topics x)));
        ("claps", JInt (claps x)); ("voters", JInt (voters x));
        ("word_count", JInt (word_count x));
        ("reading_time", JFloat (reading_time x));
        ("responses_count", JInt (responses_count x));
        ("url", JStr (url x)); ("unique_slug", JStr (unique_slug x));
        ("is_locked", JBool (is_locked x));
        ("is_shortform", JBool (is_shortform x));
        ("language", JStr (language x))].
End MediumArticle.

Module ArticleContent.
Record t := mk {
  title : string;
  subtitle : option string;
  content : string;
  content_format : string;
  author : string;
  published_at : string
}.

(** [ArticleContent(...)] on the keyword arguments [kw]. *)
Definition new `{Pydantic} (kw : list (string * pyval)) : outcome t :=
  validated "ArticleContent" kw (
    a ← required as_str kw "title";
    b ← defaulted as_opt_str None kw "subtitle";
    c ← required as_str kw "content";
    d ← required as_str kw "content_format";
    e ← required as_str kw "author";
    f ← required as_str kw "published_at";
    Some (mk a b c d e f)).

Definition model_dump (x : t) : json :=
  JObj [("title", JStr (title x)); ("subtitle", JOptStr (subtitle x));
        ("content", JStr (content x));
        ("content_format", JStr (content_format x));
        ("author", JStr (author x));
        ("published_at", JStr (published_at x))].
End ArticleContent.

(* ===================================================================== *)
(** * config.py *)
(* ===================================================================== *)

Module MediumMCPConfig.
Record t := mk {
  rapidapi_key : string;
  max_articles_per_request : Z;
  log_level : string
}.

(** [validate_rapidapi_key] *)
Definition validate_rapidapi_key (v : string) : outcome string :=
  if String.eqb v "" || (String.length (PyStr.strip v) <? 10)%nat
  then Raises (ValueError "RapidAPI key must be at least 10 characters long")
  else Returns (PyStr.strip v).

(** [Field(default=3, ge=1, le=100)] *)
Definition max_articles_ok (m : Z) : bool := (1 <=? m) && (m <=? 100).

(** [MediumMCPConfig(rapidapi_key=.., max_articles_per_request=..,
    log_level=..)] *)
Definition new `{Pydantic} (key : string) (m : Z) (lvl : string) : outcome t :=
  let kw := [("rapidapi_key", PStr key); ("max_articles_per_request", PInt m);
             ("log_level", PStr lvl)] in
  match validate_rapidapi_key key with
  | Returns key' =>
      if max_articles_ok m then Returns (mk key' m lvl)
      else Raises (PyException "ValidationError"
                     (validation_error_text "MediumMCPConfig" kw))
  | Raises _ =>
      Raises (PyException "ValidationError"
                (validation_error_text "MediumMCPConfig" kw))
  end.
End MediumMCPConfig.

(* ===================================================================== *)
(** * client.py *)
(* ===================================================================== *)

(** [f"{tag}"] for a tag that may be [None]. *)
Definition fmt_tag (tag : option string) : string :=
  match tag with Some s => s | None => "None" end.

Module Client.

Record MediumClient := {
  config : MediumMCPConfig.t;
  medium : Upstream.Medium
}.

(** [_handle_api_error]: it raises on every path. *)
Definition _handle_api_error {A : Type} (error : exn) (context : string) : M A :=
  let error_msg := "Medium API error in " +:+ context +:+ ": " +:+ exn_str error in
  if PyStr.contains "rate limit" (PyStr.lower (exn_str error))
  then raise (MediumErr (mkMediumError
                "Rate limit exceeded. Please try again later."
                (Some 429) {["context" := context]}))
  else if PyStr.contains "unauthorized" (PyStr.lower (exn_str error))
  then raise (MediumErr (mkMediumError
                "Invalid RapidAPI key. Please check your configuration."
                (Some 401) {["context" := context]}))
  else if PyStr.contains "not found" (PyStr.lower (exn_str error))
  then raise (MediumErr (mkMediumError
                ("Resource not found: " +:+ context)
                (Some 404) {["context" := context]}))
  else raise (MediumErr (mkMediumError error_msg None
                (<["context" := context]>
                   {["original_error" := exn_str error]}))).

(** The keyword arguments of [MediumUser(...)] in [get_user_info], in the
    order the source evaluates them. *)
Definition user_kwargs (user : pyval) : outcome (list (string * pyval)) :=
  v_username ← py_attr user "username";
  v_fullname ← py_attr user "fullname";
  v_followers ← py_attr user "followers_count";
  v_member ← convert_to_string (Py.getattr3 user "medium_member_at" PNone);
  mret [("user_id", Py.getattr3 user "user_id" (PStr ""));
        ("username", v_username);
        ("fullname", v_fullname);
        ("bio", Py.getattr3 user "bio" PNone);
        ("followers_count", v_followers);
        ("following_count", Py.getattr3 user "following_count" (PInt 0));
        ("twitter_username", Py.getattr3 user "twitter_username" PNone);
        ("image_url", Py.getattr3 user "image_url" PNone);
        ("medium_member_at", v_member);
        ("is_writer_program_enrolled",
           Py.getattr3 user "is_writer_program_enrolled" (PBool false));
        ("has_list", Py.getattr3 user "has_list" (PBool false));
        ("is_suspended", Py.getattr3 user "is_suspended" (PBool false))].

Definition get_user_info `{Pydantic} (self : MediumClient) (username : string)
    : M (option MediumUser.t) :=
  try_except
    (user ← upstream (CallUser username) (Upstream.user (medium self) username);
     kw ← lift (user_kwargs user);
     r ← lift (MediumUser.new kw);
     mret (Some r))
    (λ e, _ ← _handle_api_error (A := unit) e
                ("getting user info for " +:+ username);
          mret None).

(** The keyword arguments of [MediumArticle(...)] in [get_user_articles]. *)
Definition user_article_kwargs (username : string) (article : pyval)
    : outcome (list (string * pyval)) :=
  v_title ← py_attr article "title";
  v_published ← convert_to_string (Py.getattr3 article "published_at" (PStr ""));
  v_modified ← convert_to_string (Py.getattr3 article "last_modified_at" (PStr ""));
  v_url ← py_attr article "url";
  mret [("article_id", Py.getattr3 article "article_id" (PStr ""));
        ("title", v_title);
        ("subtitle", Py.getattr3 article "subtitle" PNone);
        ("author", PStr username);
        ("published_at", v_published);
        ("last_modified_at", v_modified);
        ("tags", Py.getattr3 article "tags" (PList []));
        ("topics", Py.getattr3 article "topics" (PList []));
        ("claps", Py.getattr3 article "claps" (PInt 0));
        ("voters", Py.getattr3 article "voters" (PInt 0));
        ("word_count", Py.getattr3 article "word_count" (PInt 0));
        ("reading_time", Py.getattr3 article "reading_time" (PFloat "0.0"));
        ("responses_count", Py.getattr3 article "responses_count" (PInt 0));
        ("url", v_url);
        ("unique_slug", Py.getattr3 article "unique_slug" (PStr ""));
        ("is_locked", Py.getattr3 article "is_locked" (PBool false));
        ("is_shortform", Py.getattr3 article "is_shortform" (PBool false));
        ("language", Py.getattr3 article "language" (PStr "en"))].

Definition get_user_articles `{Pydantic} (self : MediumClient)
    (username : string) (count : Z) : M (option (list MediumArticle.t)) :=
  try_except
    (user ← upstream (CallUser username) (Upstream.user (medium self) username);
     user' ← upstream (CallUserFetchArticles user)
               (Upstream.user_fetch_articles (medium self) user);
     let article_limit :=
       Z.min count (MediumMCPConfig.max_articles_per_request (config self)) in
     all ← lift (py_attr user' "articles");
     selected ← lift (py_slice_to all article_limit);
     articles ← lift (mapM (λ article,
                        kw ← user_article_kwargs username article;
                        MediumArticle.new kw) selected);
     mret (Some articles))
    (λ e, _ ← _handle_api_error (A := unit) e
                ("getting articles for user " +:+ username);
          mret None).

(** The keyword arguments of [ArticleContent(...)]. *)
Definition content_kwargs (article : pyval) (content_format : string)
    : outcome (list (string * pyval)) :=
  content ←
    (if String.eqb content_format "html" then py_attr article "html"
     else if String.eqb content_format "markdown" then py_attr article "markdown"
     else py_attr article "content");
  let author_value :=
    let a := Py.getattr3 article "author" PNone in
    if Py.is_none a then PStr "" else a in
  let published_at_value :=
    let p := Py.getattr3 article "published_at" PNone in
    if Py.is_none p then PStr "" else p in
  v_title ← py_attr article "title";
  v_author ← convert_to_string author_value;
  v_published ← convert_to_string published_at_value;
  mret [("title", Py.or_else v_title (PStr ""));
        ("subtitle", Py.getattr3 article "subtitle" PNone);
        ("content", Py.or_else content (PStr ""));
        ("content_format", PStr content_format);
        ("author", v_author);
        ("published_at", v_published)].

Definition get_article_content `{Pydantic} (self : MediumClient)
    (article_id : string) (content_format : string)
    : M (option ArticleContent.t) :=
  try_except
    (article ← upstream (CallArticle article_id)
                 (Upstream.article (medium self) article_id);
     kw ← lift (content_kwargs article content_format);
     r ← lift (ArticleContent.new kw);
     mret (Some r))
    (λ e, _ ← _handle_api_error (A := unit) e
                ("getting content for article " +:+ article_id);
          mret None).

(** The keyword arguments of [MediumArticle(...)] in [get_top_feeds]. *)
Definition feed_article_kwargs (article : pyval)
    : outcome (list (string * pyval)) :=
  v_title ← py_attr article "title";
  v_author ← convert_to_string (Py.getattr3 article "author" (PStr ""));
  v_published ← convert_to_string (Py.getattr3 article "published_at" (PStr ""));
  v_modified ← convert_to_string (Py.getattr3 article "last_modified_at" (PStr ""));
  v_url ← py_attr article "url";
  mret [("article_id", Py.getattr3 article "article_id" (PStr ""));
        ("title", v_title);
        ("subtitle", Py.getattr3 article "subtitle" PNone);
        ("author", v_author);
        ("published_at", v_published);
        ("last_modified_at", v_modified);
        ("tags", Py.getattr3 article "tags" (PList []));
        ("topics", Py.getattr3 article "topics" (PList []));
        ("claps", Py.getattr3 article "claps" (PInt 0));
        ("voters", Py.getattr3 article "voters" (PInt 0));
        ("word_count", Py.getattr3 article "word_count" (PInt 0));
        ("reading_time", Py.getattr3 article "reading_time" (PFloat "0.0"));
        ("responses_count", Py.getattr3 article "responses_count" (PInt 0));
        ("url", v_url);
        ("unique_slug", Py.getattr3 article "unique_slug" (PStr ""));
        ("is_locked", Py.getattr3 article "is_locked" (PBool false));
        ("is_shortform", Py.getattr3 article "is_shortform" (PBool false));
        ("language", Py.getattr3 article "language" (PStr "en"))].

Definition get_top_feeds `{Pydantic} (self : MediumClient)
    (tag : option string) (mode : string) (count : Z)
    : M (option (list MediumArticle.t)) :=
  try_except
    (top_feeds ← upstream (CallTopfeeds (normalize_tag tag) mode)
                   (Upstream.topfeeds (medium self) (normalize_tag tag) mode);
     results ← lift (py_attr top_feeds "articles");
     let article_limit :=
       Z.min count (MediumMCPConfig.max_articles_per_request (config self)) in
     results ← lift (py_slice_to results article_limit);
     _ ← upstream (CallFetchArticles results)
           (Upstream.fetch_articles (medium self) results);
     articles ← lift (mapM (λ article,
                        kw ← feed_article_kwargs
                               (Upstream.hydrated (medium self) article);
                        MediumArticle.new kw) results);
     mret (Some articles))
    (λ e, _ ← _handle_api_error (A := unit) e
                ("getting top feeds for tag " +:+ fmt_tag tag);
          mret None).

(** The keyword arguments of [MediumArticle(...)] in [search_articles]. *)
Definition search_article_kwargs (article : pyval)
    : outcome (list (string * pyval)) :=
  v_author ← convert_to_string (safe_getattr article "author" (PStr ""));
  v_published ← convert_to_string (safe_getattr article "published_at" (PStr ""));
  v_modified ← convert_to_string (safe_getattr article "last_modified_at" (PStr ""));
  mret [("article_id", safe_getattr article "article_id" (PStr ""));
        ("title", safe_getattr article "title" (PStr ""));
        ("subtitle", safe_getattr article "subtitle" PNone);
        ("author", v_author);
        ("published_at", v_published);
        ("last_modified_at", v_modified);
        ("tags", safe_getattr article "tags" (PList []));
        ("topics", safe_getattr article "topics" (PList []));
        ("claps", safe_getattr article "claps" (PInt 0));
        ("voters", safe_getattr article "voters" (PInt 0));
        ("word_count", safe_getattr article "word_count" (PInt 0));
        ("reading_time", safe_getattr article "reading_time" (PFloat "0.0"));
        ("responses_count", safe_getattr article "responses_count" (PInt 0));
        ("url", safe_getattr article "url" (PStr ""));
        ("unique_slug", safe_getattr article "unique_slug" (PStr ""));
        ("is_locked", safe_getattr article "is_locked" (PBool false));
        ("is_shortform", safe_getattr article "is_shortform" (PBool false));
        ("language", safe_getattr article "language" (PStr "en"))].

Definition search_articles `{Pydantic} (self : MediumClient)
    (query : string) (count : Z) : M (option (list MediumArticle.t)) :=
  try_except
    (results ← upstream (CallSearchArticles query)
                 (Upstream.search_articles (medium self) query);
     let article_limit :=
       Z.min count (MediumMCPConfig.max_articles_per_request (config self)) in
     results ← lift (py_slice_to results article_limit);
     _ ← upstream (CallFetchArticles results)
           (Upstream.fetch_articles (medium self) results);
     articles ← lift (mapM (λ article,
                        kw ← search_article_kwargs
                               (Upstream.hydrated (medium self) article);
                        MediumArticle.new kw) results);
     mret (Some articles))
    (λ e, _ ← _handle_api_error (A := unit) e
                ("searching articles with query: " +:+ query);
          mret None).

End Client.

(* ===================================================================== *)
(** * json.dumps(value, indent=2, ensure_ascii=False) *)
(* ===================================================================== *)

Module Json.

Definition newline : string := String "010"%char EmptyString.

(** A line break and the indentation of nesting level [lvl]. *)
Definition break (lvl : nat) : string :=
  newline +:+ string_of_list_ascii (repeat " "%char (2 * lvl)).

(** One character of a JSON text: the quote, the backslash and the
    control characters are escaped, everything else is written as it is. *)
Definition escape_char (c : ascii) : string :=
  let n := N_of_ascii c in
  let bs := String PyStr.backslash in
  if Ascii.eqb c PyStr.dquote then bs (String PyStr.dquote EmptyString)
  else if Ascii.eqb c PyStr.backslash then bs (bs EmptyString)
  else if (n =? 8)%N then bs "b"
  else if (n =? 9)%N then bs "t"
  else if (n =? 10)%N then bs "n"
  else if (n =? 12)%N then bs "f"
  else if (n =? 13)%N then bs "r"
  else if (n <? 32)%N
  then bs (String "u" (String "0" (String "0"
         (String (PyStr.hex_digit (n / 16))
            (String (PyStr.hex_digit (n mod 16)) EmptyString)))))%N
  else String c EmptyString.

Definition quote (s : string) : string :=
  String PyStr.dquote
    (String.concat "" (map escape_char (list_ascii_of_string s)))
  +:+ String PyStr.dquote EmptyString.

Definition float_text (r : string) : string :=
  if String.eqb r "inf" then "Infinity"
  else if String.eqb r "-inf" then "-Infinity"
  else if String.eqb r "nan" then "NaN"
  else r.

Fixpoint dumps_at (lvl : nat) (j : json) : string :=
  match j with
  | JNull => "null"
  | JBool b => if b then "true" else "false"
  | JInt z => PyStr.of_Z z
  | JFloat r => float_text r
  | JStr s => quote s
  | JArr [] => "[]"
  | JArr items =>
      "[" +:+ break (S lvl)
      +:+ PyStr.join ("," +:+ break (S lvl)) (map (dumps_at (S lvl)) items)
      +:+ break lvl +:+ "]"
  | JObj [] => "{}"
  | JObj fields =>
      "{" +:+ break (S lvl)
      +:+ PyStr.join ("," +:+ break (S lvl))
            (map (λ kv, quote (fst kv) +:+ ": " +:+ dumps_at (S lvl) (snd kv))
                 fields)
      +:+ break lvl +:+ "}"
  end.

Definition dumps (j : json) : string := dumps_at 0 j.

End Json.

(* ===================================================================== *)
(** * server.py *)
(* ===================================================================== *)

Module Server.

(** What the tool surface calls on the module-level [client] object: the
    five methods of a [MediumClient] (or of whatever stands in for it). *)
Record ClientObject := {
  client_get_user_info : string → M (option MediumUser.t);
  client_get_user_articles : string → Z → M (option (list MediumArticle.t));
  client_get_article_content : string → string → M (option ArticleContent.t);
  client_get_top_feeds : option string → string → Z
                         → M (option (list MediumArticle.t));
  client_search_articles : string → Z → M (option (list MediumArticle.t))
}.

(** The object [MediumClient(config)] of client.py. *)
Definition medium_client `{Pydantic} (self : Client.MediumClient) : ClientObject := {|
  client_get_user_info := Client.get_user_info self;
  client_get_user_articles := Client.get_user_articles self;
  client_get_article_content := Client.get_article_content self;
  client_get_top_feeds := Client.get_top_feeds self;
  client_search_articles := Client.search_articles self
|}.

(** [ensure_client], on the module-level [client]. *)
Definition ensure_client (client : option ClientObject) : M ClientObject :=
  match client with
  | None =>
      raise (MediumErr (mkMediumError
        "Medium MCP server not initialized. Check your RAPIDAPI_KEY environment variable."
        None ∅))
  | Some c => mret c
  end.

(** The two [except] clauses every tool ends with. *)
Definition tool_except {A : Type} (e : exn) : M A :=
  match e with
  | MediumErr m =>
      raise (PyException "Exception" ("Medium API Error: " +:+ message m))
  | _ => raise (PyException "Exception" ("Error: " +:+ exn_str e))
  end.

(** The range check on [count] that three tools start with. *)
Definition count_in_range (count : Z) : M unit :=
  if (count <? 1) || (count >? 100)
  then raise (ValueError "Count must be between 1 and 100")
  else mret tt.

(** [json.dumps([a.model_dump() for a in articles] if articles else [],
    ...)] *)
Definition dump_articles (articles : option (list MediumArticle.t)) : string :=
  Json.dumps (match articles with
              | Some (a :: l) => JArr (map MediumArticle.model_dump (a :: l))
              | _ => JArr []
              end).

Definition get_user_info (client : option ClientObject) (username : string)
    : M string :=
  try_except
    (medium_client ← ensure_client client;
     user ← client_get_user_info medium_client username;
     mret (Json.dumps (match user with
                       | Some u => MediumUser.model_dump u
                       | None => JNull
                       end)))
    tool_except.

Definition get_user_articles (client : option ClientObject)
    (username : string) (count : Z) : M string :=
  try_except
    (_ ← count_in_range count;
     medium_client ← ensure_client client;
     articles ← client_get_user_articles medium_client username count;
     mret (dump_articles articles))
    tool_except.

Definition get_article_content (client : option ClientObject)
    (article_id : string) (format : string) : M string :=
  try_except
    (_ ← (if existsb (String.eqb format) ["text"; "html"; "markdown"]
          then mret tt
          else raise (ValueError "Format must be 'text', 'html', or 'markdown'"));
     medium_client ← ensure_client client;
     content ← client_get_article_content medium_client article_id format;
     mret (Json.dumps (match content with
                       | Some c => ArticleContent.model_dump c
                       | None => JNull
                       end)))
    tool_except.

Definition VALID_FEED_MODES : list string :=
  ["hot"; "new"; "top_year"; "top_month"; "top_week"; "top_all_time"].

Definition get_top_feeds (client : option ClientObject)
    (tag : string) (mode : string) (count : Z) : M string :=
  try_except
    (_ ← count_in_range count;
     _ ← (if existsb (String.eqb mode) VALID_FEED_MODES
          then mret tt
          else raise (ValueError ("Invalid mode '" +:+ mode
                        +:+ "'. Must be one of: "
                        +:+ PyStr.join ", " VALID_FEED_MODES)));
     medium_client ← ensure_client client;
     articles ← client_get_top_feeds medium_client (Some tag) mode count;
     mret (dump_articles articles))
    tool_except.

Definition search_articles (client : option ClientObject)
    (query : string) (count : Z) : M string :=
  try_except
    (_ ← (if String.eqb (PyStr.strip query) ""
          then raise (ValueError "Search query cannot be empty")
          else mret tt);
     _ ← count_in_range count;
     medium_client ← ensure_client client;
     articles ← client_search_articles medium_client query count;
     mret (dump_articles articles))
    tool_except.

End Server.

(* ===================================================================== *)
(** * Specification-side definitions *)
(* ===================================================================== *)

(** Tag canonicalisation in the specification's words, one character at a
    time: a space becomes a hyphen, any other character its lowercase. *)
Definition canonical_char (c : ascii) : ascii :=
  if Ascii.eqb c " "%char then "-"%char else PyStr.lower_char c.

(** The classifier of a failure message in the specification's words: the
    first of the three substrings found in the lowercased text. *)
Definition status_of_message (msg : string) : option Z :=
  let m := PyStr.lower msg in
  if PyStr.contains "rate limit" m then Some 429
  else if PyStr.contains "unauthorized" m then Some 401
  else if PyStr.contains "not found" m then Some 404
  else None.

(** The upstream representation field a format selector reads, in the
    specification's words. *)
Definition representation_field (selector : string) : string :=
  if String.eqb selector "html" then "html"
  else if String.eqb selector "markdown" then "markdown"
  else "content".

(** The defaults [search_articles] documents for the fields of an article
    summary. *)
Definition field_defaults : list (string * pyval) :=
  [("article_id", PStr ""); ("title", PStr ""); ("subtitle", PNone);
   ("author", PStr ""); ("published_at", PStr "");
   ("last_modified_at", PStr ""); ("tags", PList []); ("topics", PList []);
   ("claps", PInt 0); ("voters", PInt 0); ("word_count", PInt 0);
   ("reading_time", PFloat "0.0"); ("responses_count", PInt 0);
   ("url", PStr ""); ("unique_slug", PStr ""); ("is_locked", PBool false);
   ("is_shortform", PBool false); ("language", PStr "en")].

(** The fields the other list operations read by plain attribute lookup and
    hand to the record as they are. *)
Definition plain_fields : list string :=
  ["article_id"; "title"; "subtitle"; "tags"; "topics"; "claps"; "voters";
   "word_count"; "reading_time"; "responses_count"; "url"; "unique_slug";
   "is_locked"; "is_shortform"; "language"].

(** The profile fields [get_user_info] reads by plain attribute lookup. *)
Definition plain_user_fields : list string :=
  ["user_id"; "username"; "fullname"; "bio"; "followers_count";
   "following_count"; "twitter_username"; "image_url";
   "is_writer_program_enrolled"; "has_list"; "is_suspended"].

(** Whether [v.username] is missing or falsy. *)
Definition no_handle (v : pyval) : Prop :=
  match Py.lookup_attr v "username" with
  | Some u => Py.truthy u = false
  | None => True
  end.

(** The [MediumError] that [_handle_api_error] raises for [error] and
    [context], branch by branch. *)
Definition api_error (error : exn) (context : string) : MediumError :=
  if PyStr.contains "rate limit" (PyStr.lower (exn_str error))
  then mkMediumError "Rate limit exceeded. Please try again later."
         (Some 429) {["context" := context]}
  else if PyStr.contains "unauthorized" (PyStr.lower (exn_str error))
  then mkMediumError "Invalid RapidAPI key. Please check your configuration."
         (Some 401) {["context" := context]}
  else if PyStr.contains "not found" (PyStr.lower (exn_str error))
  then mkMediumError ("Resource not found: " +:+ context)
         (Some 404) {["context" := context]}
  else mkMediumError
         ("Medium API error in " +:+ context +:+ ": " +:+ exn_str error) None
         (<["context" := context]> {["original_error" := exn_str error]}).

(** Fixtures: an upstream client with four articles by one author, used to
    run the operations on concrete inputs. *)
Module Scenario.

Definition article_obj (i : string) : pyval :=
  data_obj "Article"
    [("article_id", PStr i);
     ("title", PStr ("Article " +:+ i));
     ("subtitle", PNone);
     ("author", data_obj "User" [("username", PStr "upstream_author")]);
     ("published_at", PDatetime 2024 1 15 10 30 45 0);
     ("last_modified_at", PStr "2024-01-16");
     ("tags", PList [PStr "python"]);
     ("claps", PInt 100);
     ("reading_time", PFloat "2.5");
     ("url", PStr ("https://medium.com/" +:+ i));
     ("unique_slug", PStr ("article-" +:+ i))].

Definition four_articles : list pyval :=
  [article_obj "a1"; article_obj "a2"; article_obj "a3"; article_obj "a4"].

Definition user_obj (u : string) (articles : list pyval) : pyval :=
  data_obj "User"
    [("user_id", PStr "u1"); ("username", PStr u); ("fullname", PStr "Amy A");
     ("followers_count", PInt 1000); ("articles", PList articles)].

Definition content_obj : pyval :=
  data_obj "Article"
    [("title", PStr "Test Article"); ("subtitle", PNone);
     ("html", PStr "<h1>Test Content</h1>");
     ("markdown", PStr "# Test Content");
     ("content", PStr "Test Content");
     ("author", PStr "testuser"); ("published_at", PStr "2024-01-01")].

(** An article whose counter is explicitly None. *)
Definition none_claps_article : pyval :=
  data_obj "Article"
    [("article_id", PStr "n1"); ("title", PStr "No claps");
     ("url", PStr "https://medium.com/n1"); ("claps", PNone)].

(** The handle [ghost] is unknown upstream: the call raises. *)
Definition medium : Upstream.Medium := {|
  Upstream.user u :=
    if String.eqb u "ghost"
    then Raises (PyException "Exception" "User not found")
    else Returns (user_obj u []);
  Upstream.user_fetch_articles u :=
    Returns (user_obj (Py.str (Py.getattr3 u "username" PNone)) four_articles);
  Upstream.article i := Returns content_obj;
  Upstream.topfeeds t m :=
    Returns (data_obj "TopFeeds" [("articles", PList four_articles)]);
  Upstream.search_articles q := Returns (PList four_articles);
  Upstream.fetch_articles l := Returns tt;
  Upstream.hydrated a := a
|}.

Definition config : MediumMCPConfig.t :=
  MediumMCPConfig.mk "test_api_key_123456789012345" 5 "INFO".

Definition client : Client.MediumClient :=
  {| Client.config := config; Client.medium := medium |}.

End Scenario.

(** What an operation guarded by [_handle_api_error] makes of the outcome
    of its [try] block. *)
Definition classified {A : Type} (context : string) (o : outcome A)
    : outcome (option A) :=
  match o with
  | Returns a => Returns (Some a)
  | Raises e => Raises (MediumErr (api_error e context))
  end.

(** [min(count, self.config.max_articles_per_request)] *)
Definition article_limit (self : Client.MediumClient) (count : Z) : Z :=
  Z.min count (MediumMCPConfig.max_articles_per_request (Client.config self)).

(** An upstream article that [f] turns into a record. *)
Definition converts {A B : Type} (f : A → outcome B) (a : A) : Prop :=
  ∃ r, f a = Returns r.

(** One iteration of the loop of [get_user_articles]. *)
Definition user_article `{Pydantic} (username : string) (article : pyval)
    : outcome MediumArticle.t :=
  kw ← Client.user_article_kwargs username article; MediumArticle.new kw.

(** One iteration of the loop of [get_top_feeds]. *)
Definition feed_article `{Pydantic} (self : Client.MediumClient) (article : pyval)
    : outcome MediumArticle.t :=
  kw ← Client.feed_article_kwargs (Upstream.hydrated (Client.medium self) article);
  MediumArticle.new kw.

(** One iteration of the loop of [search_articles]. *)
Definition search_article `{Pydantic} (self : Client.MediumClient) (article : pyval)
    : outcome MediumArticle.t :=
  kw ← Client.search_article_kwargs (Upstream.hydrated (Client.medium self) article);
  MediumArticle.new kw.

(** The configured ceiling. *)
Definition ceiling (self : Client.MediumClient) : Z :=
  MediumMCPConfig.max_articles_per_request (Client.config self).

(** A field the upstream object leaves out, sets to None, or sets to a text. *)
Definition text_or_none (v : pyval) : Prop := v = PNone ∨ ∃ s, v = PStr s.

(* ===================================================================== *)
(** * Startup: the environment, the configuration and the client *)
(* ===================================================================== *)

(** [int(s)] in base 10, for a text of code points below 256, as CPython
    3.11 reads it: white space is skipped at both ends, then comes an
    optional sign, then the run of decimal digits and underscores, a single
    underscore being allowed between two digits; a run of more than
    [max_str_digits] digits is refused (the interpreter's default limit,
    [sys.get_int_max_str_digits()]), before what follows the run is looked
    at. *)
Module PyInt.

(** The white space [int] skips: TAB, LF, VT, FF, CR, SPACE, NEL and NBSP.
    Unlike [str.strip] it does not skip FS, GS, RS and US. *)
Definition is_space (c : ascii) : bool :=
  let n := N_of_ascii c in
  (((9 <=? n) && (n <=? 13)) || (n =? 32) || (n =? 133) || (n =? 160))%N.

Fixpoint skip_leading (s : string) : string :=
  match s with
  | EmptyString => EmptyString
  | String c s' => if is_space c then skip_leading s' else s
  end.

Fixpoint skip_trailing (s : string) : string :=
  match s with
  | EmptyString => EmptyString
  | String c s' =>
      match skip_trailing s' with
      | EmptyString => if is_space c then EmptyString else String c EmptyString
      | r => String c r
      end
  end.

Definition is_digit (c : ascii) : bool :=
  let n := N_of_ascii c in ((48 <=? n) && (n <=? 57))%N.

Definition digit_value (c : ascii) : Z := Z.of_N (N_of_ascii c) - 48.

(** The leading run of digits and underscores, and what follows it. *)
Fixpoint span_run (s : string) : string * string :=
  match s with
  | EmptyString => (EmptyString, EmptyString)
  | String c s' =>
      if is_digit c || Ascii.eqb c "_"%char
      then let (run, rest) := span_run s' in (String c run, rest)
      else (EmptyString, s)
  end.

(** A run is well formed when it starts and ends with a digit and holds no
    two underscores in a row. *)
Fixpoint well_formed (run : string) (after_digit : bool) : bool :=
  match run with
  | EmptyString => after_digit
  | String c run' =>
      if is_digit c then well_formed run' true
      else after_digit && well_formed run' false
  end.

Fixpoint count_digits (run : string) : Z :=
  match run with
  | EmptyString => 0
  | String c run' => (if is_digit c then 1 else 0) + count_digits run'
  end.

Fixpoint value (run : string) (acc : Z) : Z :=
  match run with
  | EmptyString => acc
  | String c run' =>
      value run' (if is_digit c then 10 * acc + digit_value c else acc)
  end.

Definition max_str_digits : Z := 4300.

Definition int (s : string) : outcome Z :=
  let invalid :=
    Raises (ValueError ("invalid literal for int() with base 10: "
                        +:+ PyStr.repr s)) in
  let text := skip_trailing (skip_leading s) in
  let signed :=
    match text with
    | String "-" body => (true, body)
    | String "+" body => (false, body)
    | _ => (false, text)
    end in
  let (run, rest) := span_run (snd signed) in
  if negb (well_formed run false) then invalid
  else if max_str_digits <? count_digits run
  then Raises (ValueError
         ("Exceeds the limit (" +:+ PyStr.of_Z max_str_digits
          +:+ " digits) for integer string conversion: value has "
          +:+ PyStr.of_Z (count_digits run)
          +:+ " digits; use sys.set_int_max_str_digits() to increase the limit"))
  else if negb (String.eqb rest "") then invalid
  else Returns (if fst signed then - value run 0 else value run 0).

End PyInt.

Module Startup.

(** [MediumMCPConfig.from_env], on the environment as [load_dotenv] leaves
    it.  [str.upper] is a parameter: the texts of code points below 256 are
    not closed under it (the uppercase of the micro sign and of y with
    diaeresis lies above), and [PyStr.upper] gives it where they are. *)
Definition from_env `{Pydantic} (upper : string → string)
    (env : gmap string string) : outcome MediumMCPConfig.t :=
  let rapidapi_key := env !! "RAPIDAPI_KEY" in
  match rapidapi_key with
  | Some (String c key) =>
      m ← PyInt.int (default "3" (env !! "MAX_ARTICLES_PER_REQUEST"));
      MediumMCPConfig.new (String c key) m
        (upper (default "INFO" (env !! "LOG_LEVEL")))
  | _ =>
      Raises (ValueError
        ("RAPIDAPI_KEY environment variable is required. "
         +:+ "Get your key from https://rapidapi.com/nishujain199719-vgIfuFHZxVZ/api/medium2"))
  end.

(** [initialize_client]: the configuration from the environment, then
    [MediumClient(config)], whose upstream client is [Medium(rapidapi_key)];
    [connect] is that constructor of the upstream library. *)
Definition initialize_client `{Pydantic} (upper : string → string)
    (connect : string → outcome Upstream.Medium) (env : gmap string string)
    : outcome Client.MediumClient :=
  config ← from_env upper env;
  medium ← connect (MediumMCPConfig.rapidapi_key config);
  mret {| Client.config := config; Client.medium := medium |}.

(** The module-level [client] once server.py is imported: it stays None when
    [initialize_client] raises. *)
Definition module_client `{Pydantic} (upper : string → string)
    (connect : string → outcome Upstream.Medium) (env : gmap string string)
    : option Server.ClientObject :=
  match initialize_client upper connect env with
  | Returns c => Some (Server.medium_client c)
  | Raises _ => None
  end.

End Startup.

(** Whether every character of a text is white space. *)
Definition blank (s : string) : Prop :=
  Forall (λ c, PyStr.is_space c = true) (list_ascii_of_string s).

(** A text with no white space at either end. *)
Definition trimmed (s : string) : Prop := PyStr.strip s = s.

(** The events a computation adds to the log. *)
Definition adds {A : Type} (m : M A) (log : list event) (new : list event) : Prop :=
  snd (m log) = (log ++ new)%list.

(** The message of the exception a tool raises starts with one of the two
    prefixes of the tool surface. *)
Definition tool_failure (x : exn) : Prop :=
  ∃ msg, x = PyException "Exception" msg
         ∧ (String.prefix "Medium API Error: " msg = true
            ∨ String.prefix "Error: " msg = true).

(** The text the tools raise for a [client] that is None. *)
Definition not_initialized : exn :=
  PyException "Exception"
    ("Medium API Error: Medium MCP server not initialized. "
     +:+ "Check your RAPIDAPI_KEY environment variable.").

(** Stand-ins for the client object, as the server tests use them: one whose
    operations all return None, and one whose operations raise a KeyError. *)
Module Stub.

Definition none_client : Server.ClientObject := {|
  Server.client_get_user_info := λ _, mret None;
  Server.client_get_user_articles := λ _ _, mret None;
  Server.client_get_article_content := λ _ _, mret None;
  Server.client_get_top_feeds := λ _ _ _, mret None;
  Server.client_search_articles := λ _ _, mret None
|}.

Definition failing_client : Server.ClientObject := {|
  Server.client_get_user_info := λ _, raise (PyException "KeyError" "'id'");
  Server.client_get_user_articles :=
    λ _ _, raise (PyException "KeyError" "'id'");
  Server.client_get_article_content :=
    λ _ _, raise (PyException "KeyError" "'id'");
  Server.client_get_top_feeds :=
    λ _ _ _, raise (PyException "KeyError" "'id'");
  Server.client_search_articles :=
    λ _ _, raise (PyException "KeyError" "'id'")
|}.

End Stub.

(** The record of an article summary whose every field is the documented
    default. *)
Definition default_article : MediumArticle.t :=
  MediumArticle.mk "" "" None "" "" "" [] [] 0 0 0 "0.0" 0 "" "" false false "en".

(** An upstream stub that sets none of the fields of an article summary:
    an object of the upstream library (or None) on which each field is
    missing or None. *)
Definition bare_stub (article : pyval) : Prop :=
  Py.plain article = true
  ∧ ∀ f d, In (f, d) field_defaults →
      Py.lookup_attr article f = None ∨ Py.lookup_attr article f = Some PNone.

(** An upstream article without a title or without a URL. *)
Definition lacks_required (article : pyval) : Prop :=
  Py.lookup_attr article "title" = None ∨ Py.lookup_attr article "url" = None.

(** A text in canonical tag form: no space, and every character its own
    lowercase. *)
Definition canonical_tag (s : string) : Prop :=
  Forall (λ c, c ≠ " "%char ∧ PyStr.lower_char c = c) (list_ascii_of_string s).

(** Fixtures: a profile whose second article carries neither a title nor any
    other field but its identifier and URL. *)
Definition untitled_article : pyval :=
  data_obj "Article"
    [("article_id", PStr "b2"); ("url", PStr "https://medium.com/b2")].

Definition patchy_articles : list pyval :=
  [Scenario.article_obj "a1"; untitled_article; Scenario.article_obj "a3"].

Definition patchy_medium : Upstream.Medium := {|
  Upstream.user u := Returns (Scenario.user_obj u []);
  Upstream.user_fetch_articles u :=
    Returns (Scenario.user_obj (Py.str (Py.getattr3 u "username" PNone))
               patchy_articles);
  Upstream.article i := Returns Scenario.content_obj;
  Upstream.topfeeds t m :=
    Returns (data_obj "TopFeeds" [("articles", PList patchy_articles)]);
  Upstream.search_articles q := Returns (PList patchy_articles);
  Upstream.fetch_articles l := Returns tt;
  Upstream.hydrated a := a
|}.

Definition patchy_client : Client.MediumClient :=
  {| Client.config := Scenario.config; Client.medium := patchy_medium |}.

(** Fixtures: search results that come back as bare stubs, one of them with
    a title and a counter set to None. *)
Definition bare_articles : list pyval :=
  [data_obj "Article" [];
   data_obj "Article" [("title", PNone); ("claps", PNone)]].

Definition bare_medium : Upstream.Medium := {|
  Upstream.user u := Returns (Scenario.user_obj u []);
  Upstream.user_fetch_articles u := Returns u;
  Upstream.article i := Returns Scenario.content_obj;
  Upstream.topfeeds t m :=
    Returns (data_obj "TopFeeds" [("articles", PList bare_articles)]);
  Upstream.search_articles q := Returns (PList bare_articles);
  Upstream.fetch_articles l := Returns tt;
  Upstream.hydrated a := a
|}.

Definition bare_client : Client.MediumClient :=
  {| Client.config := Scenario.config; Client.medium := bare_medium |}.

(** The record [r] holds the title, the URL and the identifier of the
    upstream article [a], as the plain reads of [get_user_articles] and
    [get_top_feeds] find them. *)
Definition carries (a : pyval) (r : MediumArticle.t) : Prop :=
  Py.lookup_attr a "title" = Some (PStr (MediumArticle.title r))
  ∧ Py.lookup_attr a "url" = Some (PStr (MediumArticle.url r))
  ∧ Py.getattr3 a "article_id" (PStr "") = PStr (MediumArticle.article_id r).

(** The same for the defensive reads of [search_articles]. *)
Definition carries_safely (a : pyval) (r : MediumArticle.t) : Prop :=
  safe_getattr a "title" (PStr "") = PStr (MediumArticle.title r)
  ∧ safe_getattr a "url" (PStr "") = PStr (MediumArticle.url r)
  ∧ safe_getattr a "article_id" (PStr "") = PStr (MediumArticle.article_id r).

(** The profile attributes [get_user_info] reads with a default. *)
Definition optional_user_fields : list string :=
  ["user_id"; "bio"; "following_count"; "twitter_username"; "image_url";
   "medium_member_at"; "is_writer_program_enrolled"; "has_list";
   "is_suspended"].

(** The profile attributes [get_user_info] reads without a default. *)
Definition required_user_fields : list string :=
  ["username"; "fullname"; "followers_count"].

(** An upstream profile that has the three required attributes, a text, a
    text and an integer, and none of the optional ones. *)
Definition minimal_profile (user : pyval) (username fullname : string)
    (followers : Z) : Prop :=
  Py.lookup_attr user "username" = Some (PStr username)
  ∧ Py.lookup_attr user "fullname" = Some (PStr fullname)
  ∧ Py.lookup_attr user "followers_count" = Some (PInt followers)
  ∧ Forall (λ f, Py.lookup_attr user f = None) optional_user_fields.

(** Fixtures: an upstream client whose profiles are minimal, and spell the
    handle their own way. *)
Definition minimal_user : pyval :=
  data_obj "User"
    [("username", PStr "Amy"); ("fullname", PStr "Amy A");
     ("followers_count", PInt 7)].

Definition minimal_medium : Upstream.Medium := {|
  Upstream.user u := Returns minimal_user;
  Upstream.user_fetch_articles u := Returns u;
  Upstream.article i := Returns Scenario.content_obj;
  Upstream.topfeeds t m := Returns (data_obj "TopFeeds" [("articles", PList [])]);
  Upstream.search_articles q := Returns (PList []);
  Upstream.fetch_articles l := Returns tt;
  Upstream.hydrated a := a
|}.

Definition minimal_client : Client.MediumClient :=
  {| Client.config := Scenario.config; Client.medium := minimal_medium |}.

(** The author the record [r] names is the one of the upstream article [a]:
    the empty text when the article has no author or None, the text itself
    when the author is a text, and the username of an author object that
    has a non-empty one. *)
Definition credits (a : pyval) (r : MediumArticle.t) : Prop :=
  match Py.lookup_attr a "author" with
  | None | Some PNone => MediumArticle.author r = ""
  | Some (PStr s) => MediumArticle.author r = s
  | Some author =>
      ∀ u, Py.lookup_attr author "username" = Some (PStr u) → u ≠ "" →
           MediumArticle.author r = u
  end.

(** Fixtures: an environment with a padded key, a ceiling and a log level,
    and [str.upper] for the texts of these fixtures, whose uppercase stays
    below 256 (a text for which it does not is handed back as it is). *)
Definition sample_env : gmap string string :=
  <["RAPIDAPI_KEY" := " test_api_key_1234 "]>
    (<["MAX_ARTICLES_PER_REQUEST" := "7"]> (<["LOG_LEVEL" := "debug"]> ∅)).

Definition sample_upper (s : string) : string := default s (PyStr.upper s).

(* ===================================================================== *)
(** * Proof tactics *)
(* ===================================================================== *)

(** Split a right-nested conjunction into its components. *)
Ltac split_conj :=
  lazymatch goal with
  | |- _ ∧ _ => split; [|split_conj]
  | _ => idtac
  end.

(** Unfold the operations of [M]. *)
Ltac unfold_m :=
  unfold try_except, mbind, M_bind, upstream, lift, mret, M_ret, raise.

(** Finish one branch of an operation: [handled] is the equation of the
    [except] clause. *)
Ltac settle_m handled :=
  repeat first
    [ progress rewrite handled
    | progress rewrite <- app_assoc
    | progress simpl ];
  try reflexivity.

(** From [m ≫= f = Returns b], by the inversion lemma [inv], the value of
    [m] and the equation of [f] on it. *)
Ltac invert_bind inv H :=
  let a := fresh "v" in
  let Ha := fresh "E" in
  apply inv in H as (a & Ha & H).

(* ===================================================================== *)
(** * Normalisation layer: properties *)
(* ===================================================================== *)

Section Normalisation.

Lemma lower_char_idem c : PyStr.lower_char (PyStr.lower_char c) = PyStr.lower_char c.
Proof. destruct c as [[] [] [] [] [] [] [] []]; reflexivity. Qed.

Lemma lower_char_not_space c : Ascii.eqb (PyStr.lower_char c) " "%char = Ascii.eqb c " "%char.
Proof. destruct c as [[] [] [] [] [] [] [] []]; reflexivity. Qed.

Lemma canonical_char_idem c : canonical_char (canonical_char c) = canonical_char c.
Proof. destruct c as [[] [] [] [] [] [] [] []]; reflexivity. Qed.

Lemma replace_lower_canonical s :
  PyStr.replace_char " " "-" (PyStr.lower s)
  = string_of_list_ascii (map canonical_char (list_ascii_of_string s)).
Proof.
  induction s as [|c s IH]; simpl; [reflexivity|].
  rewrite IH. f_equal. unfold canonical_char.
  rewrite lower_char_not_space. destruct (Ascii.eqb c " "); reflexivity.
Qed.

Lemma canonical_string_idem s :
  let f t := string_of_list_ascii (map canonical_char (list_ascii_of_string t)) in
  f (f s) = f s.
Proof.
  simpl. rewrite list_ascii_of_string_of_list_ascii, map_map.
  f_equal. apply map_ext. intros c. apply canonical_char_idem.
Qed.

Lemma canonical_empty s :
  string_of_list_ascii (map canonical_char (list_ascii_of_string s)) = ""
  → s = "".
Proof. destruct s; simpl; [reflexivity | discriminate]. Qed.

Lemma get_canonical s : ∀ i c,
  String.get i s = Some c →
  String.get i (string_of_list_ascii (map canonical_char (list_ascii_of_string s)))
  = Some (canonical_char c).
Proof.
  induction s as [|a s IH]; intros i c; simpl; [discriminate|].
  destruct i as [|i]; [intros [= ->]; reflexivity | apply IH].
Qed.

Lemma length_canonical s :
  String.length (string_of_list_ascii (map canonical_char (list_ascii_of_string s)))
  = String.length s.
Proof. induction s as [|a s IH]; simpl; [reflexivity | now rewrite IH]. Qed.

End Normalisation.

(** C5. Tag canonicalisation is idempotent; [None] and the empty text come
    back as they are (the absent marker stays the absent marker); a
    non-empty text keeps its length, and at every position a space has
    become a hyphen and any other character its lowercase, nothing else
    being altered. *)
Theorem normalize_tag_idempotent_and_shape :
  (∀ x, normalize_tag (normalize_tag x) = normalize_tag x)
  ∧ normalize_tag None = None
  ∧ normalize_tag (Some "") = Some ""
  ∧ (∀ s, ∃ t, normalize_tag (Some s) = Some t
        ∧ String.length t = String.length s
        ∧ (∀ i c, String.get i s = Some c →
             String.get i t
             = Some (if Ascii.eqb c " "%char then "-"%char
                     else PyStr.lower_char c))).
Proof.
  assert (shape : ∀ s, normalize_tag (Some s)
            = Some (string_of_list_ascii (map canonical_char (list_ascii_of_string s)))).
  { intros s. unfold normalize_tag. destruct (String.eqb_spec s "") as [->|_];
      [reflexivity | now rewrite replace_lower_canonical]. }
  split; [|split; [reflexivity|split; [reflexivity|]]].
  - intros [s|]; [|reflexivity].
    rewrite !shape. f_equal. apply canonical_string_idem.
  - intros s. eexists. split; [apply shape|]. split; [apply length_canonical|].
    intros i c Hc. now apply get_canonical.
Qed.

(** The test-suite values of [normalize_tag]. *)
Example normalize_tag_examples :
  normalize_tag (Some "Data Science") = Some "data-science"
  ∧ normalize_tag (Some "deep  learning") = Some "deep--learning"
  ∧ normalize_tag (Some " python ") = Some "-python-"
  ∧ normalize_tag (Some "C++ Programming") = Some "c++-programming".
Proof. repeat split. Qed.

Lemma convert_to_string_handle v u :
  Py.is_none v || Py.eq_empty_str v = false →
  Py.lookup_attr v "username" = Some u → Py.truthy u = true →
  convert_to_string v = Returns (PStr (Py.str u)).
Proof.
  intros Hne Hu Ht. unfold convert_to_string, Py.hasattr, Py.getattr3.
  now rewrite Hne, Hu, Ht.
Qed.

Lemma convert_to_string_no_handle v :
  Py.is_none v || Py.eq_empty_str v = false → no_handle v →
  convert_to_string v
  = match Py.lookup_attr v "isoformat" with
    | Some f => py_call0 f
    | None => Returns (PStr (if Py.truthy v then Py.str v else ""))
    end.
Proof.
  intros Hne Hu. unfold convert_to_string, Py.hasattr, Py.getattr3, no_handle in *.
  rewrite Hne. destruct (Py.lookup_attr v "username") as [u|].
  - rewrite Hu. simpl. destruct (Py.lookup_attr v "isoformat"); [reflexivity|].
    now destruct (Py.truthy v).
  - simpl. destruct (Py.lookup_attr v "isoformat"); [reflexivity|].
    now destruct (Py.truthy v).
Qed.

(** C4. [convert_to_string] follows the fixed precedence: the absent marker
    and the empty text give the empty text; otherwise a truthy [username]
    attribute gives that attribute's text; otherwise a value with
    [isoformat] gives what [isoformat()] returns, the ISO timestamp text for
    a datetime; otherwise the default text when the value is truthy and the
    empty text when it is not.  So 0, False and the empty list give the empty
    text, the text x gives x, and datetime(2024,1,15,10,30,45) gives
    2024-01-15T10:30:45. *)
Theorem convert_to_string_precedence :
  convert_to_string PNone = Returns (PStr "")
  ∧ convert_to_string (PStr "") = Returns (PStr "")
  ∧ (∀ v u, Py.is_none v || Py.eq_empty_str v = false →
       Py.lookup_attr v "username" = Some u → Py.truthy u = true →
       convert_to_string v = Returns (PStr (Py.str u)))
  ∧ (∀ v f, Py.is_none v || Py.eq_empty_str v = false → no_handle v →
       Py.lookup_attr v "isoformat" = Some f →
       convert_to_string v = py_call0 f)
  ∧ (∀ y mo d h mi s us,
       convert_to_string (PDatetime y mo d h mi s us)
       = Returns (PStr (Py.isoformat_text "T" y mo d h mi s us)))
  ∧ (∀ v, Py.is_none v || Py.eq_empty_str v = false → no_handle v →
       Py.lookup_attr v "isoformat" = None →
       convert_to_string v
       = Returns (PStr (if Py.truthy v then Py.str v else "")))
  ∧ convert_to_string (PInt 0) = Returns (PStr "")
  ∧ convert_to_string (PBool false) = Returns (PStr "")
  ∧ convert_to_string (PList []) = Returns (PStr "")
  ∧ convert_to_string (PStr "x") = Returns (PStr "x")
  ∧ convert_to_string (PDatetime 2024 1 15 10 30 45 0)
    = Returns (PStr "2024-01-15T10:30:45").
Proof.
  repeat match goal with |- _ ∧ _ => split end; try reflexivity.
  - apply convert_to_string_handle.
  - intros v f Hne Hu Hf. rewrite convert_to_string_no_handle by assumption.
    now rewrite Hf.
  - intros v Hne Hu Hf. rewrite convert_to_string_no_handle by assumption.
    now rewrite Hf.
Qed.

(** The precedence at work on objects: a handle wins over the default
    text, a falsy handle falls through to it, and truthy scalars keep their
    default text. *)
Lemma convert_to_string_precedence_witness :
  convert_to_string (data_obj "User" [("username", PStr "amy")])
  = Returns (PStr "amy")
  ∧ convert_to_string
      (PObj "Day" "<Day>" "<Day>" None
         [("isoformat", PObj "method" "<m>" "<m>" (Some (PStr "2024-01-15")) [])])
    = Returns (PStr "2024-01-15")
  ∧ convert_to_string (PInt 42) = Returns (PStr "42").
Proof.
  destruct convert_to_string_precedence
    as (_ & _ & Hhandle & Hiso & _ & Hdefault & _).
  split; [|split].
  - apply (Hhandle _ (PStr "amy")); reflexivity.
  - apply (Hiso _ (PObj "method" "<m>" "<m>" (Some (PStr "2024-01-15")) []));
      [reflexivity | exact I | reflexivity].
  - apply (Hdefault (PInt 42)); [reflexivity | exact I | reflexivity].
Defined.

(* ===================================================================== *)
(** * Defensive extraction: properties *)
(* ===================================================================== *)

Lemma safe_getattr_missing obj attr default :
  Py.lookup_attr obj attr = None → safe_getattr obj attr default = default.
Proof.
  intros H. unfold safe_getattr, Py.getattr3. rewrite H.
  now destruct default.
Qed.

Lemma safe_getattr_none obj attr default :
  Py.lookup_attr obj attr = Some PNone → safe_getattr obj attr default = default.
Proof. intros H. unfold safe_getattr, Py.getattr3. now rewrite H. Qed.

Lemma safe_getattr_value obj attr default v :
  Py.lookup_attr obj attr = Some v → v ≠ PNone →
  safe_getattr obj attr default = v.
Proof.
  intros H Hv. unfold safe_getattr, Py.getattr3. rewrite H.
  destruct v; try reflexivity. now destruct Hv.
Qed.

Lemma getattr3_none obj attr default :
  Py.lookup_attr obj attr = Some PNone → Py.getattr3 obj attr default = PNone.
Proof. intros H. unfold Py.getattr3. now rewrite H. Qed.

Lemma py_attr_none obj attr v :
  Py.lookup_attr obj attr = Some PNone → py_attr obj attr = Returns v → v = PNone.
Proof. intros H. unfold py_attr. rewrite H. now intros [= <-]. Qed.

Lemma outcome_bind_returns {A B : Type} (m : outcome A) (f : A → outcome B) b :
  m ≫= f = Returns b → ∃ a, m = Returns a ∧ f a = Returns b.
Proof. destruct m as [a|e]; simpl; [eauto | discriminate]. Qed.

Lemma safe_getattr_not_none obj attr default :
  default ≠ PNone → safe_getattr obj attr default ≠ PNone.
Proof.
  intros Hd. unfold safe_getattr.
  destruct (Py.getattr3 obj attr default) eqn:Hv; simpl; congruence.
Qed.

Lemma search_kwargs_default article f d kw :
  In (f, d) field_defaults →
  Py.lookup_attr article f = Some PNone →
  Client.search_article_kwargs article = Returns kw →
  Py.assoc f kw = Some d.
Proof.
  intros Hin Hnone Hkw. unfold Client.search_article_kwargs in Hkw.
  do 3 invert_bind @outcome_bind_returns Hkw. injection Hkw as <-.
  simpl in Hin.
  repeat (destruct Hin as [[= <- <-]|Hin]);
    try (cbn; f_equal; now apply safe_getattr_none);
    try (cbn; f_equal;
         match goal with
         | E : convert_to_string (safe_getattr _ ?n _) = _ |- _ =>
             rewrite (safe_getattr_none _ n _ Hnone) in E;
             now injection E as <-
         end).
  destruct Hin.
Qed.

Lemma feed_kwargs_pass_none article f kw :
  In f plain_fields →
  Py.lookup_attr article f = Some PNone →
  Client.feed_article_kwargs article = Returns kw →
  Py.assoc f kw = Some PNone.
Proof.
  intros Hin Hnone Hkw. unfold Client.feed_article_kwargs in Hkw.
  do 5 invert_bind @outcome_bind_returns Hkw. injection Hkw as <-.
  simpl in Hin.
  repeat (destruct Hin as [<-|Hin]);
    try (cbn; f_equal; now apply getattr3_none);
    try (cbn; f_equal; eapply py_attr_none; eassumption).
  destruct Hin.
Qed.

Lemma user_kwargs_pass_none username article f kw :
  In f plain_fields →
  Py.lookup_attr article f = Some PNone →
  Client.user_article_kwargs username article = Returns kw →
  Py.assoc f kw = Some PNone.
Proof.
  intros Hin Hnone Hkw. unfold Client.user_article_kwargs in Hkw.
  do 4 invert_bind @outcome_bind_returns Hkw. injection Hkw as <-.
  simpl in Hin.
  repeat (destruct Hin as [<-|Hin]);
    try (cbn; f_equal; now apply getattr3_none);
    try (cbn; f_equal; eapply py_attr_none; eassumption).
  destruct Hin.
Qed.

Lemma profile_kwargs_pass_none user f kw :
  In f plain_user_fields →
  Py.lookup_attr user f = Some PNone →
  Client.user_kwargs user = Returns kw →
  Py.assoc f kw = Some PNone.
Proof.
  intros Hin Hnone Hkw. unfold Client.user_kwargs in Hkw.
  do 4 invert_bind @outcome_bind_returns Hkw. injection Hkw as <-.
  simpl in Hin.
  repeat (destruct Hin as [<-|Hin]);
    try (cbn; f_equal; now apply getattr3_none);
    try (cbn; f_equal; eapply py_attr_none; eassumption).
  destruct Hin.
Qed.

Lemma validated_none `{Pydantic} {A : Type} model kw (r : option A) :
  r = None →
  validated model kw r
  = Raises (PyException "ValidationError" (validation_error_text model kw)).
Proof. now intros ->. Qed.

Lemma article_new_rejects_none_claps `{Pydantic} kw :
  Py.assoc "claps" kw = Some PNone →
  MediumArticle.new kw
  = Raises (PyException "ValidationError"
              (validation_error_text "MediumArticle" kw)).
Proof.
  intros Hc. unfold MediumArticle.new. apply validated_none.
  assert (Hclaps : defaulted lax_int 0 kw "claps" = None).
  { unfold defaulted. rewrite Hc. apply lax_int_none. }
  rewrite Hclaps.
  repeat match goal with
         | |- context [mbind _ ?o] => destruct o; simpl; try reflexivity
         end.
Qed.

Lemma article_new_defaults_claps `{Pydantic} kw r :
  Py.assoc "claps" kw = None →
  MediumArticle.new kw = Returns r → MediumArticle.claps r = 0.
Proof.
  intros Hc. unfold MediumArticle.new, validated. intros Hr.
  assert (Hclaps : defaulted lax_int 0 kw "claps" = Some 0).
  { unfold defaulted. now rewrite Hc. }
  rewrite Hclaps in Hr.
  repeat match type of Hr with
         | context [mbind _ ?o] =>
             let E := fresh "E" in
             destruct o eqn:E; simpl in Hr; [|discriminate]
         end.
  now injection Hr as <-.
Qed.



(* ===================================================================== *)
(** * Access layer: failure classification *)
(* ===================================================================== *)

Section Classification.

Context `{Pydantic}.

Lemma handle_api_error_raises {A : Type} e ctx log :
  Client._handle_api_error (A := A) e ctx log
  = (Raises (MediumErr (api_error e ctx)), log).
Proof.
  unfold Client._handle_api_error, api_error, status_of_message.
  destruct (PyStr.contains "rate limit" _); [reflexivity|].
  destruct (PyStr.contains "unauthorized" _); [reflexivity|].
  destruct (PyStr.contains "not found" _); reflexivity.
Qed.

Lemma guarded_raises {A : Type} (body : M (option A)) ctx log e log' :
  body log = (Raises e, log') →
  try_except body
    (λ e, _ ← Client._handle_api_error (A := unit) e ctx; mret None) log
  = (Raises (MediumErr (api_error e ctx)), log').
Proof.
  intros Hb. unfold try_except. rewrite Hb.
  unfold mbind, M_bind. now rewrite handle_api_error_raises.
Qed.

Lemma guarded_returns {A : Type} (body : M (option A)) ctx log a log' :
  body log = (Returns a, log') →
  try_except body
    (λ e, _ ← Client._handle_api_error (A := unit) e ctx; mret None) log
  = (Returns a, log').
Proof. intros Hb. unfold try_except. now rewrite Hb. Qed.

Lemma guarded_only_medium_errors {A : Type} (body : M (option A)) ctx log x log' :
  try_except body
    (λ e, _ ← Client._handle_api_error (A := unit) e ctx; mret None) log
  = (Raises x, log') →
  ∃ e, x = MediumErr (api_error e ctx).
Proof.
  destruct (body log) as [[a|e] l] eqn:Hb.
  - rewrite (guarded_returns _ _ _ _ _ Hb). discriminate.
  - rewrite (guarded_raises _ _ _ _ _ Hb). intros [= <- _]. now exists e.
Qed.

Lemma api_error_status e ctx :
  status_code (api_error e ctx) = status_of_message (exn_str e).
Proof.
  unfold api_error, status_of_message.
  destruct (PyStr.contains "rate limit" _); [reflexivity|].
  destruct (PyStr.contains "unauthorized" _); [reflexivity|].
  destruct (PyStr.contains "not found" _); reflexivity.
Qed.

Lemma api_error_context e ctx :
  details (api_error e ctx) !! "context" = Some ctx.
Proof.
  unfold api_error, status_of_message.
  destruct (PyStr.contains "rate limit" _); [apply lookup_singleton_eq|].
  destruct (PyStr.contains "unauthorized" _); [apply lookup_singleton_eq|].
  destruct (PyStr.contains "not found" _); [apply lookup_singleton_eq|].
  apply lookup_insert_eq.
Qed.

Lemma api_error_generic e ctx :
  status_of_message (exn_str e) = None →
  details (api_error e ctx) !! "original_error" = Some (exn_str e)
  ∧ message (api_error e ctx)
    = "Medium API error in " +:+ ctx +:+ ": " +:+ exn_str e.
Proof.
  unfold api_error, status_of_message.
  destruct (PyStr.contains "rate limit" _); [discriminate|].
  destruct (PyStr.contains "unauthorized" _); [discriminate|].
  destruct (PyStr.contains "not found" _); [discriminate|].
  intros _. simpl. split; [|reflexivity].
  rewrite lookup_insert_ne by discriminate. apply lookup_singleton_eq.
Qed.

End Classification.

(* ===================================================================== *)
(** * Access layer: what each operation computes *)
(* ===================================================================== *)

Section Operations.

Context `{Pydantic}.
Variable self : Client.MediumClient.
Local Abbreviation up := (Client.medium self).

Lemma get_user_info_run username log :
  Client.get_user_info self username log
  = (classified ("getting user info for " +:+ username)
       (user ← Upstream.user up username;
        kw ← Client.user_kwargs user;
        MediumUser.new kw),
     (log ++ [CallUser username])%list).
Proof.
  unfold Client.get_user_info, classified. unfold_m.
  destruct (Upstream.user up username) as [u|e]; settle_m @handle_api_error_raises.
  destruct (Client.user_kwargs u) as [kw|e]; settle_m @handle_api_error_raises.
  destruct (MediumUser.new kw) as [r|e]; settle_m @handle_api_error_raises.
Qed.

Lemma get_article_content_run article_id content_format log :
  Client.get_article_content self article_id content_format log
  = (classified ("getting content for article " +:+ article_id)
       (article ← Upstream.article up article_id;
        kw ← Client.content_kwargs article content_format;
        ArticleContent.new kw),
     (log ++ [CallArticle article_id])%list).
Proof.
  unfold Client.get_article_content, classified. unfold_m.
  destruct (Upstream.article up article_id) as [a|e]; settle_m @handle_api_error_raises.
  destruct (Client.content_kwargs a content_format) as [kw|e]; settle_m @handle_api_error_raises.
  destruct (ArticleContent.new kw) as [r|e]; settle_m @handle_api_error_raises.
Qed.

Lemma get_user_articles_run username count log :
  Client.get_user_articles self username count log
  = match Upstream.user up username with
    | Raises e =>
        (Raises (MediumErr (api_error e ("getting articles for user " +:+ username))),
         (log ++ [CallUser username])%list)
    | Returns user =>
        (classified ("getting articles for user " +:+ username)
           (user' ← Upstream.user_fetch_articles up user;
            all ← py_attr user' "articles";
            selected ← py_slice_to all (article_limit self count);
            mapM (λ article,
                    kw ← Client.user_article_kwargs username article;
                    MediumArticle.new kw) selected),
         (log ++ [CallUser username; CallUserFetchArticles user])%list)
    end.
Proof.
  unfold Client.get_user_articles, classified, article_limit. unfold_m.
  destruct (Upstream.user up username) as [u|e]; settle_m @handle_api_error_raises.
  destruct (Upstream.user_fetch_articles up u) as [u'|e]; settle_m @handle_api_error_raises.
  destruct (py_attr u' "articles") as [all|e]; settle_m @handle_api_error_raises.
  destruct (py_slice_to all _) as [sel|e]; settle_m @handle_api_error_raises.
  destruct (mapM _ sel) as [l|e]; settle_m @handle_api_error_raises.
Qed.

Lemma get_top_feeds_run tag mode count log :
  Client.get_top_feeds self tag mode count log
  = let ctx := "getting top feeds for tag " +:+ fmt_tag tag in
    let call := CallTopfeeds (normalize_tag tag) mode in
    match (top_feeds ← Upstream.topfeeds up (normalize_tag tag) mode;
           results ← py_attr top_feeds "articles";
           py_slice_to results (article_limit self count)) with
    | Raises e =>
        (Raises (MediumErr (api_error e ctx)), (log ++ [call])%list)
    | Returns results =>
        (classified ctx
           (_ ← Upstream.fetch_articles up results;
            mapM (λ article,
                    kw ← Client.feed_article_kwargs (Upstream.hydrated up article);
                    MediumArticle.new kw) results),
         (log ++ [call; CallFetchArticles results])%list)
    end.
Proof.
  unfold Client.get_top_feeds, classified, article_limit. unfold_m.
  destruct (Upstream.topfeeds up _ mode) as [tf|e]; settle_m @handle_api_error_raises.
  destruct (py_attr tf "articles") as [all|e]; settle_m @handle_api_error_raises.
  destruct (py_slice_to all _) as [sel|e]; settle_m @handle_api_error_raises.
  destruct (Upstream.fetch_articles up sel) as [[]|e]; settle_m @handle_api_error_raises.
  destruct (mapM _ sel) as [l|e]; settle_m @handle_api_error_raises.
Qed.

Lemma search_articles_run query count log :
  Client.search_articles self query count log
  = let ctx := "searching articles with query: " +:+ query in
    match (results ← Upstream.search_articles up query;
           py_slice_to results (article_limit self count)) with
    | Raises e =>
        (Raises (MediumErr (api_error e ctx)),
         (log ++ [CallSearchArticles query])%list)
    | Returns results =>
        (classified ctx
           (_ ← Upstream.fetch_articles up results;
            mapM (λ article,
                    kw ← Client.search_article_kwargs (Upstream.hydrated up article);
                    MediumArticle.new kw) results),
         (log ++ [CallSearchArticles query; CallFetchArticles results])%list)
    end.
Proof.
  unfold Client.search_articles, classified, article_limit. unfold_m.
  destruct (Upstream.search_articles up query) as [all|e]; settle_m @handle_api_error_raises.
  destruct (py_slice_to all _) as [sel|e]; settle_m @handle_api_error_raises.
  destruct (Upstream.fetch_articles up sel) as [[]|e]; settle_m @handle_api_error_raises.
  destruct (mapM _ sel) as [l|e]; settle_m @handle_api_error_raises.
Qed.

End Operations.

(** C2. Whatever exception [e] an upstream call raises inside any of the
    five access-layer operations, the operation raises the [MediumError]
    that [_handle_api_error] builds from [e] and the call context.  Its
    status code is the one of the first substring found in the lowercased
    text of [e]: rate limit gives 429, else unauthorized gives 401, else not
    found gives 404, else there is none, and then the details hold the
    original text under original_error, and the message carries it; the
    details always hold the call context.  No operation ever raises anything
    but such a [MediumError]. *)
Theorem upstream_failure_reraised_as_MediumError
    `{Pydantic} (self : Client.MediumClient) (e : exn) (log : list event) :
  (∀ username,
     Upstream.user (Client.medium self) username = Raises e →
     Client.get_user_info self username log
     = (Raises (MediumErr (api_error e ("getting user info for " +:+ username))),
        (log ++ [CallUser username])%list))
  ∧ (∀ username count,
       Upstream.user (Client.medium self) username = Raises e →
       Client.get_user_articles self username count log
       = (Raises (MediumErr
                    (api_error e ("getting articles for user " +:+ username))),
          (log ++ [CallUser username])%list))
  ∧ (∀ username count user,
       Upstream.user (Client.medium self) username = Returns user →
       Upstream.user_fetch_articles (Client.medium self) user = Raises e →
       Client.get_user_articles self username count log
       = (Raises (MediumErr
                    (api_error e ("getting articles for user " +:+ username))),
          (log ++ [CallUser username; CallUserFetchArticles user])%list))
  ∧ (∀ article_id content_format,
       Upstream.article (Client.medium self) article_id = Raises e →
       Client.get_article_content self article_id content_format log
       = (Raises (MediumErr
                    (api_error e ("getting content for article " +:+ article_id))),
          (log ++ [CallArticle article_id])%list))
  ∧ (∀ tag mode count,
       Upstream.topfeeds (Client.medium self) (normalize_tag tag) mode = Raises e →
       Client.get_top_feeds self tag mode count log
       = (Raises (MediumErr
                    (api_error e ("getting top feeds for tag " +:+ fmt_tag tag))),
          (log ++ [CallTopfeeds (normalize_tag tag) mode])%list))
  ∧ (∀ tag mode count top_feeds all,
       Upstream.topfeeds (Client.medium self) (normalize_tag tag) mode
       = Returns top_feeds →
       py_attr top_feeds "articles" = Returns (PList all) →
       Upstream.fetch_articles (Client.medium self)
         (slice_to all (article_limit self count)) = Raises e →
       Client.get_top_feeds self tag mode count log
       = (Raises (MediumErr
                    (api_error e ("getting top feeds for tag " +:+ fmt_tag tag))),
          (log ++ [CallTopfeeds (normalize_tag tag) mode;
                   CallFetchArticles (slice_to all (article_limit self count))])%list))
  ∧ (∀ query count,
       Upstream.search_articles (Client.medium self) query = Raises e →
       Client.search_articles self query count log
       = (Raises (MediumErr
                    (api_error e ("searching articles with query: " +:+ query))),
          (log ++ [CallSearchArticles query])%list))
  ∧ (∀ query count all,
       Upstream.search_articles (Client.medium self) query = Returns (PList all) →
       Upstream.fetch_articles (Client.medium self)
         (slice_to all (article_limit self count)) = Raises e →
       Client.search_articles self query count log
       = (Raises (MediumErr
                    (api_error e ("searching articles with query: " +:+ query))),
          (log ++ [CallSearchArticles query;
                   CallFetchArticles (slice_to all (article_limit self count))])%list))
  ∧ (∀ ctx,
       status_code (api_error e ctx) = status_of_message (exn_str e)
       ∧ details (api_error e ctx) !! "context" = Some ctx
       ∧ (status_of_message (exn_str e) = None →
          details (api_error e ctx) !! "original_error" = Some (exn_str e)
          ∧ message (api_error e ctx)
            = "Medium API error in " +:+ ctx +:+ ": " +:+ exn_str e))
  ∧ (∀ x log',
       (∀ username,
          Client.get_user_info self username log = (Raises x, log') →
          ∃ e' ctx, x = MediumErr (api_error e' ctx))
       ∧ (∀ username count,
            Client.get_user_articles self username count log = (Raises x, log') →
            ∃ e' ctx, x = MediumErr (api_error e' ctx))
       ∧ (∀ article_id content_format,
            Client.get_article_content self article_id content_format log
            = (Raises x, log') →
            ∃ e' ctx, x = MediumErr (api_error e' ctx))
       ∧ (∀ tag mode count,
            Client.get_top_feeds self tag mode count log = (Raises x, log') →
            ∃ e' ctx, x = MediumErr (api_error e' ctx))
       ∧ (∀ query count,
            Client.search_articles self query count log = (Raises x, log') →
            ∃ e' ctx, x = MediumErr (api_error e' ctx))).
Proof.
  split_conj; [| | | | | | | | |intros x log'; split_conj].
  - intros username Hu. rewrite get_user_info_run, Hu. reflexivity.
  - intros username count Hu. rewrite get_user_articles_run, Hu. reflexivity.
  - intros username count user Hu Hf.
    rewrite get_user_articles_run, Hu. simpl. rewrite Hf. reflexivity.
  - intros article_id content_format Ha.
    rewrite get_article_content_run, Ha. reflexivity.
  - intros tag mode count Ht. rewrite get_top_feeds_run, Ht. reflexivity.
  - intros tag mode count top_feeds all Ht Ha Hf.
    rewrite get_top_feeds_run, Ht. simpl. rewrite Ha. simpl.
    rewrite Hf. reflexivity.
  - intros query count Hs. rewrite search_articles_run, Hs. reflexivity.
  - intros query count all Hs Hf.
    rewrite search_articles_run, Hs. simpl. rewrite Hf. reflexivity.
  - intros ctx. split; [apply api_error_status|].
    split; [apply api_error_context | apply api_error_generic].
  - intros username Hr.
    apply guarded_only_medium_errors in Hr as [e' ->]. eauto.
  - intros username count Hr.
    apply guarded_only_medium_errors in Hr as [e' ->]. eauto.
  - intros article_id content_format Hr.
    apply guarded_only_medium_errors in Hr as [e' ->]. eauto.
  - intros tag mode count Hr.
    apply guarded_only_medium_errors in Hr as [e' ->]. eauto.
  - intros query count Hr.
    apply guarded_only_medium_errors in Hr as [e' ->]. eauto.
Qed.

(** The classification on the messages the specification names. *)
Example status_of_message_examples :
  status_of_message "Rate limit exceeded" = Some 429
  ∧ status_of_message "RATE LIMIT EXCEEDED" = Some 429
  ∧ status_of_message "Unauthorized access" = Some 401
  ∧ status_of_message "User not found" = Some 404
  ∧ status_of_message "unauthorized: rate limit hit" = Some 429
  ∧ status_of_message "unknown error" = None.
Proof. repeat split. Qed.

(** An unknown handle, for which the upstream call raises, ends in the 404
    error, logged as one upstream call. *)
Lemma upstream_failure_witness :
  run (Client.get_user_info Scenario.client "ghost")
  = (Raises (MediumErr (api_error (PyException "Exception" "User not found")
                          "getting user info for ghost")),
     [CallUser "ghost"])
  ∧ status_code (api_error (PyException "Exception" "User not found")
                   "getting user info for ghost") = Some 404.
Proof.
  destruct (upstream_failure_reraised_as_MediumError Scenario.client
              (PyException "Exception" "User not found") [])
    as (Hinfo & _ & _ & _ & _ & _ & _ & _ & Hclass & _).
  split.
  - apply (Hinfo "ghost"). reflexivity.
  - destruct (Hclass "getting user info for ghost") as (-> & _). reflexivity.
Defined.

(* ===================================================================== *)
(** * Tool surface: the profile tool *)
(* ===================================================================== *)

Lemma dumps_object_not_null f fs : Json.dumps (JObj (f :: fs)) ≠ "null".
Proof. unfold Json.dumps. cbn [Json.dumps_at String.append]. discriminate. Qed.

Lemma server_get_user_info_run (c : Server.ClientObject) username log :
  Server.get_user_info (Some c) username log
  = match Server.client_get_user_info c username log with
    | (Returns (Some u), l) => (Returns (Json.dumps (MediumUser.model_dump u)), l)
    | (Returns None, l) => (Returns "null", l)
    | (Raises (MediumErr m), l) =>
        (Raises (PyException "Exception" ("Medium API Error: " +:+ message m)), l)
    | (Raises e, l) =>
        (Raises (PyException "Exception" ("Error: " +:+ exn_str e)), l)
    end.
Proof.
  unfold Server.get_user_info, Server.ensure_client, Server.tool_except. unfold_m.
  destruct (Server.client_get_user_info c username log) as [[[u|]|[t m|m]] l];
    reflexivity.
Qed.

(** C1, as the code has it. For every handle, the access layer's
    [get_user_info] returns a record or raises a [MediumError], never the
    no-record result None; so the tool over it returns the JSON of a record,
    which is not null, or raises with the prefix Medium API Error.  When the
    upstream client has no record of the handle, be it that the call raises
    or that it yields None, the operation raises and so does the tool.  The
    status of the error is the one of the first substring found in the
    lowercased upstream text (rate limit, else unauthorized, else not
    found, else none); it is none when the upstream call yields None.  The
    tool returns JSON null exactly when it runs on a client object whose
    profile operation returns None. *)
Theorem get_user_info_unknown_handle_raises
    `{Pydantic} (self : Client.MediumClient) (username : string)
    (log : list event) :
  ((∃ u,
      Client.get_user_info self username log
      = (Returns (Some u), (log ++ [CallUser username])%list)
      ∧ Server.get_user_info (Some (Server.medium_client self)) username log
        = (Returns (Json.dumps (MediumUser.model_dump u)),
           (log ++ [CallUser username])%list)
      ∧ Json.dumps (MediumUser.model_dump u) ≠ "null")
   ∨ (∃ e,
        Client.get_user_info self username log
        = (Raises (MediumErr (api_error e ("getting user info for " +:+ username))),
           (log ++ [CallUser username])%list)
        ∧ Server.get_user_info (Some (Server.medium_client self)) username log
          = (Raises (PyException "Exception"
                       ("Medium API Error: "
                        +:+ message (api_error e
                                       ("getting user info for " +:+ username)))),
             (log ++ [CallUser username])%list)))
  ∧ (∀ e,
       Upstream.user (Client.medium self) username = Raises e →
       Client.get_user_info self username log
       = (Raises (MediumErr (api_error e ("getting user info for " +:+ username))),
          (log ++ [CallUser username])%list)
       ∧ status_code (api_error e ("getting user info for " +:+ username))
         = status_of_message (exn_str e)
       ∧ Server.get_user_info (Some (Server.medium_client self)) username log
         = (Raises (PyException "Exception"
                      ("Medium API Error: "
                       +:+ message (api_error e
                                      ("getting user info for " +:+ username)))),
            (log ++ [CallUser username])%list))
  ∧ (Upstream.user (Client.medium self) username = Returns PNone →
     (∃ m,
        Client.get_user_info self username log
        = (Raises (MediumErr m), (log ++ [CallUser username])%list)
        ∧ status_code m = None)
     ∧ Server.get_user_info (Some (Server.medium_client self)) username log
       = (Raises (PyException "Exception"
                    ("Medium API Error: Medium API error in getting user info for "
                     +:+ username
                     +:+ ": 'NoneType' object has no attribute 'username'")),
          (log ++ [CallUser username])%list))
  ∧ (∀ r log',
       Client.get_user_info self username log = (Returns r, log') → r ≠ None)
  ∧ (∀ text log',
       Server.get_user_info (Some (Server.medium_client self)) username log
       = (Returns text, log') →
       text ≠ "null")
  ∧ (∀ (client : option Server.ClientObject) log',
       Server.get_user_info client username log = (Returns "null", log')
       ↔ ∃ stub,
           client = Some stub
           ∧ Server.client_get_user_info stub username log
             = (Returns None, log')).
Proof.
  assert (Hnull : ∀ u, Json.dumps (MediumUser.model_dump u) ≠ "null").
  { intros u. apply dumps_object_not_null. }
  split_conj.
  - rewrite server_get_user_info_run. simpl. rewrite get_user_info_run.
    destruct (_ ≫= _) as [u|e]; simpl.
    + left. exists u. split_conj; try reflexivity. apply Hnull.
    + right. exists e. split; reflexivity.
  - intros e He. split_conj.
    + rewrite get_user_info_run, He. reflexivity.
    + apply api_error_status.
    + rewrite server_get_user_info_run. simpl.
      rewrite get_user_info_run, He. reflexivity.
  - intros He. split.
    + eexists. rewrite get_user_info_run, He. split; [reflexivity|].
      rewrite api_error_status. reflexivity.
    + rewrite server_get_user_info_run. simpl.
      rewrite get_user_info_run, He. reflexivity.
  - intros r log'. rewrite get_user_info_run.
    destruct (_ ≫= _) as [u|e]; simpl; [|discriminate].
    intros [= <- _]. discriminate.
  - intros text log'. rewrite server_get_user_info_run. simpl.
    rewrite get_user_info_run.
    destruct (_ ≫= _) as [u|e]; simpl; [|discriminate].
    intros [= <- _]. apply Hnull.
  - intros client log'. split.
    + destruct client as [stub|]; [|discriminate].
      rewrite server_get_user_info_run.
      destruct (Server.client_get_user_info stub username log)
        as [[[u|]|[t m|m]] l] eqn:Hs.
      * intros Hu. exfalso. apply (Hnull u). congruence.
      * intros [= <-]. exists stub. split; [reflexivity | exact Hs].
      * discriminate.
      * discriminate.
    + intros (stub & -> & Hs). rewrite server_get_user_info_run, Hs. reflexivity.
Qed.

(** The handle ghost, unknown upstream: the tool does not answer null, it
    raises. *)
Lemma unknown_handle_is_an_error :
  run (Server.get_user_info (Some (Server.medium_client Scenario.client)) "ghost")
  = (Raises (PyException "Exception"
               "Medium API Error: Resource not found: getting user info for ghost"),
     [CallUser "ghost"]).
Proof. vm_compute. reflexivity. Qed.

Lemma get_user_info_unknown_handle_witness :
  run (Server.get_user_info (Some (Server.medium_client Scenario.client)) "ghost")
  = (Raises (PyException "Exception"
               ("Medium API Error: "
                +:+ message (api_error (PyException "Exception" "User not found")
                               "getting user info for ghost"))),
     [CallUser "ghost"])
  ∧ status_code (api_error (PyException "Exception" "User not found")
                   ("getting user info for " +:+ "ghost"))
    = Some 404.
Proof.
  destruct (get_user_info_unknown_handle_raises Scenario.client "ghost" [])
    as (_ & Hraise & _).
  destruct (Hraise (PyException "Exception" "User not found") eq_refl)
    as (_ & Hstatus & Htool).
  split; [exact Htool | rewrite Hstatus; reflexivity].
Defined.

(* ===================================================================== *)
(** * Access layer: truncation *)
(* ===================================================================== *)

Section Loops.

Context {A B : Type} (f : A → outcome B).

Lemma mapM_returns_Forall2 l l' :
  mapM f l = Returns l' → Forall2 (λ a r, f a = Returns r) l l'.
Proof.
  revert l'. induction l as [|a l IH]; intros l'; simpl.
  - intros [= <-]. constructor.
  - destruct (f a) as [r|e] eqn:Ha; simpl; [|discriminate].
    destruct (mapM f l) as [k|e]; simpl; [|discriminate].
    intros [= <-]. constructor; [exact Ha | now apply IH].
Qed.

Lemma mapM_returns_length l l' :
  mapM f l = Returns l' → length l' = length l.
Proof.
  intros Hm. apply mapM_returns_Forall2 in Hm.
  symmetry. eapply Forall2_length, Hm.
Qed.

Lemma mapM_converts l :
  Forall (converts f) l → ∃ l', mapM f l = Returns l'.
Proof.
  induction 1 as [|a l [r Ha] _ [k Hk]]; simpl.
  - now exists [].
  - rewrite Ha. simpl. rewrite Hk. simpl. now exists (r :: k).
Qed.

End Loops.

Lemma slice_to_length {A : Type} (l : list A) (k : Z) :
  0 ≤ k → Z.of_nat (length (slice_to l k)) = Z.min k (Z.of_nat (length l)).
Proof.
  intros Hk. unfold slice_to.
  destruct (Z.ltb_spec k 0) as [Hlt|_]; [lia|].
  rewrite length_firstn. lia.
Qed.

Lemma slice_to_negative {A : Type} (l : list A) (k : Z) :
  k < 0 →
  Z.of_nat (length (slice_to l k)) = Z.max 0 (Z.of_nat (length l) + k).
Proof.
  intros Hk. unfold slice_to.
  destruct (Z.ltb_spec k 0) as [_|Hge]; [|lia].
  rewrite length_firstn. lia.
Qed.

Lemma py_slice_to_returns v k sel :
  py_slice_to v k = Returns sel → ∃ all, v = PList all ∧ sel = slice_to all k.
Proof. destruct v; simpl; try discriminate. intros [= <-]. eauto. Qed.

Lemma classified_returns {A : Type} ctx (o : outcome A) r :
  classified ctx o = Returns r → ∃ a, r = Some a ∧ o = Returns a.
Proof. destruct o as [a|e]; simpl; [intros [= <-]; eauto | discriminate]. Qed.

Section Truncation.

Context `{Pydantic}.
Variable self : Client.MediumClient.
Variable count : Z.
Hypothesis count_nonneg : 0 ≤ count.
Hypothesis ceiling_valid : MediumMCPConfig.max_articles_ok (ceiling self) = true.

Lemma limit_nonneg : 0 ≤ article_limit self count.
Proof.
  unfold article_limit. fold (ceiling self).
  unfold MediumMCPConfig.max_articles_ok in ceiling_valid. lia.
Qed.

Lemma selected_length {T : Type} (available : list T) :
  Z.of_nat (length (slice_to available (article_limit self count)))
  = Z.min count (Z.min (ceiling self) (Z.of_nat (length available))).
Proof.
  rewrite slice_to_length by apply limit_nonneg.
  unfold article_limit, ceiling. lia.
Qed.

Lemma get_user_articles_returns username log l log' :
  Client.get_user_articles self username count log = (Returns l, log') →
  ∃ articles user user' available,
    l = Some articles
    ∧ Upstream.user (Client.medium self) username = Returns user
    ∧ Upstream.user_fetch_articles (Client.medium self) user = Returns user'
    ∧ py_attr user' "articles" = Returns (PList available)
    ∧ mapM (user_article username)
        (slice_to available (article_limit self count)) = Returns articles.
Proof.
  rewrite get_user_articles_run.
  destruct (Upstream.user _ username) as [user|e] eqn:Hu; [|discriminate].
  intros [= Hc _]. apply classified_returns in Hc as (articles & -> & Hb).
  destruct (Upstream.user_fetch_articles _ user) as [user'|e] eqn:Hf;
    [|discriminate].
  simpl in Hb.
  destruct (py_attr user' "articles") as [all|e] eqn:Ha; [|discriminate].
  simpl in Hb.
  destruct (py_slice_to all _) as [sel|e] eqn:Hs; [|discriminate].
  apply py_slice_to_returns in Hs as (available & -> & ->).
  exists articles, user, user', available.
  split_conj; first [reflexivity | assumption | exact Hb].
Qed.

Lemma get_top_feeds_returns tag mode log l log' :
  Client.get_top_feeds self tag mode count log = (Returns l, log') →
  ∃ articles top_feeds available,
    l = Some articles
    ∧ Upstream.topfeeds (Client.medium self) (normalize_tag tag) mode
      = Returns top_feeds
    ∧ py_attr top_feeds "articles" = Returns (PList available)
    ∧ mapM (feed_article self)
        (slice_to available (article_limit self count)) = Returns articles.
Proof.
  rewrite get_top_feeds_run.
  destruct (Upstream.topfeeds _ _ mode) as [top_feeds|e] eqn:Ht; [|discriminate].
  simpl.
  destruct (py_attr top_feeds "articles") as [all|e] eqn:Ha; [|discriminate].
  simpl. destruct (py_slice_to all _) as [sel|e] eqn:Hs; [|discriminate].
  apply py_slice_to_returns in Hs as (available & -> & ->).
  intros [= Hc _]. apply classified_returns in Hc as (articles & -> & Hb).
  destruct (Upstream.fetch_articles _ _) as [[]|e]; [|discriminate].
  exists articles, top_feeds, available.
  split_conj; first [reflexivity | assumption | exact Hb].
Qed.

Lemma search_articles_returns query log l log' :
  Client.search_articles self query count log = (Returns l, log') →
  ∃ articles available,
    l = Some articles
    ∧ Upstream.search_articles (Client.medium self) query
      = Returns (PList available)
    ∧ mapM (search_article self)
        (slice_to available (article_limit self count)) = Returns articles.
Proof.
  rewrite search_articles_run.
  destruct (Upstream.search_articles _ query) as [all|e] eqn:Hq; [|discriminate].
  simpl. destruct (py_slice_to all _) as [sel|e] eqn:Hs; [|discriminate].
  apply py_slice_to_returns in Hs as (available & -> & ->).
  intros [= Hc _]. apply classified_returns in Hc as (articles & -> & Hb).
  destruct (Upstream.fetch_articles _ _) as [[]|e]; [|discriminate].
  exists articles, available.
  split_conj; first [reflexivity | assumption | exact Hb].
Qed.

End Truncation.

(** C3. For a requested count that is not negative (the tool surface lets
    1..100 through) and a ceiling that configuration validation accepts,
    each list-producing operation that returns, returns
    min(count, ceiling, available) records,
    [available] being the length of the list the upstream call produced; and
    it does return whenever the upstream calls return and every selected
    article converts into a record. *)
Theorem list_operations_return_min
    `{Pydantic} (self : Client.MediumClient) (count : Z) (log : list event) :
  0 ≤ count →
  MediumMCPConfig.max_articles_ok (ceiling self) = true →
  (∀ username l log',
     Client.get_user_articles self username count log = (Returns l, log') →
     ∃ articles user user' available,
       l = Some articles
       ∧ Upstream.user (Client.medium self) username = Returns user
       ∧ Upstream.user_fetch_articles (Client.medium self) user = Returns user'
       ∧ py_attr user' "articles" = Returns (PList available)
       ∧ Z.of_nat (length articles)
         = Z.min count (Z.min (ceiling self) (Z.of_nat (length available))))
  ∧ (∀ tag mode l log',
       Client.get_top_feeds self tag mode count log = (Returns l, log') →
       ∃ articles top_feeds available,
         l = Some articles
         ∧ Upstream.topfeeds (Client.medium self) (normalize_tag tag) mode
           = Returns top_feeds
         ∧ py_attr top_feeds "articles" = Returns (PList available)
         ∧ Z.of_nat (length articles)
           = Z.min count (Z.min (ceiling self) (Z.of_nat (length available))))
  ∧ (∀ query l log',
       Client.search_articles self query count log = (Returns l, log') →
       ∃ articles available,
         l = Some articles
         ∧ Upstream.search_articles (Client.medium self) query
           = Returns (PList available)
         ∧ Z.of_nat (length articles)
           = Z.min count (Z.min (ceiling self) (Z.of_nat (length available))))
  ∧ (∀ username user user' available,
       Upstream.user (Client.medium self) username = Returns user →
       Upstream.user_fetch_articles (Client.medium self) user = Returns user' →
       py_attr user' "articles" = Returns (PList available) →
       Forall (converts (user_article username))
         (slice_to available (article_limit self count)) →
       ∃ articles log',
         Client.get_user_articles self username count log
         = (Returns (Some articles), log')
         ∧ Z.of_nat (length articles)
           = Z.min count (Z.min (ceiling self) (Z.of_nat (length available))))
  ∧ (∀ tag mode top_feeds available,
       Upstream.topfeeds (Client.medium self) (normalize_tag tag) mode
       = Returns top_feeds →
       py_attr top_feeds "articles" = Returns (PList available) →
       Upstream.fetch_articles (Client.medium self)
         (slice_to available (article_limit self count)) = Returns tt →
       Forall (converts (feed_article self))
         (slice_to available (article_limit self count)) →
       ∃ articles log',
         Client.get_top_feeds self tag mode count log
         = (Returns (Some articles), log')
         ∧ Z.of_nat (length articles)
           = Z.min count (Z.min (ceiling self) (Z.of_nat (length available))))
  ∧ (∀ query available,
       Upstream.search_articles (Client.medium self) query
       = Returns (PList available) →
       Upstream.fetch_articles (Client.medium self)
         (slice_to available (article_limit self count)) = Returns tt →
       Forall (converts (search_article self))
         (slice_to available (article_limit self count)) →
       ∃ articles log',
         Client.search_articles self query count log
         = (Returns (Some articles), log')
         ∧ Z.of_nat (length articles)
           = Z.min count (Z.min (ceiling self) (Z.of_nat (length available)))).
Proof.
  intros Hcount Hceiling.
  assert (Hlen : ∀ (f : pyval → outcome MediumArticle.t) available articles,
            mapM f (slice_to available (article_limit self count))
            = Returns articles →
            Z.of_nat (length articles)
            = Z.min count (Z.min (ceiling self) (Z.of_nat (length available)))).
  { intros f available articles Hm. apply mapM_returns_length in Hm.
    rewrite Hm. now apply selected_length. }
  split_conj.
  - intros username l log' Hr.
    apply get_user_articles_returns in Hr
      as (articles & user & user' & available & -> & Hu & Hf & Ha & Hm).
    exists articles, user, user', available. split_conj; eauto.
  - intros tag mode l log' Hr.
    apply get_top_feeds_returns in Hr
      as (articles & top_feeds & available & -> & Ht & Ha & Hm).
    exists articles, top_feeds, available. split_conj; eauto.
  - intros query l log' Hr.
    apply search_articles_returns in Hr
      as (articles & available & -> & Hq & Hm).
    exists articles, available. split_conj; eauto.
  - intros username user user' available Hu Hf Ha Hall.
    apply mapM_converts in Hall as [articles Hm].
    exists articles. eexists. split; [|eauto].
    rewrite get_user_articles_run, Hu. simpl. rewrite Hf. simpl.
    rewrite Ha. simpl. unfold user_article in Hm. rewrite Hm. reflexivity.
  - intros tag mode top_feeds available Ht Ha Hf Hall.
    apply mapM_converts in Hall as [articles Hm].
    exists articles. eexists. split; [|eauto].
    rewrite get_top_feeds_run, Ht. simpl. rewrite Ha. simpl. rewrite Hf. simpl.
    unfold feed_article in Hm. rewrite Hm. reflexivity.
  - intros query available Hq Hf Hall.
    apply mapM_converts in Hall as [articles Hm].
    exists articles. eexists. split; [|eauto].
    rewrite search_articles_run, Hq. simpl. rewrite Hf. simpl.
    unfold search_article in Hm. rewrite Hm. reflexivity.
Qed.

(** Ten authored articles requested, four available, ceiling five: exactly
    four records. *)
Lemma list_operations_return_min_witness :
  ∃ articles log',
    run (Client.get_user_articles Scenario.client "amy" 10)
    = (Returns (Some articles), log')
    ∧ Z.of_nat (length articles) = 4.
Proof.
  destruct (list_operations_return_min Scenario.client 10 []
              ltac:(lia) eq_refl) as (_ & _ & _ & Htotal & _).
  destruct (Htotal "amy" (Scenario.user_obj "amy" [])
              (Scenario.user_obj "amy" Scenario.four_articles)
              Scenario.four_articles eq_refl eq_refl eq_refl)
    as (articles & log' & Hrun & Hlen).
  - repeat constructor; eexists; vm_compute; reflexivity.
  - exists articles, log'. split; [exact Hrun | exact Hlen].
Defined.

(* ===================================================================== *)
(** * Access layer: the author of authored articles *)
(* ===================================================================== *)

Lemma required_kwarg {A : Type} (validate : pyval → option A) kw name a :
  required validate kw name = Some a → validate (kwarg kw name) = Some a.
Proof.
  unfold required, kwarg. now destruct (Py.assoc name kw).
Qed.

Lemma article_new_fields `{Pydantic} kw r :
  MediumArticle.new kw = Returns r →
  as_str (kwarg kw "author") = Some (MediumArticle.author r)
  ∧ as_str (kwarg kw "title") = Some (MediumArticle.title r)
  ∧ as_str (kwarg kw "article_id") = Some (MediumArticle.article_id r).
Proof.
  unfold MediumArticle.new, validated. intros Hr.
  repeat match type of Hr with
         | context [mbind _ ?o] =>
             let E := fresh "E" in
             destruct o eqn:E; simpl in Hr; [|discriminate]
         end.
  injection Hr as <-. simpl. split_conj; now apply required_kwarg.
Qed.

Lemma user_article_author `{Pydantic} username article r :
  user_article username article = Returns r →
  MediumArticle.author r = username.
Proof.
  unfold user_article. intros Hr.
  apply outcome_bind_returns in Hr as (kw & Hkw & Hr).
  unfold Client.user_article_kwargs in Hkw.
  do 4 invert_bind @outcome_bind_returns Hkw. injection Hkw as <-.
  apply article_new_fields in Hr as (Ha & _).
  cbn in Ha. now injection Ha.
Qed.

(** C10. Every record the authored-articles operation returns carries the
    requested handle as its author, whatever author the upstream article
    objects carry. *)
Theorem get_user_articles_author_is_handle
    `{Pydantic} (self : Client.MediumClient) (username : string) (count : Z)
    (log log' : list event) (l : option (list MediumArticle.t)) :
  Client.get_user_articles self username count log = (Returns l, log') →
  ∃ articles,
    l = Some articles
    ∧ Forall (λ a, MediumArticle.author a = username) articles.
Proof.
  intros Hr.
  apply get_user_articles_returns in Hr
    as (articles & user & user' & available & -> & _ & _ & _ & Hm).
  exists articles. split; [reflexivity|].
  apply mapM_returns_Forall2 in Hm.
  induction Hm as [|a r sel rs Ha _ IH]; constructor; [|exact IH].
  eapply user_article_author, Ha.
Qed.

(** The upstream articles name upstream_author; the records name amy. *)
Lemma get_user_articles_author_witness :
  ∃ articles,
    fst (run (Client.get_user_articles Scenario.client "amy" 2))
    = Returns (Some articles)
    ∧ length articles = 2%nat
    ∧ Forall (λ a, MediumArticle.author a = "amy") articles.
Proof.
  edestruct (get_user_articles_author_is_handle Scenario.client "amy" 2 [])
    as (articles & Hl & Hall); [vm_compute; reflexivity|].
  exists articles. injection Hl as <-.
  split_conj; [vm_compute; reflexivity | reflexivity | exact Hall].
Defined.

(* ===================================================================== *)
(** * Access layer: the article body *)
(* ===================================================================== *)

Lemma convert_to_string_text s : convert_to_string (PStr s) = Returns (PStr s).
Proof.
  unfold convert_to_string. simpl.
  destruct (String.eqb_spec s "") as [->|Hs]; reflexivity.
Qed.

Lemma convert_to_string_text_or_none v :
  text_or_none v →
  ∃ s, convert_to_string (if Py.is_none v then PStr "" else v) = Returns (PStr s).
Proof.
  intros [->|[s ->]]; simpl.
  - now exists "".
  - exists s. apply convert_to_string_text.
Qed.

Lemma selected_representation article content_format :
  (if String.eqb content_format "html" then py_attr article "html"
   else if String.eqb content_format "markdown" then py_attr article "markdown"
   else py_attr article "content")
  = py_attr article (representation_field content_format).
Proof.
  unfold representation_field.
  destruct (String.eqb content_format "html"); [reflexivity|].
  destruct (String.eqb content_format "markdown"); reflexivity.
Qed.

Lemma content_new_fields `{Pydantic} kw r :
  ArticleContent.new kw = Returns r →
  as_str (kwarg kw "content") = Some (ArticleContent.content r)
  ∧ as_str (kwarg kw "content_format") = Some (ArticleContent.content_format r).
Proof.
  unfold ArticleContent.new, validated. intros Hr.
  repeat match type of Hr with
         | context [mbind _ ?o] =>
             let E := fresh "E" in
             destruct o eqn:E; simpl in Hr; [|discriminate]
         end.
  injection Hr as <-. simpl. split_conj; now apply required_kwarg.
Qed.

Lemma content_kwargs_fields article content_format kw :
  Client.content_kwargs article content_format = Returns kw →
  ∃ field,
    py_attr article (representation_field content_format) = Returns field
    ∧ kwarg kw "content" = Py.or_else field (PStr "")
    ∧ kwarg kw "content_format" = PStr content_format.
Proof.
  unfold Client.content_kwargs. rewrite selected_representation. intros Hkw.
  apply outcome_bind_returns in Hkw as (field & Hfield & Hkw).
  do 3 invert_bind @outcome_bind_returns Hkw. injection Hkw as <-.
  exists field. split_conj; [exact Hfield | reflexivity | reflexivity].
Qed.

Lemma as_str_or_else field s :
  as_str (Py.or_else field (PStr "")) = Some s →
  PStr s = Py.or_else field (PStr "") ∧ (∀ t, field = PStr t → s = t).
Proof.
  intros Hs. split.
  - destruct (Py.or_else field (PStr "")); try discriminate.
    now injection Hs as ->.
  - intros t ->. unfold Py.or_else in Hs. simpl in Hs.
    destruct (String.eqb_spec t "") as [Ht|_]; simpl in Hs.
    + injection Hs as <-. exact (eq_sym Ht).
    + now injection Hs as <-.
Qed.

(** C6. The record the article-body operation returns has the requested
    selector as its [content_format], and as its [content] the upstream
    field the selector picks: [html] for html, [markdown] for markdown, and
    the plain-text field [content] for every other selector (a field that is
    None or otherwise falsy reads as the empty text).  Both fields are there
    in every record; and the operation does return one whenever the upstream
    article has a textual title and selected field, and author, date and
    subtitle that are texts or absent. *)
Theorem article_content_follows_selector
    `{Pydantic} (self : Client.MediumClient) (article_id content_format : string)
    (log : list event) :
  (∀ r log',
     Client.get_article_content self article_id content_format log
     = (Returns r, log') →
     ∃ record article field,
       r = Some record
       ∧ Upstream.article (Client.medium self) article_id = Returns article
       ∧ py_attr article (representation_field content_format) = Returns field
       ∧ ArticleContent.content_format record = content_format
       ∧ PStr (ArticleContent.content record) = Py.or_else field (PStr "")
       ∧ (∀ s, field = PStr s → ArticleContent.content record = s))
  ∧ (∀ article t s,
       Upstream.article (Client.medium self) article_id = Returns article →
       py_attr article "title" = Returns (PStr t) →
       py_attr article (representation_field content_format) = Returns (PStr s) →
       text_or_none (Py.getattr3 article "subtitle" PNone) →
       text_or_none (Py.getattr3 article "author" PNone) →
       text_or_none (Py.getattr3 article "published_at" PNone) →
       ∃ record,
         Client.get_article_content self article_id content_format log
         = (Returns (Some record), (log ++ [CallArticle article_id])%list)
         ∧ ArticleContent.content record = s
         ∧ ArticleContent.content_format record = content_format
         ∧ ArticleContent.title record = t)
  ∧ representation_field "html" = "html"
  ∧ representation_field "markdown" = "markdown"
  ∧ representation_field "text" = "content".
Proof.
  split_conj; try reflexivity.
  - intros r log'. rewrite get_article_content_run. intros [= Hc _].
    apply classified_returns in Hc as (record & -> & Hb).
    apply outcome_bind_returns in Hb as (article & Ha & Hb).
    apply outcome_bind_returns in Hb as (kw & Hkw & Hnew).
    apply content_kwargs_fields in Hkw as (field & Hfield & Hcontent & Hformat).
    apply content_new_fields in Hnew as (Hc & Hf).
    rewrite Hcontent in Hc. rewrite Hformat in Hf.
    apply as_str_or_else in Hc as (Hc1 & Hc2).
    exists record, article, field.
    split_conj; try assumption; try reflexivity. now injection Hf.
  - intros article t s Ha Ht Hs Hsub Hauthor Hpub.
    rewrite get_article_content_run, Ha. simpl.
    unfold Client.content_kwargs. rewrite selected_representation, Hs, Ht. simpl.
    apply convert_to_string_text_or_none in Hauthor as [a ->].
    apply convert_to_string_text_or_none in Hpub as [p ->]. simpl.
    unfold ArticleContent.new, validated, required, defaulted. simpl.
    assert (Ht' : Py.or_else (PStr t) (PStr "") = PStr t).
    { unfold Py.or_else. simpl. now destruct (String.eqb_spec t "") as [->|_]. }
    assert (Hs' : Py.or_else (PStr s) (PStr "") = PStr s).
    { unfold Py.or_else. simpl. now destruct (String.eqb_spec s "") as [->|_]. }
    rewrite Ht', Hs'. simpl.
    destruct Hsub as [->|[sub ->]]; simpl; eexists; split_conj; reflexivity.
Qed.

(** Format html on the sample article: the record holds the HTML field and
    the tag html. *)
Lemma article_content_follows_selector_witness :
  ∃ record,
    run (Client.get_article_content Scenario.client "abc123" "html")
    = (Returns (Some record), [CallArticle "abc123"])
    ∧ ArticleContent.content record = "<h1>Test Content</h1>"
    ∧ ArticleContent.content_format record = "html"
    ∧ ArticleContent.title record = "Test Article".
Proof.
  destruct (article_content_follows_selector Scenario.client "abc123" "html" [])
    as (_ & Htotal & _).
  apply (Htotal Scenario.content_obj).
  - reflexivity.
  - reflexivity.
  - reflexivity.
  - left. reflexivity.
  - right. now exists "testuser".
  - right. now exists "2024-01-01".
Defined.

(* ===================================================================== *)
(** * Access layer: the tag of the top feed *)
(* ===================================================================== *)

(** C8. [get_top_feeds] calls the upstream [topfeeds] first, and with the
    canonical form of its tag: the call logged is
    [topfeeds(tag=normalize_tag(tag), mode=mode)], at most one hydration call
    follows it, and the operation's outcome is the one of [topfeeds] at the
    canonical tag.  The tag Data Science reaches the upstream client as
    data-science, and the absent tag None as None. *)
Theorem get_top_feeds_passes_canonical_tag
    `{Pydantic} (self : Client.MediumClient) (tag : option string)
    (mode : string) (count : Z) (log : list event) :
  (∃ o rest,
     Client.get_top_feeds self tag mode count log
     = (o, (log ++ CallTopfeeds (normalize_tag tag) mode :: rest)%list)
     ∧ (rest = [] ∨ ∃ results, rest = [CallFetchArticles results]))
  ∧ (∀ e,
       Upstream.topfeeds (Client.medium self) (normalize_tag tag) mode = Raises e →
       Client.get_top_feeds self tag mode count log
       = (Raises (MediumErr
                    (api_error e ("getting top feeds for tag " +:+ fmt_tag tag))),
          (log ++ [CallTopfeeds (normalize_tag tag) mode])%list))
  ∧ normalize_tag (Some "Data Science") = Some "data-science"
  ∧ normalize_tag None = None.
Proof.
  split_conj.
  - rewrite get_top_feeds_run. cbv zeta.
    destruct (_ ≫= _) as [results|e]; eexists; eexists;
      (split; [reflexivity|]); eauto.
  - intros e He. rewrite get_top_feeds_run, He. reflexivity.
  - reflexivity.
  - reflexivity.
Qed.

(** The tags Data Science and None against the sample client: the upstream
    client is called with data-science, and with None. *)
Lemma get_top_feeds_canonical_tag_witness :
  (∃ o rest,
     run (Client.get_top_feeds Scenario.client (Some "Data Science") "hot" 3)
     = (o, CallTopfeeds (Some "data-science") "hot" :: rest)
     ∧ (rest = [] ∨ ∃ results, rest = [CallFetchArticles results]))
  ∧ (∃ o rest,
       run (Client.get_top_feeds Scenario.client None "hot" 3)
       = (o, CallTopfeeds None "hot" :: rest)
       ∧ (rest = [] ∨ ∃ results, rest = [CallFetchArticles results])).
Proof.
  split.
  - exact (proj1 (get_top_feeds_passes_canonical_tag
                    Scenario.client (Some "Data Science") "hot" 3 [])).
  - exact (proj1 (get_top_feeds_passes_canonical_tag
                    Scenario.client None "hot" 3 [])).
Defined.

(* ===================================================================== *)
(** * Tool surface: validation before delegation *)
(* ===================================================================== *)

Lemma count_in_range_rejects count log :
  count < 1 ∨ count > 100 →
  Server.count_in_range count log
  = (Raises (ValueError "Count must be between 1 and 100"), log).
Proof.
  intros Hc. unfold Server.count_in_range.
  destruct (Z.ltb_spec count 1); [reflexivity|].
  destruct (Z.gtb_spec count 100); [reflexivity | lia].
Qed.

(** C7. A count outside 1..100, such as 0 or 101, makes each of the three
    counting tools raise before anything else happens: whatever the client
    object is, none of its operations is invoked, and no upstream call is
    logged.  The same holds for [search_articles] and a query that is blank
    after trimming. *)
Theorem invalid_arguments_rejected_before_upstream
    (client : option Server.ClientObject) (log : list event) :
  (∀ count,
     count < 1 ∨ count > 100 →
     (∀ username,
        Server.get_user_articles client username count log
        = (Raises (PyException "Exception"
                     "Error: Count must be between 1 and 100"), log))
     ∧ (∀ tag mode,
          Server.get_top_feeds client tag mode count log
          = (Raises (PyException "Exception"
                       "Error: Count must be between 1 and 100"), log))
     ∧ (∀ query,
          Server.search_articles client query count log
          = (Raises (PyException "Exception"
                       (if String.eqb (PyStr.strip query) ""
                        then "Error: Search query cannot be empty"
                        else "Error: Count must be between 1 and 100")), log)))
  ∧ (∀ query count,
       PyStr.strip query = "" →
       Server.search_articles client query count log
       = (Raises (PyException "Exception" "Error: Search query cannot be empty"),
          log)).
Proof.
  split.
  - intros count Hc. split_conj.
    + intros username. unfold Server.get_user_articles. unfold_m.
      now rewrite count_in_range_rejects.
    + intros tag mode. unfold Server.get_top_feeds. unfold_m.
      now rewrite count_in_range_rejects.
    + intros query. unfold Server.search_articles. unfold_m.
      destruct (String.eqb (PyStr.strip query) ""); [reflexivity|].
      now rewrite count_in_range_rejects.
  - intros query count Hq. unfold Server.search_articles. unfold_m.
    now rewrite Hq.
Qed.

(** Counts 0 and 101, and a query of three spaces, against the sample
    client: rejected, and the log of upstream calls stays empty. *)
Lemma invalid_arguments_rejected_witness :
  run (Server.get_user_articles
         (Some (Server.medium_client Scenario.client)) "amy" 0)
  = (Raises (PyException "Exception" "Error: Count must be between 1 and 100"), [])
  ∧ run (Server.get_top_feeds
           (Some (Server.medium_client Scenario.client)) "python" "hot" 101)
    = (Raises (PyException "Exception" "Error: Count must be between 1 and 100"), [])
  ∧ run (Server.search_articles
           (Some (Server.medium_client Scenario.client)) "   " 5)
    = (Raises (PyException "Exception" "Error: Search query cannot be empty"), []).
Proof.
  destruct (invalid_arguments_rejected_before_upstream
              (Some (Server.medium_client Scenario.client)) [])
    as (Hcount & Hblank).
  split_conj.
  - exact (proj1 (Hcount 0 ltac:(lia)) "amy").
  - exact (proj1 (proj2 (Hcount 101 ltac:(lia))) "python" "hot").
  - apply Hblank. reflexivity.
Defined.

(* ===================================================================== *)
(** * Configuration: properties *)
(* ===================================================================== *)

Section Strip.

Lemma lstrip_head s :
  PyStr.lstrip s = ""
  ∨ ∃ c t, PyStr.lstrip s = String c t ∧ PyStr.is_space c = false.
Proof.
  induction s as [|c s IH]; simpl; [now left|].
  destruct (PyStr.is_space c) eqn:Hc; [exact IH|].
  right. now exists c, s.
Qed.

Lemma rstrip_idem s : PyStr.rstrip (PyStr.rstrip s) = PyStr.rstrip s.
Proof.
  induction s as [|c s IH]; simpl; [reflexivity|].
  destruct (PyStr.rstrip s) as [|d r] eqn:Hr.
  - destruct (PyStr.is_space c) eqn:Hc; simpl; [reflexivity | now rewrite Hc].
  - change (PyStr.rstrip (String c (String d r)))
      with (match PyStr.rstrip (String d r) with
            | "" => if PyStr.is_space c then "" else String c ""
            | x => String c x
            end).
    now rewrite IH.
Qed.

Lemma rstrip_keeps_head c t :
  PyStr.is_space c = false → ∃ r, PyStr.rstrip (String c t) = String c r.
Proof.
  intros Hc. simpl. destruct (PyStr.rstrip t) as [|d r].
  - rewrite Hc. now exists "".
  - now exists (String d r).
Qed.

Lemma strip_idem s : PyStr.strip (PyStr.strip s) = PyStr.strip s.
Proof.
  unfold PyStr.strip.
  destruct (lstrip_head s) as [->|(c & t & -> & Hc)]; [reflexivity|].
  destruct (rstrip_keeps_head c t Hc) as [r Hr]. rewrite Hr.
  simpl PyStr.lstrip. rewrite Hc. rewrite <- Hr. apply rstrip_idem.
Qed.

End Strip.

Lemma validate_accepts v :
  (10 ≤ String.length (PyStr.strip v))%nat →
  MediumMCPConfig.validate_rapidapi_key v = Returns (PyStr.strip v).
Proof.
  intros Hl. unfold MediumMCPConfig.validate_rapidapi_key.
  destruct (String.eqb_spec v "") as [->|_]; [simpl in Hl; lia|].
  simpl. destruct (Nat.ltb_spec (String.length (PyStr.strip v)) 10);
    [lia | reflexivity].
Qed.

Lemma validate_rejects v :
  (String.length (PyStr.strip v) < 10)%nat →
  MediumMCPConfig.validate_rapidapi_key v
  = Raises (ValueError "RapidAPI key must be at least 10 characters long").
Proof.
  intros Hl. unfold MediumMCPConfig.validate_rapidapi_key.
  destruct (String.eqb v ""); [reflexivity|]. simpl.
  destruct (Nat.ltb_spec (String.length (PyStr.strip v)) 10);
    [reflexivity | lia].
Qed.

(** X1. [validate_rapidapi_key] decides on the trimmed key alone: ten
    characters or more and it returns the trimmed key, fewer and it raises.
    A key it returns has no white space at either end, has ten characters
    or more, and is returned unchanged when validated again. *)
Theorem validate_rapidapi_key_trims_and_bounds (v : string) :
  ((10 ≤ String.length (PyStr.strip v))%nat →
   MediumMCPConfig.validate_rapidapi_key v = Returns (PyStr.strip v))
  ∧ ((String.length (PyStr.strip v) < 10)%nat →
     MediumMCPConfig.validate_rapidapi_key v
     = Raises (ValueError "RapidAPI key must be at least 10 characters long"))
  ∧ (∀ k, MediumMCPConfig.validate_rapidapi_key v = Returns k →
       trimmed k ∧ (10 ≤ String.length k)%nat
       ∧ MediumMCPConfig.validate_rapidapi_key k = Returns k).
Proof.
  split_conj.
  - apply validate_accepts.
  - apply validate_rejects.
  - intros k Hk.
    destruct (Nat.lt_ge_cases (String.length (PyStr.strip v)) 10) as [Hl|Hl].
    + rewrite (validate_rejects v Hl) in Hk. discriminate.
    + rewrite (validate_accepts v Hl) in Hk. injection Hk as <-.
      split_conj; [apply strip_idem | exact Hl |].
      rewrite <- (strip_idem v) at 2. apply validate_accepts.
      now rewrite strip_idem.
Qed.

(** A key padded with spaces is trimmed; a nine-character key is refused. *)
Lemma validate_rapidapi_key_witness :
  MediumMCPConfig.validate_rapidapi_key "  0123456789  " = Returns "0123456789"
  ∧ MediumMCPConfig.validate_rapidapi_key " 012345678 "
    = Raises (ValueError "RapidAPI key must be at least 10 characters long").
Proof.
  split.
  - apply (proj1 (validate_rapidapi_key_trims_and_bounds "  0123456789  ")).
    simpl. lia.
  - apply (proj1 (proj2 (validate_rapidapi_key_trims_and_bounds " 012345678 "))).
    simpl. lia.
Defined.

Lemma config_new_returns `{Pydantic} key m lvl cfg :
  MediumMCPConfig.new key m lvl = Returns cfg ↔
  (10 ≤ String.length (PyStr.strip key))%nat ∧ 1 ≤ m ≤ 100
  ∧ cfg = MediumMCPConfig.mk (PyStr.strip key) m lvl.
Proof.
  unfold MediumMCPConfig.new, MediumMCPConfig.max_articles_ok. split.
  - destruct (Nat.lt_ge_cases (String.length (PyStr.strip key)) 10) as [Hl|Hl].
    + rewrite (validate_rejects key Hl). discriminate.
    + rewrite (validate_accepts key Hl).
      destruct (Z.leb_spec 1 m); simpl; [|discriminate].
      destruct (Z.leb_spec m 100); simpl; [|discriminate].
      intros [= <-]. split_conj; [exact Hl | lia | reflexivity].
  - intros (Hl & Hm & ->). rewrite (validate_accepts key Hl).
    destruct (Z.leb_spec 1 m); [|lia].
    destruct (Z.leb_spec m 100); [reflexivity | lia].
Qed.

(** X2. [MediumMCPConfig(...)] returns a configuration exactly when the
    trimmed key has ten characters or more and the ceiling lies in 1..100;
    the configuration then holds the trimmed key, that ceiling and the log
    level as given.  Every other input raises a [ValidationError]. *)
Theorem config_new_valid_exactly `{Pydantic} (key : string) (m : Z) (lvl : string) :
  (∀ cfg,
     MediumMCPConfig.new key m lvl = Returns cfg ↔
     (10 ≤ String.length (PyStr.strip key))%nat ∧ 1 ≤ m ≤ 100
     ∧ cfg = MediumMCPConfig.mk (PyStr.strip key) m lvl)
  ∧ (∀ e, MediumMCPConfig.new key m lvl = Raises e →
       ∃ msg, e = PyException "ValidationError" msg)
  ∧ (∀ cfg, MediumMCPConfig.new key m lvl = Returns cfg →
       MediumMCPConfig.max_articles_ok
         (MediumMCPConfig.max_articles_per_request cfg) = true
       ∧ trimmed (MediumMCPConfig.rapidapi_key cfg)).
Proof.
  split_conj.
  - intros cfg. apply config_new_returns.
  - unfold MediumMCPConfig.new. intros e.
    destruct (MediumMCPConfig.validate_rapidapi_key key);
      [destruct (MediumMCPConfig.max_articles_ok m)|];
      [discriminate | intros [= <-]; eauto | intros [= <-]; eauto].
  - intros cfg Hc. apply config_new_returns in Hc as (_ & Hm & ->). simpl.
    split; [|apply strip_idem].
    unfold MediumMCPConfig.max_articles_ok.
    destruct (Z.leb_spec 1 m); [|lia]. destruct (Z.leb_spec m 100); [reflexivity|lia].
Qed.

(** X3. [from_env] raises its own [ValueError] when RAPIDAPI_KEY is unset
    or empty, whatever else the environment holds; with a key, it raises the
    [ValueError] of [int] when MAX_ARTICLES_PER_REQUEST is no integer
    literal.  A configuration it returns holds the trimmed key of the
    environment, ten characters or more, and a ceiling in 1..100, what [int]
    reads from MAX_ARTICLES_PER_REQUEST and 3 when it is unset; the log level
    is the uppercase of LOG_LEVEL, of INFO when unset. *)
Theorem from_env_requires_key_and_validates
    `{Pydantic} (upper : string → string) (env : gmap string string) :
  ((env !! "RAPIDAPI_KEY" = None ∨ env !! "RAPIDAPI_KEY" = Some "") →
   Startup.from_env upper env
   = Raises (ValueError
       ("RAPIDAPI_KEY environment variable is required. "
        +:+ "Get your key from https://rapidapi.com/nishujain199719-vgIfuFHZxVZ/api/medium2")))
  ∧ (∀ cfg,
       Startup.from_env upper env = Returns cfg →
       ∃ key,
         env !! "RAPIDAPI_KEY" = Some key
         ∧ MediumMCPConfig.rapidapi_key cfg = PyStr.strip key
         ∧ (10 ≤ String.length (MediumMCPConfig.rapidapi_key cfg))%nat
         ∧ MediumMCPConfig.max_articles_ok
             (MediumMCPConfig.max_articles_per_request cfg) = true
         ∧ PyInt.int (default "3" (env !! "MAX_ARTICLES_PER_REQUEST"))
           = Returns (MediumMCPConfig.max_articles_per_request cfg)
         ∧ (env !! "MAX_ARTICLES_PER_REQUEST" = None →
            MediumMCPConfig.max_articles_per_request cfg = 3)
         ∧ MediumMCPConfig.log_level cfg
           = upper (default "INFO" (env !! "LOG_LEVEL")))
  ∧ (∀ key e,
       env !! "RAPIDAPI_KEY" = Some key → key ≠ "" →
       PyInt.int (default "3" (env !! "MAX_ARTICLES_PER_REQUEST")) = Raises e →
       Startup.from_env upper env = Raises e).
Proof.
  split_conj.
  - unfold Startup.from_env. intros [->| ->]; reflexivity.
  - intros cfg. unfold Startup.from_env.
    destruct (env !! "RAPIDAPI_KEY") as [[|c key]|] eqn:Hkey; try discriminate.
    intros Hc. apply outcome_bind_returns in Hc as (m & Hm & Hc).
    apply config_new_returns in Hc as (Hl & Hrange & ->). simpl.
    exists (String c key). split_conj; try reflexivity; try assumption.
    + unfold MediumMCPConfig.max_articles_ok.
      destruct (Z.leb_spec 1 m); [|lia].
      destruct (Z.leb_spec m 100); [reflexivity | lia].
    + intros Hnone. rewrite Hnone in Hm. simpl in Hm. now injection Hm.
  - intros key e Hkey Hne He. unfold Startup.from_env. rewrite Hkey.
    destruct key as [|c key]; [contradiction|]. now rewrite He.
Qed.

(** [int] on some texts: white space around and single underscores are
    read, the unit separator U+001F is not white space for [int]. *)
Example int_examples :
  PyInt.int " 7 " = Returns 7
  ∧ PyInt.int "-1_0" = Returns (-10)
  ∧ PyInt.int "" = Raises (ValueError "invalid literal for int() with base 10: ''")
  ∧ PyInt.int "1__0"
    = Raises (ValueError "invalid literal for int() with base 10: '1__0'")
  ∧ PyInt.int ("7" +:+ String "031" "")
    = Raises (ValueError "invalid literal for int() with base 10: '7\x1f'").
Proof. repeat split. Qed.

(** An environment whose key is empty, and one with a padded key, the
    ceiling 7 and the level debug. *)
Lemma from_env_witness :
  Startup.from_env sample_upper (<["RAPIDAPI_KEY" := ""]> ∅)
  = Raises (ValueError
      ("RAPIDAPI_KEY environment variable is required. "
       +:+ "Get your key from https://rapidapi.com/nishujain199719-vgIfuFHZxVZ/api/medium2"))
  ∧ ∃ key,
      Startup.from_env sample_upper sample_env
      = Returns (MediumMCPConfig.mk "test_api_key_1234" 7 "DEBUG")
      ∧ sample_env !! "RAPIDAPI_KEY" = Some key
      ∧ "test_api_key_1234" = PyStr.strip key
      ∧ PyInt.int (default "3" (sample_env !! "MAX_ARTICLES_PER_REQUEST"))
        = Returns 7
      ∧ "DEBUG" = sample_upper (default "INFO" (sample_env !! "LOG_LEVEL")).
Proof.
  split.
  - apply (proj1 (from_env_requires_key_and_validates sample_upper
                    (<["RAPIDAPI_KEY" := ""]> ∅))).
    right. reflexivity.
  - assert (Hrun : Startup.from_env sample_upper sample_env
                   = Returns (MediumMCPConfig.mk "test_api_key_1234" 7 "DEBUG"))
      by (vm_compute; reflexivity).
    destruct (proj1 (proj2 (from_env_requires_key_and_validates
                              sample_upper sample_env))
                (MediumMCPConfig.mk "test_api_key_1234" 7 "DEBUG") Hrun)
      as (key & Hkey & Hstrip & _ & _ & Hparsed & _ & Hlevel).
    exists key. split_conj; assumption.
Defined.

(* ===================================================================== *)
(** * Tool surface: an uninitialised server *)
(* ===================================================================== *)

Lemma tools_without_client log :
  (∀ username,
     Server.get_user_info None username log = (Raises not_initialized, log))
  ∧ (∀ username count,
       1 ≤ count ≤ 100 →
       Server.get_user_articles None username count log
       = (Raises not_initialized, log))
  ∧ (∀ article_id format,
       In format ["text"; "html"; "markdown"] →
       Server.get_article_content None article_id format log
       = (Raises not_initialized, log))
  ∧ (∀ tag mode count,
       1 ≤ count ≤ 100 → In mode Server.VALID_FEED_MODES →
       Server.get_top_feeds None tag mode count log
       = (Raises not_initialized, log))
  ∧ (∀ query count,
       PyStr.strip query ≠ "" → 1 ≤ count ≤ 100 →
       Server.search_articles None query count log
       = (Raises not_initialized, log)).
Proof.
  assert (Hcount : ∀ count l, 1 ≤ count ≤ 100 →
            Server.count_in_range count l = (Returns tt, l)).
  { intros count l Hc. unfold Server.count_in_range.
    destruct (Z.ltb_spec count 1); [lia|].
    destruct (Z.gtb_spec count 100); [lia | reflexivity]. }
  split_conj.
  - reflexivity.
  - intros username count Hc. unfold Server.get_user_articles. unfold_m.
    now rewrite Hcount.
  - intros article_id format Hf. unfold Server.get_article_content. unfold_m.
    simpl in Hf. destruct Hf as [<-|[<-|[<-|[]]]]; reflexivity.
  - intros tag mode count Hc Hm. unfold Server.get_top_feeds. unfold_m.
    rewrite Hcount by assumption.
    simpl in Hm.
    destruct Hm as [<-|[<-|[<-|[<-|[<-|[<-|[]]]]]]]; reflexivity.
  - intros query count Hq Hc. unfold Server.search_articles. unfold_m.
    destruct (String.eqb_spec (PyStr.strip query) ""); [contradiction|].
    now rewrite Hcount.
Qed.

(** X4. When [from_env] raises at import time, or the upstream constructor
    does, the module-level client stays None; every tool called with valid
    arguments then raises the not-initialised error, and no upstream call is
    made. *)
Theorem failed_startup_leaves_tools_uninitialised
    `{Pydantic} (upper : string → string)
    (connect : string → outcome Upstream.Medium) (env : gmap string string)
    (log : list event) :
  (∀ e, Startup.initialize_client upper connect env = Raises e →
     Startup.module_client upper connect env = None
     ∧ (∀ username,
          Server.get_user_info (Startup.module_client upper connect env)
            username log
          = (Raises not_initialized, log))
     ∧ (∀ username count,
          1 ≤ count ≤ 100 →
          Server.get_user_articles (Startup.module_client upper connect env)
            username count log
          = (Raises not_initialized, log))
     ∧ (∀ article_id format,
          In format ["text"; "html"; "markdown"] →
          Server.get_article_content (Startup.module_client upper connect env)
            article_id format log
          = (Raises not_initialized, log))
     ∧ (∀ tag mode count,
          1 ≤ count ≤ 100 → In mode Server.VALID_FEED_MODES →
          Server.get_top_feeds (Startup.module_client upper connect env)
            tag mode count log
          = (Raises not_initialized, log))
     ∧ (∀ query count,
          PyStr.strip query ≠ "" → 1 ≤ count ≤ 100 →
          Server.search_articles (Startup.module_client upper connect env)
            query count log
          = (Raises not_initialized, log)))
  ∧ (∀ e, Startup.from_env upper env = Raises e →
       Startup.initialize_client upper connect env = Raises e)
  ∧ (∀ c, Startup.initialize_client upper connect env = Returns c →
       Startup.module_client upper connect env = Some (Server.medium_client c)
       ∧ Startup.from_env upper env = Returns (Client.config c)
       ∧ connect (MediumMCPConfig.rapidapi_key (Client.config c))
         = Returns (Client.medium c)).
Proof.
  split_conj.
  - intros e He.
    assert (Hnone : Startup.module_client upper connect env = None).
    { unfold Startup.module_client. now rewrite He. }
    rewrite Hnone. split; [reflexivity | apply tools_without_client].
  - intros e He. unfold Startup.initialize_client. now rewrite He.
  - intros c. unfold Startup.module_client, Startup.initialize_client.
    destruct (Startup.from_env upper env) as [cfg|e]; [|discriminate]. simpl.
    destruct (connect _) as [m|e] eqn:Hm; [|discriminate]. simpl.
    intros [= <-]. simpl. now rewrite Hm.
Qed.

(** An empty environment: no client, and the profile tool says so without
    an upstream call. *)
Lemma failed_startup_witness :
  Startup.module_client sample_upper (λ _, Returns Scenario.medium) ∅ = None
  ∧ run (Server.get_user_info
           (Startup.module_client sample_upper (λ _, Returns Scenario.medium) ∅)
           "amy")
    = (Raises not_initialized, []).
Proof.
  assert (Hfail : Startup.initialize_client sample_upper
                    (λ _, Returns Scenario.medium) ∅
                  = Raises (ValueError
                      ("RAPIDAPI_KEY environment variable is required. "
                       +:+ "Get your key from https://rapidapi.com/nishujain199719-vgIfuFHZxVZ/api/medium2")))
    by (vm_compute; reflexivity).
  destruct (proj1 (failed_startup_leaves_tools_uninitialised sample_upper
                     (λ _, Returns Scenario.medium) ∅ []) _ Hfail)
    as (Hnone & Hinfo & _).
  split; [exact Hnone | apply Hinfo].
Defined.

(* ===================================================================== *)
(** * Tool surface: failures, validation and rendering *)
(* ===================================================================== *)

Lemma prefix_append p s : String.prefix p (p +:+ s) = true.
Proof.
  induction p as [|c p IH]; simpl; [now destruct s|].
  destruct (ascii_dec c c); [exact IH | contradiction].
Qed.

Lemma tool_except_failure {A : Type} (body : M A) log x log' :
  try_except body Server.tool_except log = (Raises x, log') → tool_failure x.
Proof.
  unfold try_except, Server.tool_except, raise.
  destruct (body log) as [[a|[t msg|m]] l]; [discriminate| |];
    intros [= <- _]; eexists; (split; [reflexivity|]).
  - right. apply prefix_append.
  - left. apply prefix_append.
Qed.

(** X5. Whatever the client object does, a tool that fails raises a plain
    [Exception] whose text starts with Medium API Error: or with Error: ; a
    [MediumError], a [ValueError] or any other exception never leaves the
    tool surface as it is. *)
Theorem tools_raise_only_prefixed_exceptions
    (client : option Server.ClientObject) (log log' : list event) (x : exn) :
  (∀ username,
     Server.get_user_info client username log = (Raises x, log') →
     tool_failure x)
  ∧ (∀ username count,
       Server.get_user_articles client username count log = (Raises x, log') →
       tool_failure x)
  ∧ (∀ article_id format,
       Server.get_article_content client article_id format log
       = (Raises x, log') →
       tool_failure x)
  ∧ (∀ tag mode count,
       Server.get_top_feeds client tag mode count log = (Raises x, log') →
       tool_failure x)
  ∧ (∀ query count,
       Server.search_articles client query count log = (Raises x, log') →
       tool_failure x).
Proof.
  split_conj; intros; eapply tool_except_failure; eassumption.
Qed.

(** A client object whose operations raise a KeyError: the profile tool
    raises an Exception with the prefix Error: . *)
Lemma tools_raise_only_prefixed_witness :
  run (Server.get_user_info (Some Stub.failing_client) "amy")
  = (Raises (PyException "Exception" "Error: 'id'"), [])
  ∧ tool_failure (PyException "Exception" "Error: 'id'").
Proof.
  split; [reflexivity|].
  apply (proj1 (tools_raise_only_prefixed_exceptions
                  (Some Stub.failing_client) [] []
                  (PyException "Exception" "Error: 'id'")) "amy").
  reflexivity.
Defined.

Lemma existsb_eqb_not_in (x : string) (l : list string) :
  ¬ In x l → existsb (String.eqb x) l = false.
Proof.
  induction l as [|y l IH]; simpl; [reflexivity|]. intros Hn.
  destruct (String.eqb_spec x y) as [->|_]; [destruct Hn; now left|].
  apply IH. intros Hin. apply Hn. now right.
Qed.

(** X6. A format outside text, html and markdown makes the article tool
    raise, and a mode outside the six feed modes makes the feed tool raise
    once its count has passed the range check; in both cases before the
    client object is consulted, so no upstream call is made.  The feed
    tool's message names the rejected mode and lists the valid ones. *)
Theorem invalid_format_and_mode_rejected
    (client : option Server.ClientObject) (log : list event) :
  (∀ article_id format,
     ¬ In format ["text"; "html"; "markdown"] →
     Server.get_article_content client article_id format log
     = (Raises (PyException "Exception"
                  "Error: Format must be 'text', 'html', or 'markdown'"), log))
  ∧ (∀ tag mode count,
       1 ≤ count ≤ 100 →
       ¬ In mode ["hot"; "new"; "top_year"; "top_month"; "top_week";
                  "top_all_time"] →
       Server.get_top_feeds client tag mode count log
       = (Raises (PyException "Exception"
                    ("Error: Invalid mode '" +:+ mode
                     +:+ "'. Must be one of: hot, new, top_year, top_month, top_week, top_all_time")),
          log)).
Proof.
  split.
  - intros article_id format Hf. unfold Server.get_article_content. unfold_m.
    now rewrite (existsb_eqb_not_in _ _ Hf).
  - intros tag mode count Hc Hm. unfold Server.get_top_feeds. unfold_m.
    assert (Hok : Server.count_in_range count log = (Returns tt, log)).
    { unfold Server.count_in_range.
      destruct (Z.ltb_spec count 1); [lia|].
      destruct (Z.gtb_spec count 100); [lia | reflexivity]. }
    rewrite Hok. unfold Server.VALID_FEED_MODES.
    rewrite (existsb_eqb_not_in _ _ Hm). reflexivity.
Qed.

(** The format pdf and the mode trending against the sample client. *)
Lemma invalid_format_and_mode_witness :
  run (Server.get_article_content
         (Some (Server.medium_client Scenario.client)) "abc123" "pdf")
  = (Raises (PyException "Exception"
               "Error: Format must be 'text', 'html', or 'markdown'"), [])
  ∧ run (Server.get_top_feeds
           (Some (Server.medium_client Scenario.client)) "ai" "trending" 3)
    = (Raises (PyException "Exception"
                 "Error: Invalid mode 'trending'. Must be one of: hot, new, top_year, top_month, top_week, top_all_time"),
       []).
Proof.
  destruct (invalid_format_and_mode_rejected
              (Some (Server.medium_client Scenario.client)) [])
    as (Hformat & Hmode).
  split.
  - apply Hformat. simpl. intros [H|[H|[H|[]]]]; discriminate.
  - apply Hmode; [lia|]. simpl.
    intros [H|[H|[H|[H|[H|[H|[]]]]]]]; discriminate.
Defined.

Lemma count_in_range_accepts count log :
  1 ≤ count ≤ 100 → Server.count_in_range count log = (Returns tt, log).
Proof.
  intros Hc. unfold Server.count_in_range.
  destruct (Z.ltb_spec count 1); [lia|].
  destruct (Z.gtb_spec count 100); [lia | reflexivity].
Qed.

Lemma dump_articles_is_array articles :
  String.prefix "[" (Server.dump_articles articles) = true.
Proof.
  unfold Server.dump_articles, Json.dumps.
  destruct articles as [[|a l]|]; reflexivity.
Qed.

Lemma try_except_returns {A : Type} (body : M A) handler log a log' :
  try_except body handler log = (Returns a, log') →
  (∀ e l, fst (handler e l) ≠ Returns a) →
  body log = (Returns a, log').
Proof.
  unfold try_except. destruct (body log) as [[b|e] l]; [easy|].
  intros Hh Hn. exfalso. apply (Hn e l). now rewrite Hh.
Qed.

Lemma tool_except_never_returns {A : Type} (a : A) e l :
  fst (Server.tool_except (A := A) e l) ≠ Returns a.
Proof. unfold Server.tool_except, raise. destruct e; discriminate. Qed.

Lemma m_bind_returns {A B : Type} (m : M A) (f : A → M B) log b log' :
  (m ≫= f) log = (Returns b, log') →
  ∃ a l, m log = (Returns a, l) ∧ f a l = (Returns b, log').
Proof.
  unfold mbind, M_bind. destruct (m log) as [[a|e] l]; [eauto | discriminate].
Qed.

Lemma count_in_range_returns count log u l :
  Server.count_in_range count log = (Returns u, l) → 1 ≤ count ≤ 100 ∧ l = log.
Proof.
  unfold Server.count_in_range.
  destruct (Z.ltb_spec count 1); [discriminate|].
  destruct (Z.gtb_spec count 100); [discriminate|].
  intros [= _ <-]. split; [lia | reflexivity].
Qed.

Lemma ensure_client_returns client c l l' :
  Server.ensure_client client l = (Returns c, l') → client = Some c ∧ l' = l.
Proof.
  destruct client as [c'|]; [|discriminate]. now intros [= -> ->].
Qed.

Lemma existsb_eqb_in (x : string) (l : list string) :
  existsb (String.eqb x) l = true ↔ In x l.
Proof.
  rewrite existsb_exists. split.
  - intros (y & Hin & Heq). apply String.eqb_eq in Heq. now subst.
  - intros Hin. exists x. split; [exact Hin | apply String.eqb_refl].
Qed.

Lemma dump_articles_default articles :
  Server.dump_articles articles
  = Json.dumps (JArr (map MediumArticle.model_dump (default [] articles))).
Proof. now destruct articles as [[|a l]|]. Qed.

Lemma dumps_array_empty (items : list json) :
  Json.dumps (JArr items) = "[]" ↔ items = [].
Proof.
  split; [|now intros ->].
  destruct items as [|x l]; [reflexivity|].
  unfold Json.dumps. cbn [Json.dumps_at String.append Json.break Json.newline].
  discriminate.
Qed.

Lemma dumps_object_is_object f fs :
  String.prefix "{" (Json.dumps (JObj (f :: fs))) = true.
Proof. reflexivity. Qed.

(** X7. A tool returns exactly when its arguments pass its checks and the
    client object's operation returns, with the log the operation leaves,
    and what it returns is the rendering of the operation's result: for a
    list tool the JSON array of the records' dumps, in their order, which is
    the empty array [[]] exactly when the client hands it None or an empty
    list; for the two record tools the text null when the client hands it
    None and the JSON object of the record's dump otherwise, which is never
    the text null. *)
Theorem tools_render_arrays_and_objects
    (client : option Server.ClientObject) (log log' : list event) (text : string) :
  (∀ username count,
     Server.get_user_articles client username count log = (Returns text, log')
     ↔ 1 ≤ count ≤ 100
       ∧ ∃ c articles,
           client = Some c
           ∧ Server.client_get_user_articles c username count log
             = (Returns articles, log')
           ∧ text = Json.dumps (JArr (map MediumArticle.model_dump
                                        (default [] articles))))
  ∧ (∀ tag mode count,
       Server.get_top_feeds client tag mode count log = (Returns text, log')
       ↔ 1 ≤ count ≤ 100
         ∧ In mode Server.VALID_FEED_MODES
         ∧ ∃ c articles,
             client = Some c
             ∧ Server.client_get_top_feeds c (Some tag) mode count log
               = (Returns articles, log')
             ∧ text = Json.dumps (JArr (map MediumArticle.model_dump
                                          (default [] articles))))
  ∧ (∀ query count,
       Server.search_articles client query count log = (Returns text, log')
       ↔ PyStr.strip query ≠ ""
         ∧ 1 ≤ count ≤ 100
         ∧ ∃ c articles,
             client = Some c
             ∧ Server.client_search_articles c query count log
               = (Returns articles, log')
             ∧ text = Json.dumps (JArr (map MediumArticle.model_dump
                                          (default [] articles))))
  ∧ (∀ username,
       Server.get_user_info client username log = (Returns text, log')
       ↔ ∃ c user,
           client = Some c
           ∧ Server.client_get_user_info c username log = (Returns user, log')
           ∧ text = match user with
                    | Some u => Json.dumps (MediumUser.model_dump u)
                    | None => "null"
                    end)
  ∧ (∀ article_id format,
       Server.get_article_content client article_id format log
       = (Returns text, log')
       ↔ In format ["text"; "html"; "markdown"]
         ∧ ∃ c content,
             client = Some c
             ∧ Server.client_get_article_content c article_id format log
               = (Returns content, log')
             ∧ text = match content with
                      | Some r => Json.dumps (ArticleContent.model_dump r)
                      | None => "null"
                      end)
  ∧ (∀ articles : option (list MediumArticle.t),
       Json.dumps (JArr (map MediumArticle.model_dump (default [] articles)))
       = "[]"
       ↔ articles = None ∨ articles = Some [])
  ∧ (∀ u, Json.dumps (MediumUser.model_dump u) ≠ "null"
          ∧ String.prefix "{" (Json.dumps (MediumUser.model_dump u)) = true)
  ∧ (∀ r, Json.dumps (ArticleContent.model_dump r) ≠ "null"
          ∧ String.prefix "{" (Json.dumps (ArticleContent.model_dump r)) = true).
Proof.
  split_conj.
  - intros username count. split.
    + intros Hr.
      apply try_except_returns in Hr; [|apply tool_except_never_returns].
      apply m_bind_returns in Hr as (? & ? & Hc & Hr).
      apply count_in_range_returns in Hc as (Hc & ->).
      apply m_bind_returns in Hr as (c & ? & He & Hr).
      apply ensure_client_returns in He as (-> & ->).
      apply m_bind_returns in Hr as (articles & ? & Hop & Hr).
      injection Hr as <- <-.
      split; [exact Hc|]. exists c, articles.
      split_conj; [reflexivity | exact Hop | apply dump_articles_default].
    + intros (Hc & c & articles & -> & Hop & ->).
      unfold Server.get_user_articles, Server.ensure_client. unfold_m.
      rewrite count_in_range_accepts by assumption.
      rewrite Hop. now rewrite dump_articles_default.
  - intros tag mode count. split.
    + intros Hr.
      apply try_except_returns in Hr; [|apply tool_except_never_returns].
      apply m_bind_returns in Hr as (? & ? & Hc & Hr).
      apply count_in_range_returns in Hc as (Hc & ->).
      apply m_bind_returns in Hr as (? & ? & Hmode & Hr).
      destruct (existsb _ _) eqn:Hm; [|discriminate]. injection Hmode as _ <-.
      apply existsb_eqb_in in Hm.
      apply m_bind_returns in Hr as (c & ? & He & Hr).
      apply ensure_client_returns in He as (-> & ->).
      apply m_bind_returns in Hr as (articles & ? & Hop & Hr).
      injection Hr as <- <-.
      split; [exact Hc|]. split; [exact Hm|]. exists c, articles.
      split_conj; [reflexivity | exact Hop | apply dump_articles_default].
    + intros (Hc & Hm & c & articles & -> & Hop & ->).
      apply existsb_eqb_in in Hm.
      unfold Server.get_top_feeds, Server.ensure_client. unfold_m.
      rewrite count_in_range_accepts by assumption.
      rewrite Hm, Hop. now rewrite dump_articles_default.
  - intros query count. split.
    + intros Hr.
      apply try_except_returns in Hr; [|apply tool_except_never_returns].
      apply m_bind_returns in Hr as (? & ? & Hq & Hr).
      destruct (String.eqb_spec (PyStr.strip query) "") as [|Hne];
        [discriminate|]. injection Hq as _ <-.
      apply m_bind_returns in Hr as (? & ? & Hc & Hr).
      apply count_in_range_returns in Hc as (Hc & ->).
      apply m_bind_returns in Hr as (c & ? & He & Hr).
      apply ensure_client_returns in He as (-> & ->).
      apply m_bind_returns in Hr as (articles & ? & Hop & Hr).
      injection Hr as <- <-.
      split; [exact Hne|]. split; [exact Hc|]. exists c, articles.
      split_conj; [reflexivity | exact Hop | apply dump_articles_default].
    + intros (Hne & Hc & c & articles & -> & Hop & ->).
      unfold Server.search_articles, Server.ensure_client. unfold_m.
      destruct (String.eqb_spec (PyStr.strip query) ""); [contradiction|].
      rewrite count_in_range_accepts by assumption.
      rewrite Hop. now rewrite dump_articles_default.
  - intros username. split.
    + intros Hr.
      apply try_except_returns in Hr; [|apply tool_except_never_returns].
      apply m_bind_returns in Hr as (c & ? & He & Hr).
      apply ensure_client_returns in He as (-> & ->).
      apply m_bind_returns in Hr as (user & ? & Hop & Hr).
      injection Hr as <- <-.
      exists c, user. split_conj; [reflexivity | exact Hop |].
      now destruct user.
    + intros (c & user & -> & Hop & ->).
      rewrite server_get_user_info_run, Hop. now destruct user.
  - intros article_id format. split.
    + intros Hr.
      apply try_except_returns in Hr; [|apply tool_except_never_returns].
      apply m_bind_returns in Hr as (? & ? & Hf & Hr).
      destruct (existsb _ _) eqn:Hm; [|discriminate]. injection Hf as _ <-.
      apply existsb_eqb_in in Hm.
      apply m_bind_returns in Hr as (c & ? & He & Hr).
      apply ensure_client_returns in He as (-> & ->).
      apply m_bind_returns in Hr as (content & ? & Hop & Hr).
      injection Hr as <- <-.
      split; [exact Hm|]. exists c, content.
      split_conj; [reflexivity | exact Hop |]. now destruct content.
    + intros (Hm & c & content & -> & Hop & ->).
      apply existsb_eqb_in in Hm.
      unfold Server.get_article_content, Server.ensure_client. unfold_m.
      rewrite Hm, Hop. now destruct content.
  - intros articles. rewrite dumps_array_empty.
    destruct articles as [[|a l]|]; simpl; split; try tauto; try discriminate.
    intros [|]; discriminate.
  - intros u. split; [apply dumps_object_not_null | apply dumps_object_is_object].
  - intros r. split; [apply dumps_object_not_null | apply dumps_object_is_object].
Qed.

(** A stand-in client whose operations return None: the list tool answers
    the empty array, and the profile tool null. *)
Lemma tools_render_arrays_witness :
  run (Server.get_user_articles (Some Stub.none_client) "amy" 3)
  = (Returns "[]", [])
  ∧ run (Server.get_user_info (Some Stub.none_client) "amy")
    = (Returns "null", []).
Proof.
  destruct (tools_render_arrays_and_objects (Some Stub.none_client) [] [] "[]")
    as (Harticles & _).
  destruct (tools_render_arrays_and_objects (Some Stub.none_client) [] [] "null")
    as (_ & _ & _ & Hinfo & _).
  split.
  - apply (Harticles "amy" 3). split; [lia|].
    exists Stub.none_client, None. split_conj; reflexivity.
  - apply (Hinfo "amy").
    exists Stub.none_client, None. split_conj; reflexivity.
Defined.

(* ===================================================================== *)
(** * Upstream calls: which, how many, and with what *)
(* ===================================================================== *)

Lemma server_get_top_feeds_run (c : Server.ClientObject) tag mode count log :
  1 ≤ count ≤ 100 → In mode Server.VALID_FEED_MODES →
  Server.get_top_feeds (Some c) tag mode count log
  = match Server.client_get_top_feeds c (Some tag) mode count log with
    | (Returns articles, l) => (Returns (Server.dump_articles articles), l)
    | (Raises (MediumErr m), l) =>
        (Raises (PyException "Exception" ("Medium API Error: " +:+ message m)), l)
    | (Raises e, l) =>
        (Raises (PyException "Exception" ("Error: " +:+ exn_str e)), l)
    end.
Proof.
  intros Hc Hm. unfold Server.get_top_feeds, Server.ensure_client,
    Server.tool_except. unfold_m.
  rewrite count_in_range_accepts by assumption.
  assert (He : existsb (String.eqb mode) Server.VALID_FEED_MODES = true).
  { apply existsb_exists. exists mode. split; [exact Hm | apply String.eqb_refl]. }
  rewrite He.
  destruct (Server.client_get_top_feeds c (Some tag) mode count log)
    as [[a|[t m|m]] l]; reflexivity.
Qed.

(** X8. Through the feed tool the upstream client is always called with a
    text for the tag, never with None: the tag the caller gave, in canonical
    form, and the empty text when the caller gave none (the tool's default).
    That call is the first one the tool makes. *)
Theorem feed_tool_sends_text_tag
    `{Pydantic} (self : Client.MediumClient) (tag mode : string) (count : Z)
    (log : list event) :
  1 ≤ count ≤ 100 →
  In mode Server.VALID_FEED_MODES →
  ∃ o rest t,
    Server.get_top_feeds (Some (Server.medium_client self)) tag mode count log
    = (o, (log ++ CallTopfeeds (Some t) mode :: rest)%list)
    ∧ normalize_tag (Some tag) = Some t
    ∧ (tag = "" → t = "")
    ∧ (tag ≠ "" → t = PyStr.replace_char " " "-" (PyStr.lower tag)).
Proof.
  intros Hc Hm. rewrite server_get_top_feeds_run by assumption.
  simpl Server.client_get_top_feeds. rewrite get_top_feeds_run. cbv zeta.
  assert (Ht : ∃ t, normalize_tag (Some tag) = Some t
                    ∧ (tag = "" → t = "")
                    ∧ (tag ≠ "" → t = PyStr.replace_char " " "-" (PyStr.lower tag))).
  { unfold normalize_tag. destruct (String.eqb_spec tag "") as [->|Hne].
    - exists "". split_conj; [reflexivity | reflexivity | congruence].
    - eexists. split_conj; [reflexivity | congruence | reflexivity]. }
  destruct Ht as (t & Ht & Hempty & Hfull). rewrite Ht.
  destruct (_ ≫= _) as [results|e].
  - destruct (classified _ _) as [a|[ty msg|m]];
      eexists; eexists; exists t; (split; [reflexivity|]); auto.
  - destruct e; eexists; eexists; exists t; (split; [reflexivity|]); auto.
Qed.

(** The tool's default tag and the tag Machine Learning against the sample
    client. *)
Lemma feed_tool_sends_text_tag_witness :
  (∃ o rest,
     run (Server.get_top_feeds (Some (Server.medium_client Scenario.client))
            "" "top_month" 3)
     = (o, CallTopfeeds (Some "") "top_month" :: rest))
  ∧ (∃ o rest,
       run (Server.get_top_feeds (Some (Server.medium_client Scenario.client))
              "Machine Learning" "hot" 3)
       = (o, CallTopfeeds (Some "machine-learning") "hot" :: rest)).
Proof.
  split.
  - destruct (feed_tool_sends_text_tag Scenario.client "" "top_month" 3 [])
      as (o & rest & t & Hrun & _ & Hempty & _);
      [lia | simpl; tauto |].
    rewrite (Hempty eq_refl) in Hrun. eauto.
  - destruct (feed_tool_sends_text_tag Scenario.client "Machine Learning"
                "hot" 3 [])
      as (o & rest & t & Hrun & _ & _ & Hfull);
      [lia | simpl; tauto |].
    rewrite (Hfull ltac:(discriminate)) in Hrun. eauto.
Defined.

(** X9. [get_top_feeds] and [search_articles] truncate before they hydrate:
    for a count that is not negative and a valid ceiling, the one
    [fetch_articles] call they make receives at most min(count, ceiling)
    stubs, however long the upstream list is. *)
Theorem hydration_is_bounded_by_the_limit
    `{Pydantic} (self : Client.MediumClient) (count : Z) (log : list event) :
  0 ≤ count →
  MediumMCPConfig.max_articles_ok (ceiling self) = true →
  (∀ tag mode,
     ∃ new,
       snd (Client.get_top_feeds self tag mode count log) = (log ++ new)%list
       ∧ ∀ results,
           In (CallFetchArticles results) new →
           Z.of_nat (length results) ≤ Z.min count (ceiling self))
  ∧ (∀ query,
       ∃ new,
         snd (Client.search_articles self query count log) = (log ++ new)%list
         ∧ ∀ results,
             In (CallFetchArticles results) new →
             Z.of_nat (length results) ≤ Z.min count (ceiling self)).
Proof.
  intros Hcount Hceiling.
  assert (Hbound : ∀ all : list pyval,
            Z.of_nat (length (slice_to all (article_limit self count)))
            ≤ Z.min count (ceiling self)).
  { intros all. rewrite selected_length by assumption. lia. }
  split.
  - intros tag mode. rewrite get_top_feeds_run. cbv zeta.
    destruct (Upstream.topfeeds _ _ mode) as [tf|e]; simpl.
    + destruct (py_attr tf "articles") as [v|e]; simpl.
      * destruct (py_slice_to v _) as [sel|e] eqn:Hs; simpl.
        -- apply py_slice_to_returns in Hs as (all & -> & ->).
           eexists. split; [reflexivity|].
           intros results [Hin|[Hin|[]]]; [discriminate|].
           injection Hin as <-. apply Hbound.
        -- eexists. split; [reflexivity|]. intros results [Hin|[]]. discriminate.
      * eexists. split; [reflexivity|]. intros results [Hin|[]]. discriminate.
    + eexists. split; [reflexivity|]. intros results [Hin|[]]. discriminate.
  - intros query. rewrite search_articles_run. cbv zeta.
    destruct (Upstream.search_articles _ query) as [v|e]; simpl.
    + destruct (py_slice_to v _) as [sel|e] eqn:Hs; simpl.
      * apply py_slice_to_returns in Hs as (all & -> & ->).
        eexists. split; [reflexivity|].
        intros results [Hin|[Hin|[]]]; [discriminate|].
        injection Hin as <-. apply Hbound.
      * eexists. split; [reflexivity|]. intros results [Hin|[]]. discriminate.
    + eexists. split; [reflexivity|]. intros results [Hin|[]]. discriminate.
Qed.

(** Two of four stubs requested from the sample client: two are hydrated. *)
Lemma hydration_is_bounded_witness :
  ∃ new,
    snd (run (Client.search_articles Scenario.client "python" 2)) = new
    ∧ ∀ results,
        In (CallFetchArticles results) new → Z.of_nat (length results) ≤ 2.
Proof.
  destruct (hydration_is_bounded_by_the_limit Scenario.client 2 []
              ltac:(lia) eq_refl) as (_ & Hsearch).
  destruct (Hsearch "python") as (new & Hnew & Hbound).
  exists new. split; [exact Hnew | exact Hbound].
Defined.



(** X11. No operation retries or makes a call of its own after a failure:
    the profile and the article-body operations make exactly one upstream
    call, the three list operations their primary call and at most one
    follow-up, whether they return or raise. *)
Theorem operations_make_one_or_two_upstream_calls
    `{Pydantic} (self : Client.MediumClient) (log : list event) :
  (∀ username,
     snd (Client.get_user_info self username log)
     = (log ++ [CallUser username])%list)
  ∧ (∀ article_id content_format,
       snd (Client.get_article_content self article_id content_format log)
       = (log ++ [CallArticle article_id])%list)
  ∧ (∀ username count,
       snd (Client.get_user_articles self username count log)
       = (log ++ [CallUser username])%list
       ∨ ∃ user,
           snd (Client.get_user_articles self username count log)
           = (log ++ [CallUser username; CallUserFetchArticles user])%list)
  ∧ (∀ tag mode count,
       snd (Client.get_top_feeds self tag mode count log)
       = (log ++ [CallTopfeeds (normalize_tag tag) mode])%list
       ∨ ∃ results,
           snd (Client.get_top_feeds self tag mode count log)
           = (log ++ [CallTopfeeds (normalize_tag tag) mode;
                      CallFetchArticles results])%list)
  ∧ (∀ query count,
       snd (Client.search_articles self query count log)
       = (log ++ [CallSearchArticles query])%list
       ∨ ∃ results,
           snd (Client.search_articles self query count log)
           = (log ++ [CallSearchArticles query; CallFetchArticles results])%list).
Proof.
  split_conj.
  - intros username. now rewrite get_user_info_run.
  - intros article_id content_format. now rewrite get_article_content_run.
  - intros username count. rewrite get_user_articles_run.
    destruct (Upstream.user _ username) as [user|e]; [right; eauto | now left].
  - intros tag mode count. rewrite get_top_feeds_run. cbv zeta.
    destruct (_ ≫= _) as [results|e]; [right; eauto | now left].
  - intros query count. rewrite search_articles_run. cbv zeta.
    destruct (_ ≫= _) as [results|e]; [right; eauto | now left].
Qed.

(* ===================================================================== *)
(** * Access layer: missing fields *)
(* ===================================================================== *)

Lemma mapM_raises {A B : Type} (f : A → outcome B) l :
  Exists (λ a, ∃ e, f a = Raises e) l → ∃ e, mapM f l = Raises e.
Proof.
  induction l as [|a l IH]; intros Hex; [inversion Hex|]. simpl.
  destruct (f a) as [r|e] eqn:Ha; simpl; [|eauto].
  inversion Hex as [? ? [e He]|? ? Hl]; subst; [congruence|].
  destruct (IH Hl) as [e ->]. simpl. eauto.
Qed.

Lemma user_article_lacks `{Pydantic} username article :
  lacks_required article → ∃ e, user_article username article = Raises e.
Proof.
  unfold user_article, Client.user_article_kwargs, py_attr.
  intros [Ht|Hu].
  - rewrite Ht. eexists. reflexivity.
  - rewrite Hu.
    destruct (Py.lookup_attr article "title"); [|eexists; reflexivity].
    destruct (convert_to_string (Py.getattr3 article "published_at" _));
      [|eexists; reflexivity].
    destruct (convert_to_string (Py.getattr3 article "last_modified_at" _));
      eexists; reflexivity.
Qed.

Lemma feed_article_lacks `{Pydantic} self article :
  lacks_required (Upstream.hydrated (Client.medium self) article) →
  ∃ e, feed_article self article = Raises e.
Proof.
  unfold feed_article, Client.feed_article_kwargs, py_attr.
  intros [Ht|Hu].
  - rewrite Ht. eexists. reflexivity.
  - rewrite Hu.
    destruct (Py.lookup_attr _ "title"); [|eexists; reflexivity].
    destruct (convert_to_string (Py.getattr3 _ "author" _));
      [|eexists; reflexivity].
    destruct (convert_to_string (Py.getattr3 _ "published_at" _));
      [|eexists; reflexivity].
    destruct (convert_to_string (Py.getattr3 _ "last_modified_at" _));
      eexists; reflexivity.
Qed.

(** X12. The authored-articles and the feed operations return all selected
    records or none: one selected article without a title or without a URL
    makes the whole operation raise a [MediumError], whatever the other
    articles are. *)
Theorem one_article_without_title_fails_the_list
    `{Pydantic} (self : Client.MediumClient) (count : Z) (log : list event) :
  (∀ username user user' available,
     Upstream.user (Client.medium self) username = Returns user →
     Upstream.user_fetch_articles (Client.medium self) user = Returns user' →
     py_attr user' "articles" = Returns (PList available) →
     Exists lacks_required (slice_to available (article_limit self count)) →
     ∃ e,
       fst (Client.get_user_articles self username count log)
       = Raises (MediumErr
                   (api_error e ("getting articles for user " +:+ username))))
  ∧ (∀ tag mode top_feeds available,
       Upstream.topfeeds (Client.medium self) (normalize_tag tag) mode
       = Returns top_feeds →
       py_attr top_feeds "articles" = Returns (PList available) →
       Exists (λ a, lacks_required (Upstream.hydrated (Client.medium self) a))
         (slice_to available (article_limit self count)) →
       ∃ e,
         fst (Client.get_top_feeds self tag mode count log)
         = Raises (MediumErr
                     (api_error e ("getting top feeds for tag " +:+ fmt_tag tag)))).
Proof.
  split.
  - intros username user user' available Hu Hf Ha Hex.
    rewrite get_user_articles_run, Hu. simpl. rewrite Hf. simpl.
    rewrite Ha. simpl.
    destruct (mapM_raises (user_article username)
                (slice_to available (article_limit self count))) as [e He].
    { eapply Exists_impl; [exact Hex|]. intros a. apply user_article_lacks. }
    unfold user_article in He. rewrite He. eexists. reflexivity.
  - intros tag mode top_feeds available Ht Ha Hex.
    rewrite get_top_feeds_run, Ht. simpl. rewrite Ha. simpl.
    destruct (Upstream.fetch_articles _ _) as [[]|e]; simpl;
      [|eexists; reflexivity].
    destruct (mapM_raises (feed_article self)
                (slice_to available (article_limit self count))) as [e He].
    { eapply Exists_impl; [exact Hex|]. intros a. apply feed_article_lacks. }
    unfold feed_article in He. rewrite He. eexists. reflexivity.
Qed.

(** Three articles requested from a profile whose second article has no
    title: the operation raises. *)
Lemma one_article_without_title_witness :
  ∃ e,
    fst (run (Client.get_user_articles patchy_client "amy" 3))
    = Raises (MediumErr (api_error e ("getting articles for user " +:+ "amy"))).
Proof.
  apply (proj1 (one_article_without_title_fails_the_list patchy_client 3 [])
           "amy" (Scenario.user_obj "amy" [])
           (Scenario.user_obj "amy" patchy_articles) patchy_articles).
  - reflexivity.
  - reflexivity.
  - reflexivity.
  - apply Exists_cons_tl, Exists_cons_hd. left. reflexivity.
Defined.

(* ===================================================================== *)
(** * Access layer: search results without fields *)
(* ===================================================================== *)

Lemma mapM_constant {A B : Type} (f : A → outcome B) (b : B) l :
  Forall (λ a, f a = Returns b) l → mapM f l = Returns (map (λ _, b) l).
Proof.
  induction 1 as [|a l Ha _ IH]; [reflexivity|].
  simpl. rewrite Ha. simpl. rewrite IH. reflexivity.
Qed.

Lemma safe_getattr_bare article f d :
  bare_stub article → In (f, d) field_defaults → safe_getattr article f d = d.
Proof.
  intros [_ Hb] Hin.
  destruct (Hb f d Hin); [apply safe_getattr_missing | apply safe_getattr_none];
    assumption.
Qed.

Lemma search_article_bare `{Pydantic} self article :
  bare_stub (Upstream.hydrated (Client.medium self) article) →
  search_article self article = Returns default_article.
Proof.
  intros Hb. unfold search_article, Client.search_article_kwargs.
  rewrite !(safe_getattr_bare _ _ _ Hb) by (cbv [In field_defaults]; tauto).
  rewrite !convert_to_string_text. simpl.
  unfold MediumArticle.new, validated, required, defaulted. simpl.
  repeat (first [rewrite lax_int_exact | rewrite lax_float_exact
                 | rewrite lax_bool_exact]; simpl).
  reflexivity.
Qed.

(** X13. [search_articles] never fails for want of a field: when every
    selected stub comes back from hydration as an object of the upstream
    library (or None) with each field missing or None, the operation returns
    one record per stub, each holding the documented defaults. *)
Theorem search_articles_defaults_for_bare_stubs
    `{Pydantic} (self : Client.MediumClient) (query : string) (count : Z)
    (log : list event) (available : list pyval) :
  Upstream.search_articles (Client.medium self) query
  = Returns (PList available) →
  Upstream.fetch_articles (Client.medium self)
    (slice_to available (article_limit self count)) = Returns tt →
  Forall (λ a, bare_stub (Upstream.hydrated (Client.medium self) a))
    (slice_to available (article_limit self count)) →
  fst (Client.search_articles self query count log)
  = Returns (Some (map (λ _, default_article)
                     (slice_to available (article_limit self count)))).
Proof.
  intros Hs Hf Hb. rewrite search_articles_run, Hs. simpl. rewrite Hf. simpl.
  assert (Hm : mapM (search_article self)
                 (slice_to available (article_limit self count))
               = Returns (map (λ _, default_article)
                            (slice_to available (article_limit self count)))).
  { apply mapM_constant. eapply Forall_impl; [exact Hb|].
    intros a. apply search_article_bare. }
  unfold search_article in Hm. rewrite Hm. reflexivity.
Qed.

(** Two bare stubs found by the search: two records of defaults. *)
Lemma search_articles_defaults_witness :
  fst (run (Client.search_articles bare_client "python" 2))
  = Returns (Some [default_article; default_article]).
Proof.
  apply (search_articles_defaults_for_bare_stubs bare_client "python" 2 []
           bare_articles).
  - reflexivity.
  - reflexivity.
  - constructor; [|constructor; [|constructor]].
    + split; [reflexivity|]. intros f d _. left. reflexivity.
    + split; [reflexivity|]. intros f d _. cbn -[String.eqb].
      destruct (String.eqb "title" f); [right; reflexivity|].
      destruct (String.eqb "claps" f); [right | left]; reflexivity.
Defined.

(* ===================================================================== *)
(** * Access layer: records follow the upstream list *)
(* ===================================================================== *)

Lemma as_str_text v s : as_str v = Some s → v = PStr s.
Proof. destruct v; simpl; try discriminate. now intros [= ->]. Qed.

Lemma article_new_texts `{Pydantic} kw r :
  MediumArticle.new kw = Returns r →
  kwarg kw "title" = PStr (MediumArticle.title r)
  ∧ kwarg kw "url" = PStr (MediumArticle.url r)
  ∧ kwarg kw "article_id" = PStr (MediumArticle.article_id r).
Proof.
  unfold MediumArticle.new, validated. intros Hr.
  repeat match type of Hr with
         | context [mbind _ ?o] =>
             let E := fresh "E" in
             destruct o eqn:E; simpl in Hr; [|discriminate]
         end.
  injection Hr as <-. simpl.
  split_conj; now apply as_str_text, required_kwarg.
Qed.

Lemma user_article_carries `{Pydantic} username a r :
  user_article username a = Returns r → carries a r.
Proof.
  unfold user_article. intros Hr.
  apply outcome_bind_returns in Hr as (kw & Hkw & Hr).
  apply article_new_texts in Hr as (Htitle & Hurl & Hid).
  unfold Client.user_article_kwargs, py_attr in Hkw.
  destruct (Py.lookup_attr a "title") as [t|] eqn:Ht; [|discriminate].
  simpl in Hkw. do 2 invert_bind @outcome_bind_returns Hkw.
  destruct (Py.lookup_attr a "url") as [u|] eqn:Hu; [|discriminate].
  simpl in Hkw. injection Hkw as <-.
  cbn in Htitle, Hurl, Hid. unfold carries.
  rewrite Ht, Hu, Hid. now subst.
Qed.

Lemma feed_article_carries `{Pydantic} self a r :
  feed_article self a = Returns r →
  carries (Upstream.hydrated (Client.medium self) a) r.
Proof.
  unfold feed_article. intros Hr.
  apply outcome_bind_returns in Hr as (kw & Hkw & Hr).
  apply article_new_texts in Hr as (Htitle & Hurl & Hid).
  unfold Client.feed_article_kwargs, py_attr in Hkw.
  destruct (Py.lookup_attr _ "title") as [t|] eqn:Ht; [|discriminate].
  simpl in Hkw. do 3 invert_bind @outcome_bind_returns Hkw.
  destruct (Py.lookup_attr _ "url") as [u|] eqn:Hu; [|discriminate].
  simpl in Hkw. injection Hkw as <-.
  cbn in Htitle, Hurl, Hid. unfold carries.
  rewrite Ht, Hu, Hid. now subst.
Qed.

Lemma search_article_carries `{Pydantic} self a r :
  search_article self a = Returns r →
  carries_safely (Upstream.hydrated (Client.medium self) a) r.
Proof.
  unfold search_article. intros Hr.
  apply outcome_bind_returns in Hr as (kw & Hkw & Hr).
  apply article_new_texts in Hr as (Htitle & Hurl & Hid).
  unfold Client.search_article_kwargs in Hkw.
  do 3 invert_bind @outcome_bind_returns Hkw. injection Hkw as <-.
  cbn in Htitle, Hurl, Hid. unfold carries_safely. auto.
Qed.

(** X14. The list operations neither reorder, drop nor merge: the records
    of a returned list stand position by position for the selected upstream
    articles (for the hydrated ones in the feed and the search), each with
    the title, the URL and the identifier of its article. *)
Theorem list_records_follow_upstream_order
    `{Pydantic} (self : Client.MediumClient) (count : Z) (log : list event) :
  (∀ username l log',
     Client.get_user_articles self username count log = (Returns l, log') →
     ∃ articles user user' available,
       l = Some articles
       ∧ Upstream.user (Client.medium self) username = Returns user
       ∧ Upstream.user_fetch_articles (Client.medium self) user = Returns user'
       ∧ py_attr user' "articles" = Returns (PList available)
       ∧ Forall2 carries
           (slice_to available (article_limit self count)) articles)
  ∧ (∀ tag mode l log',
       Client.get_top_feeds self tag mode count log = (Returns l, log') →
       ∃ articles top_feeds available,
         l = Some articles
         ∧ Upstream.topfeeds (Client.medium self) (normalize_tag tag) mode
           = Returns top_feeds
         ∧ py_attr top_feeds "articles" = Returns (PList available)
         ∧ Forall2 (λ a, carries (Upstream.hydrated (Client.medium self) a))
             (slice_to available (article_limit self count)) articles)
  ∧ (∀ query l log',
       Client.search_articles self query count log = (Returns l, log') →
       ∃ articles available,
         l = Some articles
         ∧ Upstream.search_articles (Client.medium self) query
           = Returns (PList available)
         ∧ Forall2
             (λ a, carries_safely (Upstream.hydrated (Client.medium self) a))
             (slice_to available (article_limit self count)) articles).
Proof.
  split_conj.
  - intros username l log' Hr.
    apply get_user_articles_returns
      in Hr as (articles & user & user' & available & -> & Hu & Hf & Ha & Hm).
    exists articles, user, user', available.
    split_conj; try assumption; try reflexivity.
    apply mapM_returns_Forall2 in Hm.
    eapply Forall2_impl; [exact Hm|]. intros a r. apply user_article_carries.
  - intros tag mode l log' Hr.
    apply get_top_feeds_returns
      in Hr as (articles & top_feeds & available & -> & Ht & Ha & Hm).
    exists articles, top_feeds, available.
    split_conj; try assumption; try reflexivity.
    apply mapM_returns_Forall2 in Hm.
    eapply Forall2_impl; [exact Hm|]. intros a r. apply feed_article_carries.
  - intros query l log' Hr.
    apply search_articles_returns
      in Hr as (articles & available & -> & Hs & Hm).
    exists articles, available.
    split_conj; try assumption; try reflexivity.
    apply mapM_returns_Forall2 in Hm.
    eapply Forall2_impl; [exact Hm|]. intros a r. apply search_article_carries.
Qed.

(** Two authored articles asked of the sample client: the two records stand
    for the first two upstream articles, in their order. *)
Lemma list_records_follow_upstream_order_witness :
  ∃ articles,
    fst (run (Client.get_user_articles Scenario.client "amy" 2))
    = Returns (Some articles)
    ∧ Forall2 carries [Scenario.article_obj "a1"; Scenario.article_obj "a2"]
        articles.
Proof.
  destruct (run (Client.get_user_articles Scenario.client "amy" 2))
    as [[l|e] log'] eqn:Hrun; [|vm_compute in Hrun; discriminate].
  destruct (proj1 (list_records_follow_upstream_order Scenario.client 2 [])
              "amy" l log' Hrun)
    as (articles & user & user' & available & -> & Hu & Hf & Ha & Hall).
  injection Hu as <-. injection Hf as <-. injection Ha as <-.
  exists articles. split; [reflexivity | exact Hall].
Defined.

(* ===================================================================== *)
(** * Tool surface: the number of records *)
(* ===================================================================== *)

(** X15. Through the tool surface the number of records is always
    min(count, ceiling, available): a list tool that returns on the real
    client has passed the range check, so its count is in 1..100, and what
    it renders is the list of exactly that many records.  No hypothesis on
    the count is needed here. *)
Theorem list_tools_return_min_records
    `{Pydantic} (self : Client.MediumClient) (log : list event) :
  MediumMCPConfig.max_articles_ok (ceiling self) = true →
  (∀ username count text log',
     Server.get_user_articles (Some (Server.medium_client self))
       username count log = (Returns text, log') →
     ∃ articles user user' available,
       text = Server.dump_articles (Some articles)
       ∧ 1 ≤ count ≤ 100
       ∧ Upstream.user (Client.medium self) username = Returns user
       ∧ Upstream.user_fetch_articles (Client.medium self) user = Returns user'
       ∧ py_attr user' "articles" = Returns (PList available)
       ∧ Z.of_nat (length articles)
         = Z.min count (Z.min (ceiling self) (Z.of_nat (length available))))
  ∧ (∀ tag mode count text log',
       Server.get_top_feeds (Some (Server.medium_client self))
         tag mode count log = (Returns text, log') →
       ∃ articles top_feeds available,
         text = Server.dump_articles (Some articles)
         ∧ 1 ≤ count ≤ 100
         ∧ Upstream.topfeeds (Client.medium self) (normalize_tag (Some tag)) mode
           = Returns top_feeds
         ∧ py_attr top_feeds "articles" = Returns (PList available)
         ∧ Z.of_nat (length articles)
           = Z.min count (Z.min (ceiling self) (Z.of_nat (length available))))
  ∧ (∀ query count text log',
       Server.search_articles (Some (Server.medium_client self))
         query count log = (Returns text, log') →
       ∃ articles available,
         text = Server.dump_articles (Some articles)
         ∧ 1 ≤ count ≤ 100
         ∧ Upstream.search_articles (Client.medium self) query
           = Returns (PList available)
         ∧ Z.of_nat (length articles)
           = Z.min count (Z.min (ceiling self) (Z.of_nat (length available)))).
Proof.
  intros Hceiling. split_conj.
  - intros username count text log' Hr.
    apply try_except_returns in Hr; [|apply tool_except_never_returns].
    apply m_bind_returns in Hr as (? & ? & Hc & Hr).
    apply count_in_range_returns in Hc as (Hc & ->).
    apply m_bind_returns in Hr as (? & ? & [= <- <-] & Hr).
    apply m_bind_returns in Hr as (l & ? & Hop & Hr). injection Hr as <- _.
    apply get_user_articles_returns
      in Hop as (articles & user & user' & available & -> & Hu & Hf & Ha & Hm).
    exists articles, user, user', available.
    split_conj; try assumption; try reflexivity.
    rewrite (mapM_returns_length _ _ _ Hm).
    apply selected_length; [lia | exact Hceiling].
  - intros tag mode count text log' Hr.
    apply try_except_returns in Hr; [|apply tool_except_never_returns].
    apply m_bind_returns in Hr as (? & ? & Hc & Hr).
    apply count_in_range_returns in Hc as (Hc & ->).
    apply m_bind_returns in Hr as (? & ? & Hmode & Hr).
    destruct (existsb _ _); [|discriminate]. injection Hmode as _ <-.
    apply m_bind_returns in Hr as (? & ? & [= <- <-] & Hr).
    apply m_bind_returns in Hr as (l & ? & Hop & Hr). injection Hr as <- _.
    apply get_top_feeds_returns
      in Hop as (articles & top_feeds & available & -> & Ht & Ha & Hm).
    exists articles, top_feeds, available.
    split_conj; try assumption; try reflexivity.
    rewrite (mapM_returns_length _ _ _ Hm).
    apply selected_length; [lia | exact Hceiling].
  - intros query count text log' Hr.
    apply try_except_returns in Hr; [|apply tool_except_never_returns].
    apply m_bind_returns in Hr as (? & ? & Hq & Hr).
    destruct (String.eqb _ _); [discriminate|]. injection Hq as _ <-.
    apply m_bind_returns in Hr as (? & ? & Hc & Hr).
    apply count_in_range_returns in Hc as (Hc & ->).
    apply m_bind_returns in Hr as (? & ? & [= <- <-] & Hr).
    apply m_bind_returns in Hr as (l & ? & Hop & Hr). injection Hr as <- _.
    apply search_articles_returns
      in Hop as (articles & available & -> & Hs & Hm).
    exists articles, available.
    split_conj; try assumption; try reflexivity.
    rewrite (mapM_returns_length _ _ _ Hm).
    apply selected_length; [lia | exact Hceiling].
Qed.

(** Ten authored articles asked of the sample client through the tool, with
    four upstream and a ceiling of five: four records are rendered. *)
Lemma list_tools_return_min_witness :
  ∃ text articles,
    fst (run (Server.get_user_articles
                (Some (Server.medium_client Scenario.client)) "amy" 10))
    = Returns text
    ∧ text = Server.dump_articles (Some articles)
    ∧ Z.of_nat (length articles) = 4.
Proof.
  destruct (run (Server.get_user_articles
                   (Some (Server.medium_client Scenario.client)) "amy" 10))
    as [[text|e] log'] eqn:Hrun.
  - destruct (proj1 (list_tools_return_min_records Scenario.client [] eq_refl)
                "amy" 10 text log' Hrun)
      as (articles & user & user' & available & Ht & _ & Hu & Hf & Ha & Hlen).
    exists text, articles. split; [reflexivity|]. split; [exact Ht|].
    rewrite Hlen. injection Hu as <-. injection Hf as <-.
    injection Ha as <-. reflexivity.
  - vm_compute in Hrun. discriminate.
Defined.

(* ===================================================================== *)
(** * Normalisation layer: canonical tags *)
(* ===================================================================== *)

Lemma normalize_tag_shape s :
  normalize_tag (Some s)
  = Some (string_of_list_ascii (map canonical_char (list_ascii_of_string s))).
Proof.
  unfold normalize_tag. destruct (String.eqb_spec s "") as [->|_];
    [reflexivity | now rewrite replace_lower_canonical].
Qed.

Lemma canonical_char_canonical c :
  canonical_char c ≠ " "%char
  ∧ PyStr.lower_char (canonical_char c) = canonical_char c.
Proof.
  destruct c as [[] [] [] [] [] [] [] []];
    (split; [now vm_compute | reflexivity]).
Qed.

Lemma canonical_char_fixed c :
  c ≠ " "%char → PyStr.lower_char c = c → canonical_char c = c.
Proof.
  intros Hs Hl. unfold canonical_char.
  destruct (Ascii.eqb_spec c " "%char); [contradiction | exact Hl].
Qed.

(** X16. The image of [normalize_tag] is the set of canonical tags, and the
    canonical tags are exactly its fixed points: the result never holds a
    space or a character that [lower] would change, and a text comes back
    unchanged if and only if it is already of that form. *)
Theorem normalize_tag_fixed_points_are_canonical :
  (∀ s t, normalize_tag (Some s) = Some t → canonical_tag t)
  ∧ (∀ s, normalize_tag (Some s) = Some s ↔ canonical_tag s).
Proof.
  assert (Himage : ∀ s t, normalize_tag (Some s) = Some t → canonical_tag t).
  { intros s t. rewrite normalize_tag_shape. intros [= <-].
    unfold canonical_tag. rewrite list_ascii_of_string_of_list_ascii.
    apply Forall_map, Forall_forall. intros c _.
    apply canonical_char_canonical. }
  split; [exact Himage|].
  intros s. split; [apply Himage|].
  intros Hc. rewrite normalize_tag_shape. f_equal.
  rewrite <- (string_of_list_ascii_of_string s) at 2. f_equal.
  unfold canonical_tag in Hc.
  induction Hc as [|c l [Hs Hl] _ IH]; [reflexivity|].
  simpl. rewrite IH. f_equal. now apply canonical_char_fixed.
Qed.

(* ===================================================================== *)
(** * Access layer: the profile record *)
(* ===================================================================== *)

Lemma getattr3_missing v name default :
  Py.lookup_attr v name = None → Py.getattr3 v name default = default.
Proof. intros Hn. unfold Py.getattr3. now rewrite Hn. Qed.

(** X17. [get_user_info] needs three attributes of the upstream profile and
    no other.  With [username], [fullname] and [followers_count] alone it
    returns a record that holds them (the upstream's spelling of the
    username, not the requested handle) and the defaults of the rest, the
    membership date being the empty text rather than None; without one of
    the three it raises the [MediumError] made of the AttributeError. *)
Theorem get_user_info_needs_three_fields
    `{Pydantic} (self : Client.MediumClient) (handle : string)
    (log : list event) (user : pyval) :
  Upstream.user (Client.medium self) handle = Returns user →
  (∀ username fullname followers,
     minimal_profile user username fullname followers →
     fst (Client.get_user_info self handle log)
     = Returns (Some (MediumUser.mk "" username fullname None followers 0
                        None None (Some "") false false false)))
  ∧ (Exists (λ f, Py.lookup_attr user f = None) required_user_fields →
     ∃ f, In f required_user_fields
          ∧ fst (Client.get_user_info self handle log)
            = Raises (MediumErr (api_error (AttributeError user f)
                                   ("getting user info for " +:+ handle)))).
Proof.
  intros Hu. split.
  - intros username fullname followers (Hn & Hf & Hc & Hopt).
    rewrite get_user_info_run, Hu. simpl.
    unfold Client.user_kwargs, py_attr. rewrite Hn, Hf, Hc. simpl.
    unfold optional_user_fields in Hopt.
    repeat match type of Hopt with
           | Forall _ (_ :: _) =>
               let E := fresh "E" in
               apply Forall_cons in Hopt as [E Hopt];
               rewrite (getattr3_missing _ _ _ E)
           end.
    simpl. unfold MediumUser.new, validated, required, defaulted. simpl.
    repeat (first [rewrite lax_int_exact | rewrite lax_bool_exact]; simpl).
    reflexivity.
  - intros Hex. rewrite get_user_info_run, Hu. simpl.
    unfold Client.user_kwargs, py_attr.
    destruct (Py.lookup_attr user "username") as [n|] eqn:Hn;
      [|exists "username"; split; [simpl; tauto | reflexivity]].
    destruct (Py.lookup_attr user "fullname") as [f|] eqn:Hf;
      [|exists "fullname"; split; [simpl; tauto | reflexivity]].
    destruct (Py.lookup_attr user "followers_count") as [c|] eqn:Hc;
      [|exists "followers_count"; split; [simpl; tauto | reflexivity]].
    exfalso. unfold required_user_fields in Hex.
    repeat (apply Exists_cons in Hex as [Hex|Hex]; [congruence|]).
    inversion Hex.
Qed.

(** The sample profile that has the three attributes alone, asked for under
    the handle amy: the record holds the upstream's Amy and the defaults. *)
Lemma get_user_info_needs_three_witness :
  fst (run (Client.get_user_info minimal_client "amy"))
  = Returns (Some (MediumUser.mk "" "Amy" "Amy A" None 7 0 None None (Some "")
                     false false false)).
Proof.
  apply (proj1 (get_user_info_needs_three_fields minimal_client "amy" []
                  minimal_user eq_refl) "Amy" "Amy A" 7).
  unfold minimal_profile. split_conj; try reflexivity.
  unfold optional_user_fields. repeat (constructor; [reflexivity|]).
  constructor.
Defined.

(* ===================================================================== *)
(** * Access layer: the author of a feed or search record *)
(* ===================================================================== *)

Lemma converted_author_credits a v r :
  (v = Py.getattr3 a "author" (PStr "") ∨ v = safe_getattr a "author" (PStr "")) →
  convert_to_string v = Returns (PStr (MediumArticle.author r)) →
  credits a r.
Proof.
  unfold credits, safe_getattr, Py.getattr3.
  destruct (Py.lookup_attr a "author") as [author|].
  - destruct author as [| | | |s| | |cls rp st call attrs];
      intros [->| ->]; simpl;
      try (intros [= <-]; reflexivity);
      try (intros _ u [=]; fail).
    + rewrite convert_to_string_text. now intros [= <-].
    + rewrite convert_to_string_text. now intros [= <-].
    + intros Hc u Hu Hne.
      rewrite (convert_to_string_handle _ (PStr u)) in Hc;
        [now injection Hc as <- | reflexivity | exact Hu |].
      simpl. now destruct (String.eqb_spec u "").
    + intros Hc u Hu Hne.
      rewrite (convert_to_string_handle _ (PStr u)) in Hc;
        [now injection Hc as <- | reflexivity | exact Hu |].
      simpl. now destruct (String.eqb_spec u "").
  - intros [->| ->]; simpl; now intros [= <-].
Qed.

Lemma feed_article_credits `{Pydantic} self a r :
  feed_article self a = Returns r →
  credits (Upstream.hydrated (Client.medium self) a) r.
Proof.
  unfold feed_article. intros Hr.
  apply outcome_bind_returns in Hr as (kw & Hkw & Hr).
  apply article_new_fields in Hr as (Hauthor & _).
  unfold Client.feed_article_kwargs in Hkw.
  apply outcome_bind_returns in Hkw as (t & _ & Hkw).
  apply outcome_bind_returns in Hkw as (v & Hv & Hkw).
  do 3 invert_bind @outcome_bind_returns Hkw. injection Hkw as <-.
  cbn in Hauthor. apply as_str_text in Hauthor as ->.
  eapply converted_author_credits; [left; reflexivity | exact Hv].
Qed.

Lemma search_article_credits `{Pydantic} self a r :
  search_article self a = Returns r →
  credits (Upstream.hydrated (Client.medium self) a) r.
Proof.
  unfold search_article. intros Hr.
  apply outcome_bind_returns in Hr as (kw & Hkw & Hr).
  apply article_new_fields in Hr as (Hauthor & _).
  unfold Client.search_article_kwargs in Hkw.
  apply outcome_bind_returns in Hkw as (v & Hv & Hkw).
  do 2 invert_bind @outcome_bind_returns Hkw. injection Hkw as <-.
  cbn in Hauthor. apply as_str_text in Hauthor as ->.
  eapply converted_author_credits; [right; reflexivity | exact Hv].
Qed.

(** X18. The records of [get_top_feeds] and of [search_articles] name the
    upstream author, where [get_user_articles] names the requested handle:
    position by position, the author of a record is the username of the
    hydrated article's author object, the author itself when it is a text,
    and the empty text when the article has none. *)
Theorem feed_and_search_records_credit_upstream_author
    `{Pydantic} (self : Client.MediumClient) (count : Z) (log : list event) :
  (∀ tag mode l log',
     Client.get_top_feeds self tag mode count log = (Returns l, log') →
     ∃ articles top_feeds available,
       l = Some articles
       ∧ Upstream.topfeeds (Client.medium self) (normalize_tag tag) mode
         = Returns top_feeds
       ∧ py_attr top_feeds "articles" = Returns (PList available)
       ∧ Forall2 (λ a, credits (Upstream.hydrated (Client.medium self) a))
           (slice_to available (article_limit self count)) articles)
  ∧ (∀ query l log',
       Client.search_articles self query count log = (Returns l, log') →
       ∃ articles available,
         l = Some articles
         ∧ Upstream.search_articles (Client.medium self) query
           = Returns (PList available)
         ∧ Forall2 (λ a, credits (Upstream.hydrated (Client.medium self) a))
             (slice_to available (article_limit self count)) articles).
Proof.
  split.
  - intros tag mode l log' Hr.
    apply get_top_feeds_returns
      in Hr as (articles & top_feeds & available & -> & Ht & Ha & Hm).
    exists articles, top_feeds, available.
    split_conj; try assumption; try reflexivity.
    apply mapM_returns_Forall2 in Hm.
    eapply Forall2_impl; [exact Hm|]. intros a r. apply feed_article_credits.
  - intros query l log' Hr.
    apply search_articles_returns
      in Hr as (articles & available & -> & Hs & Hm).
    exists articles, available.
    split_conj; try assumption; try reflexivity.
    apply mapM_returns_Forall2 in Hm.
    eapply Forall2_impl; [exact Hm|]. intros a r. apply search_article_credits.
Qed.

(** Two feed articles asked of the sample client, whose articles carry an
    author object: the records name that author's username. *)
Lemma feed_and_search_records_credit_witness :
  ∃ articles,
    fst (run (Client.get_top_feeds Scenario.client (Some "python") "hot" 2))
    = Returns (Some articles)
    ∧ Forall2 credits [Scenario.article_obj "a1"; Scenario.article_obj "a2"]
        articles
    ∧ Forall (λ r, MediumArticle.author r = "upstream_author") articles.
Proof.
  destruct (run (Client.get_top_feeds Scenario.client (Some "python") "hot" 2))
    as [[l|e] log'] eqn:Hrun; [|vm_compute in Hrun; discriminate].
  destruct (proj1 (feed_and_search_records_credit_upstream_author
                     Scenario.client 2 [])
              (Some "python") "hot" l log' Hrun)
    as (articles & top_feeds & available & -> & Ht & Ha & Hall).
  injection Ht as <-. injection Ha as <-.
  assert (Hall' : Forall2 credits
                    [Scenario.article_obj "a1"; Scenario.article_obj "a2"]
                    articles) by exact Hall.
  exists articles. split_conj; [reflexivity | exact Hall' |].
  clear Hall Hrun.
  inversion Hall' as [|a r la lr H1 Ht1]; subst.
  inversion Ht1 as [|a' r' la' lr' H2 Ht2]; subst.
  inversion Ht2; subst.
  constructor; [|constructor; [|constructor]].
  - apply (H1 "upstream_author"); [reflexivity | discriminate].
  - apply (H2 "upstream_author"); [reflexivity | discriminate].
Defined.
